(** * Wind-farm power retrieval (prereise/gather/winddata/rap/rap.py)

    A shallow embedding of [ll2uv], [angular_distance], [get_power] and
    [retrieve_data], and the properties of the retrieval pipeline.

    Numbers: Python and numpy floats are modelled by the real numbers [R]
    (exact arithmetic); the not-a-number sentinel of a column is [None].
    Python exceptions are the constructors of [exn]. *)

From Stdlib Require Import Reals Lra Lia ZArith List String Bool.
From Stdlib Require Import Permutation Sorted FinFun.
From Equations Require Import Equations.
Import ListNotations.


(** ** Python exceptions and results *)

Inductive exn : Type :=
| KeyError (key : Z)
| IndexError
| ValueError
| OverflowError.

Inductive result (A : Type) : Type :=
| Ok (a : A)
| Raise (e : exn).

Arguments Ok {A} a.
Arguments Raise {A} e.

Definition rbind {A B} (r : result A) (k : A -> result B) : result B :=
  match r with
  | Ok a => k a
  | Raise e => Raise e
  end.

(** [mapM f l]: a list comprehension [[f x for x in l]] whose body may
    raise; the first exception, in list order, escapes. *)
Fixpoint mapM {A B} (f : A -> result B) (l : list A) : result (list B) :=
  match l with
  | [] => Ok []
  | x :: l' => rbind (f x) (fun y => rbind (mapM f l') (fun ys => Ok (y :: ys)))
  end.

(** [l[k]] on a Python list or a flat numpy array, for [k >= 0]. *)
Definition getitem {A} (l : list A) (k : nat) : result A :=
  match nth_error l k with
  | Some a => Ok a
  | None => Raise IndexError
  end.

(** ** Geometry *)

Module Geo.
Local Open Scope R_scope.

Definition vec3 : Type := R * R * R.

(** [math.radians], [math.degrees] and [math.acos]; the last raises
    [ValueError] ("math domain error") outside [-1, 1]. *)
Definition radians (x : R) : R := x * (PI / 180).
Definition degrees (x : R) : R := x * (180 / PI).

Definition math_acos (x : R) : result R :=
  if Rle_dec (-1) x then
    if Rle_dec x 1 then Ok (acos x) else Raise ValueError
  else Raise ValueError.

Definition ll2uv (lon lat : R) : vec3 :=
  let cos_lat := cos (radians lat) in
  let sin_lat := sin (radians lat) in
  let cos_lon := cos (radians lon) in
  let sin_lon := sin (radians lon) in
  (cos_lat * cos_lon, cos_lat * sin_lon, sin_lat).

Definition dot (uv1 uv2 : vec3) : R :=
  let '(x1, y1, z1) := uv1 in
  let '(x2, y2, z2) := uv2 in
  x1 * x2 + y1 * y2 + z1 * z2.

Definition angular_distance (uv1 uv2 : vec3) : result R :=
  let cos_angle := dot uv1 uv2 in
  let cos_angle := if Rge_dec cos_angle 1 then 1 else cos_angle in
  let cos_angle := if Rle_dec cos_angle (-1) then -1 else cos_angle in
  rbind (math_acos cos_angle) (fun angle => Ok (degrees angle)).

Definition norm2 (uv : vec3) : R := dot uv uv.

End Geo.

(** ** Power curves *)

Module Power.
Local Open Scope R_scope.

(** One line of IECPowerCurves.csv: the column 'Speed bin (m/s)' and one
    column of normalized power per turbine class.  The file itself is not
    part of the sources, so the table is a parameter of [get_power]. *)
Record curve_row : Type := mk_curve_row {
  speed_bin : R;
  power : string -> R
}.

(** A column of a DataFrame: row labels and values. *)
Definition series : Type := list (Z * R).

(** [pd.read_csv] labels the rows 0, 1, 2, ... (a RangeIndex). *)
Definition range_index (n : nat) : list Z := map Z.of_nat (seq 0 n).

Definition np_floor (x : R) : R := IZR (Zfloor x).
Definition np_ceil (x : R) : R := IZR (Zceil x).

Definition Rleb (x y : R) : bool := if Rle_dec x y then true else false.
Definition Rgeb (x y : R) : bool := if Rge_dec x y then true else false.

(** [s[match]]: boolean-mask selection. *)
Fixpoint mask {A} (s : list A) (m : list bool) : list A :=
  match s, m with
  | a :: s', b :: m' => if b then a :: mask s' m' else mask s' m'
  | _, _ => []
  end.

(** [numpy.interp(x, xp, fp)] for increasing [xp]: constant outside
    [xp[0], xp[-1]], and on a segment [slope * (x - xp[j]) + fp[j]]. *)
Fixpoint interp_from (x x0 y0 : R) (pts : list (R * R)) : R :=
  match pts with
  | [] => y0
  | (x1, y1) :: rest =>
      if Rlt_dec x x1 then (y1 - y0) / (x1 - x0) * (x - x0) + y0
      else interp_from x x1 y1 rest
  end.

Definition np_interp (x : R) (xp fp : list R) : result R :=
  match combine xp fp with
  | [] => Raise ValueError
  | (x0, y0) :: rest =>
      Ok (if Rle_dec x x0 then y0 else interp_from x x0 y0 rest)
  end.

Section WithTable.

Variable PowerCurves : list curve_row.

(** [PowerCurves[name]] *)
Definition column (f : curve_row -> R) : series :=
  combine (range_index (List.length PowerCurves)) (map f PowerCurves).

Definition get_power (wspd : R) (turbine : string) : result R :=
  let match_ :=
    map (fun b => Rleb (snd b) (np_ceil wspd) && Rgeb (snd b) (np_floor wspd))
        (column speed_bin) in
  if negb (existsb (fun b => b) match_) then Ok 0
  else
    let values := mask (column (fun r => power r turbine)) match_ in
    np_interp wspd (map (fun v => IZR (fst v)) values) (map snd values).

End WithTable.

End Power.

(** ** Dates and request keys *)

Module Datetime.
Local Open Scope Z_scope.

(** A [datetime.datetime] at hour resolution is the number of hours since
    [datetime.min] (0001-01-01T00:00); [datetime.max] is in the last hour
    of 9999-12-31, day 3652058 counted from 0. *)
Definition days_max : Z := 3652059.
Definition hours_max : Z := 24 * days_max.

(** A calendar date as [strptime(_, '%Y-%m-%d')] accepts it: its number
    of days since 0001-01-01. *)
Record date : Type := mk_date {
  day_number : Z;
  day_number_ok : (0 <=? day_number) && (day_number <? days_max) = true
}.

(** The datetime of the midnight that starts the date. *)
Definition strptime (d : date) : Z := 24 * day_number d.

(** [d + timedelta(hours=h)] for [h >= 0]: OverflowError past
    [datetime.max]. *)
Definition add_hours (d h : Z) : result Z :=
  if d + h <? hours_max then Ok (d + h) else Raise OverflowError.

End Datetime.

Module Rap.
Import Geo Power Datetime.
Local Open Scope Z_scope.

(** The request url [link + ts[:6] + '/' + ts + '/rap_130_' + ts + '_' +
    str(h)[1:] + '_000.grb2?'] is determined by the day [ts] and by the
    number [h] of [range(10000, 12400, 100)]; a request key is that
    pair, the day as the datetime of its midnight. *)
Record file : Type := mk_file { file_day : Z; file_h : Z }.

(** [range(10000, 12400, 100)] *)
Definition hour_codes : list Z :=
  map (fun k => 10000 + 100 * Z.of_nat k) (seq 0 24).

Definition day_files (day : Z) : list file := map (mk_file day) hour_codes.

(** Lines 100-106: the schedule.  [start += step] raises past
    [datetime.max]. *)
Equations? build_files (start end_ : Z) (files : list file)
  : result (list file) by wf (Z.to_nat (end_ + 24 - start)) lt :=
  build_files start end_ files with Z_le_dec start end_ := {
    | right _ := Ok files
    | left _ with Z_lt_dec (start + 24) hours_max := {
        | left _ := build_files (start + 24) end_ (files ++ day_files start)
        | right _ := Raise OverflowError } }.
Proof. lia. Qed.

(** The request keys of [days] consecutive days from [start], in the
    order in which [build_files] appends them. *)
Fixpoint schedule (start : Z) (days : nat) : list file :=
  match days with
  | O => []
  | S d => day_files start ++ schedule (start + 24) d
  end.

(** ** Sites, snapshots, rows *)

(** A line of [wind_farm]: the row label is the plant id. *)
Record site : Type := mk_site {
  site_id : Z;
  lon : R;
  lat : R;
  GenMWMax : R
}.

(** The flattened arrays read from one netCDF response, as arrays of
    numbers: a response that holds NaN or masked entries is not
    described by this record. *)
Record snapshot : Type := mk_snapshot {
  lon_grid : list R;
  lat_grid : list R;
  u_wsp : list R;
  v_wsp : list R
}.

Record row : Type := mk_row {
  plantID : Z;
  U : option R;
  V : option R;
  Pout : option R;
  ts : Z;
  tsID : Z
}.

(** A DataFrame of output rows: each row with its index label. *)
Definition frame : Type := list (Z * row).

Definition reset_index (rows : list row) : frame :=
  combine (range_index (List.length rows)) rows.

(** [data.append(data_tmp, ignore_index=True, sort=False)] *)
Definition append (data : frame) (data_tmp : list row) : frame :=
  reset_index (map snd data ++ data_tmp).

(** [data.empty] *)
Definition empty (data : frame) : bool :=
  match data with [] => true | _ :: _ => false end.

(** [astype(np.int32)] on a column of [data].  The columns of the empty
    frame of line 120 are float64 and [append] keeps that type, so the
    column holds float64 values when it is cast: a whole number within
    the 32-bit range is left as it is, and a number outside of it
    becomes the least 32-bit integer, -2147483648 (what the conversion
    of an out-of-range float64 gives on x86-64). *)
Definition astype_int32 (z : Z) : Z :=
  if (- 2 ^ 31 <=? z) && (z <? 2 ^ 31) then z else - 2 ^ 31.

Definition format_row (r : row) : row :=
  mk_row (astype_int32 (plantID r)) (U r) (V r) (Pout r) (ts r)
         (astype_int32 (tsID r)).

(** [sort_values(by=['tsID', 'plantID'])]: a stable sort on the pair of
    columns, here by insertion; the rows keep their labels. *)
Definition key (r : row) : Z * Z := (tsID r, plantID r).

Definition key_leb (a b : Z * Z) : bool :=
  (fst a <? fst b) || ((fst a =? fst b) && (snd a <=? snd b)).

Fixpoint insert (x : Z * row) (l : frame) : frame :=
  match l with
  | [] => [x]
  | y :: l' =>
      if key_leb (key (snd x)) (key (snd y)) then x :: y :: l'
      else y :: insert x l'
  end.

Fixpoint sort_values (l : frame) : frame :=
  match l with
  | [] => []
  | x :: l' => insert x (sort_values l')
  end.

(** The order of [sort_values]: by timestamp index, then by plant. *)
Definition row_le (a b : row) : Prop :=
  tsID a < tsID b \/ (tsID a = tsID b /\ plantID a <= plantID b).

(** ** The OrderedDict [target2grid] *)

Definition dict : Type := list (Z * nat).

Fixpoint dict_set (d : dict) (k : Z) (v : nat) : dict :=
  match d with
  | [] => [(k, v)]
  | (k', v') :: d' =>
      if k' =? k then (k', v) :: d' else (k', v') :: dict_set d' k v
  end.

Fixpoint dict_get (d : dict) (k : Z) : result nat :=
  match d with
  | [] => Raise (KeyError k)
  | (k', v) :: d' => if k' =? k then Ok v else dict_get d' k
  end.

(** [np.argmin]: the index of the first minimum; ValueError on an empty
    sequence. *)
Fixpoint argmin_from (best : R) (besti i : nat) (l : list R) : nat :=
  match l with
  | [] => besti
  | x :: l' =>
      if Rlt_dec x best then argmin_from x i (S i) l'
      else argmin_from best besti (S i) l'
  end.

Definition np_argmin (l : list R) : result nat :=
  match l with
  | [] => Raise ValueError
  | x :: l' => Ok (argmin_from x 0%nat 1%nat l')
  end.

(** ** The outside world: requests and pauses *)

Inductive event : Type :=
| Get (f : file)
| Sleep (seconds : Z).

(** A computation that may raise and that appends to the trace of the
    events it caused. *)
Definition M (A : Type) : Type := list event -> result A * list event.

Definition ret {A} (a : A) : M A := fun w => (Ok a, w).

Definition bind {A B} (c : M A) (k : A -> M B) : M B :=
  fun w =>
    match c w with
    | (Ok a, w') => k a w'
    | (Raise e, w') => (Raise e, w')
    end.

Definition lift {A} (r : result A) : M A := fun w => (r, w).

Definition emit (e : event) : M unit := fun w => (Ok tt, w ++ [e]).

Declare Scope rap_scope.
Delimit Scope rap_scope with rap.
Notation "x <- c ;; k" := (bind c (fun x => k))
  (at level 61, c at next level, right associativity) : rap_scope.
Notation "c ;; k" := (bind c (fun _ => k))
  (at level 61, right associativity) : rap_scope.
Notation "x <~ c ;; k" := (rbind c (fun x => k))
  (at level 61, c at next level, right associativity) : rap_scope.
Local Open Scope rap_scope.

(** The requests of a trace. *)
Definition requests (w : list event) : list file :=
  flat_map (fun e => match e with Get f => [f] | Sleep _ => [] end) w.

(** The state the loop of lines 129-179 carries from hour to hour. *)
Record loop_state : Type := mk_state {
  data : frame;
  missing : list file;
  target2grid : dict;
  dt : Z
}.

Section Run.

(** The grid data source: the snapshot behind a request key, or [None]
    for a status code other than 200. *)
Variable source : file -> option snapshot.

(** The table read from IECPowerCurves.csv. *)
Variable PowerCurves : list curve_row.

Variable wind_farm : list site.

Definition time_sleep (seconds : Z) : M unit := emit (Sleep seconds).

(** Whether the request of a key fails. *)
Definition failed (f : file) : bool :=
  match source f with None => true | Some _ => false end.

Definition requests_get (f : file) : M (option snapshot) :=
  fun w => (Ok (source f), w ++ [Get f]).

(** Lines 153-157, for one target. *)
Definition nearest (tmp : snapshot) (s : site) : result nat :=
  let uv_target := ll2uv (lon s) (lat s) in
  angle <~ mapM (fun k =>
                   lo <~ getitem (lon_grid tmp) k ;;
                   la <~ getitem (lat_grid tmp) k ;;
                   angular_distance uv_target (ll2uv lo la))
                (seq 0 (List.length (lon_grid tmp))) ;;
  np_argmin angle.

(** Lines 152-157: [for j in range(n_target)]. *)
Fixpoint fill_target2grid (tmp : snapshot) (targets : list site)
    (t2g : dict) : result dict :=
  match targets with
  | [] => Ok t2g
  | s :: rest =>
      k <~ nearest tmp s ;;
      fill_target2grid tmp rest (dict_set t2g (site_id s) k)
  end.

(** Lines 159-162: one wind component at the grid point of each target. *)
Definition extract (t2g : dict) (wsp : list R) : result (list R) :=
  mapM (fun s => k <~ dict_get t2g (site_id s) ;; getitem wsp k) wind_farm.

(** Lines 163-166. *)
Definition wind_speed (u v : R) : R := sqrt (u ^ 2 + v ^ 2).

Definition site_power (val capacity : R) : result R :=
  p <~ get_power PowerCurves val "IEC class 2" ;; Ok (p * capacity)%R.

(** Lines 135-137 and the three columns an hour adds to [data_tmp]. *)
Definition frame_rows (dt_ i : Z)
    (cells : list (site * (option R * option R * option R))) : list row :=
  map (fun c =>
         let '(s, (u, v, p)) := c in mk_row (site_id s) u v p dt_ (i + 1))
      cells.

(** Lines 143-166: the rows of an hour whose request succeeded, and the
    dictionary after it. *)
Definition hour_ok (st : loop_state) (i : Z) (tmp : snapshot)
  : result (list row * dict) :=
  t2g <~ (if empty (data st)
          then fill_target2grid tmp wind_farm (target2grid st)
          else Ok (target2grid st)) ;;
  us <~ extract t2g (u_wsp tmp) ;;
  vs <~ extract t2g (v_wsp tmp) ;;
  let wspd := map (fun uv => wind_speed (fst uv) (snd uv)) (combine us vs) in
  ps <~ mapM (fun vc => site_power (fst vc) (snd vc))
             (combine wspd (map GenMWMax wind_farm)) ;;
  Ok (frame_rows (dt st) i
        (combine wind_farm
           (map (fun c => let '(u, v, p) := c in (Some u, Some v, Some p))
                (combine (combine us vs) ps))),
      t2g).

(** Lines 171-176. *)
Definition hour_missing (st : loop_state) (i : Z) : list row :=
  frame_rows (dt st) i (map (fun s => (s, (None, None, None))) wind_farm).

(** Lines 130-179: one iteration. *)
Definition body (i : Z) (f : file) (st : loop_state) : M loop_state :=
  (if negb (i =? 0) && (i mod 1000 =? 0) then time_sleep 300 else ret tt) ;;
  request <- requests_get f ;;
  st' <- lift (match request with
               | Some tmp =>
                   rt <~ hour_ok st i tmp ;;
                   Ok (mk_state (append (data st) (fst rt)) (missing st)
                                (snd rt) (dt st))
               | None =>
                   Ok (mk_state (append (data st) (hour_missing st i))
                                (missing st ++ [f]) (target2grid st) (dt st))
               end) ;;
  dt' <- lift (add_hours (dt st') 1) ;;
  ret (mk_state (data st') (missing st') (target2grid st') dt').

(** Line 129: [for i, file in enumerate(files)]. *)
Fixpoint loop (i : Z) (files : list file) (st : loop_state) : M loop_state :=
  match files with
  | [] => ret st
  | f :: rest => st' <- body i f st ;; loop (i + 1) rest st'
  end.

(** Lines 181-186. *)
Definition format (d : frame) : frame :=
  let d := map (fun lr => (fst lr, format_row (snd lr))) d in
  reset_index (map snd (sort_values d)).

Definition retrieve_data (start_date end_date : date)
  : M (frame * list file) :=
  files <- lift (build_files (strptime start_date) (strptime end_date) []) ;;
  st <- loop 0 files (mk_state [] [] [] (strptime start_date)) ;;
  ret (format (data st), missing st).

End Run.

(** The plant, the timestamp and the timestamp index of the rows that
    the hour [i] of the loop appends, one row per site. *)
Definition hour_shape (wind_farm : list site) (dt_ i : Z) (rws : list row)
  : Prop :=
  map (fun r => (plantID r, ts r, tsID r)) rws
  = map (fun s => (site_id s, dt_, i + 1)) wind_farm.

End Rap.

(** ** Example inputs *)

Module Examples.
Import Power Datetime Rap.
Local Open Scope R_scope.

(** A power curve with the two bins 5 and 6 m/s, as [pd.read_csv] would
    load it from a two-line file. *)
Definition table_5_6 : list curve_row :=
  [mk_curve_row 5 (fun _ => 0.1); mk_curve_row 6 (fun _ => 0.3)].

(** 2017-01-01 and the day after. *)
Definition day0 : date := mk_date 736329 eq_refl.
Definition day1 : date := mk_date 736330 eq_refl.

Definition site1 : site := mk_site 1 (-110) 40 100.
Definition site2 : site := mk_site 2 (-105) 45 50.

(** A snapshot with a single grid point. *)
Definition grid1 : snapshot := mk_snapshot [-110] [40] [5.5] [0].

(** A source that is down. *)
Definition source_down : file -> option snapshot := fun _ => None.

(** A source whose first hour of the day fails and whose other hours
    answer with [grid1]. *)
Definition source_late : file -> option snapshot :=
  fun f => if (file_h f =? 10000)%Z then None else Some grid1.

(** A source that answers the first request of [day0] only. *)
Definition source_first : file -> option snapshot :=
  fun f =>
    if ((file_day f =? strptime day0) && (file_h f =? 10000))%Z
    then Some grid1 else None.

(** The initial state of the loop of a run that starts on [day0], and
    its first two request keys. *)
Definition state0 : loop_state := mk_state [] [] [] (strptime day0).
Definition file0 : file := mk_file (strptime day0) 10000.
Definition file1 : file := mk_file (strptime day0) 10100.

End Examples.

(** ** Observations on traces, and further example inputs *)

Module Observations.
Import Power Datetime Rap Examples.
Local Open Scope R_scope.

(** The pauses of a trace: the seconds of each [time.sleep]. *)
Definition pauses (w : list event) : list Z :=
  flat_map (fun e => match e with Sleep s => [s] | Get _ => [] end) w.

(** A power curve whose lines are the bins 0, 1 and 2 m/s. *)
Definition table_0_2 : list curve_row :=
  [mk_curve_row 0 (fun _ => 0); mk_curve_row 1 (fun _ => 0.2);
   mk_curve_row 2 (fun _ => 0.6)].

(** 2017-02-11, the 42nd day from [day0], and 9999-12-31. *)
Definition day41 : date := mk_date 736370 eq_refl.
Definition last_day : date := mk_date 3652058 eq_refl.

(** A snapshot with two grid points, and one with none. *)
Definition grid2 : snapshot :=
  mk_snapshot [-100; -110] [40; 40] [3; 5.5] [4; 0].
Definition grid0 : snapshot := mk_snapshot [] [] [] [].

(** A source that answers every request with [grid2], and one that
    answers with the empty grid. *)
Definition source_up : file -> option snapshot := fun _ => Some grid2.
Definition source_empty : file -> option snapshot := fun _ => Some grid0.

(** Two plants whose ids, 2^32 + 1 and 2^33 + 1, are different and do
    not fit 32 bits. *)
Definition site3 : site := mk_site 4294967297 (-110) 40 100.
Definition site4 : site := mk_site 8589934593 (-105) 45 50.

(** The events of the loop of lines 129-133 over a list of files: for
    the file of index [i], a pause of 300 seconds when [i != 0 and
    i % 1000 == 0], and then the request of the file. *)
Definition paced (files : list file) : list event :=
  flat_map (fun kf : Z * file =>
              (if negb (fst kf =? 0)%Z && (fst kf mod 1000 =? 0)%Z
               then [Sleep 300%Z] else [])
              ++ [Get (snd kf)])
           (combine (range_index (List.length files)) files).

(** The row of a plant for an hour whose request succeeded (lines
    159-166): the wind components at the grid point that the dictionary
    gives the plant, and the power of their speed times the capacity. *)
Definition hour_row (PowerCurves : list curve_row) (d : dict)
    (tmp : snapshot) (dt_ i : Z) (s : site) (r : row) : Prop :=
  exists k u v p,
    dict_get d (site_id s) = Ok k /\
    nth_error (u_wsp tmp) k = Some u /\
    nth_error (v_wsp tmp) k = Some v /\
    get_power PowerCurves (sqrt (u ^ 2 + v ^ 2)) "IEC class 2" = Ok p /\
    r = mk_row (site_id s) (Some u) (Some v) (Some (p * GenMWMax s))
               dt_ (i + 1).

End Observations.

(** * Properties *)

Import Geo Power Datetime Rap Examples Observations.

(** ** Geometry *)

Section GeoFacts.
Local Open Scope R_scope.

Lemma math_acos_clamped (c : R) :
  -1 <= c <= 1 -> math_acos c = Ok (acos c).
Proof.
  intros [Hlo Hhi]. unfold math_acos.
  destruct (Rle_dec (-1) c) as [_ | Hn]; [ | contradiction ].
  destruct (Rle_dec c 1) as [_ | Hn]; [ reflexivity | contradiction ].
Qed.

Lemma degrees_PI : degrees PI = 180.
Proof. unfold degrees. field. apply PI_neq0. Qed.

Lemma acos_m1 : acos (-1) = PI.
Proof. unfold acos. destruct (Rle_dec (-1) (-1)); [ reflexivity | lra ]. Qed.

Lemma dot_unit_bound (a b : vec3) :
  norm2 a = 1 -> norm2 b = 1 -> -1 <= dot a b <= 1.
Proof.
  destruct a as [[x1 y1] z1], b as [[x2 y2] z2]. unfold norm2, dot.
  intros Ha Hb.
  assert (Hm := Rle_0_sqr (x1 - x2)). assert (Hm' := Rle_0_sqr (y1 - y2)).
  assert (Hm'' := Rle_0_sqr (z1 - z2)).
  assert (Hp := Rle_0_sqr (x1 + x2)). assert (Hp' := Rle_0_sqr (y1 + y2)).
  assert (Hp'' := Rle_0_sqr (z1 + z2)).
  unfold Rsqr in *. split; lra.
Qed.

Lemma ll2uv_norm2 (lon lat : R) : norm2 (ll2uv lon lat) = 1.
Proof.
  unfold norm2, ll2uv, dot.
  generalize (sin2_cos2 (radians lat)) (sin2_cos2 (radians lon)).
  unfold Rsqr.
  generalize (cos (radians lat)) (sin (radians lat))
             (cos (radians lon)) (sin (radians lon)).
  intros cos_lat sin_lat cos_lon sin_lon Hlat Hlon.
  replace (cos_lat * cos_lon * (cos_lat * cos_lon)
           + cos_lat * sin_lon * (cos_lat * sin_lon) + sin_lat * sin_lat)
    with (cos_lat * cos_lat * (sin_lon * sin_lon + cos_lon * cos_lon)
          + sin_lat * sin_lat) by ring.
  rewrite Hlon. lra.
Qed.

(** C10: the vector returned by [ll2uv] has Euclidean norm 1 in exact
    real arithmetic (x*x + y*y + z*z = 1), for every longitude and
    latitude, and so the dot product of two such vectors is in [-1, 1]. *)
Theorem ll2uv_unit_vector (lon lat lon' lat' : R) :
  (let '(x, y, z) := ll2uv lon lat in x * x + y * y + z * z = 1) /\
  -1 <= dot (ll2uv lon lat) (ll2uv lon' lat') <= 1.
Proof.
  split.
  - exact (ll2uv_norm2 lon lat).
  - apply dot_unit_bound; apply ll2uv_norm2.
Qed.

Lemma angular_distance_returns (uv1 uv2 : vec3) :
  exists angle, angular_distance uv1 uv2 = Ok angle.
Proof.
  unfold angular_distance.
  destruct (Rge_dec (dot uv1 uv2) 1) as [Hge | Hlt].
  - destruct (Rle_dec 1 (-1)) as [Habs | _]; [ lra | ].
    rewrite math_acos_clamped by lra. cbn [rbind]. eauto.
  - destruct (Rle_dec (dot uv1 uv2) (-1)) as [Hle | Hgt];
      rewrite math_acos_clamped by lra; cbn [rbind]; eauto.
Qed.

(** C9: [angular_distance] never raises; a dot product of 1 or more
    (1.0000001, say) gives exactly 0 degrees and a dot product of -1 or
    less (-1.0000001) exactly 180 degrees, the dot product being clamped
    to [-1, 1] before [math.acos]. *)
Theorem angular_distance_clamps (uv1 uv2 : vec3) :
  (exists angle, angular_distance uv1 uv2 = Ok angle) /\
  (dot uv1 uv2 >= 1 -> angular_distance uv1 uv2 = Ok 0) /\
  (dot uv1 uv2 <= -1 -> angular_distance uv1 uv2 = Ok 180).
Proof.
  split; [ apply angular_distance_returns | ].
  unfold angular_distance.
  destruct (Rge_dec (dot uv1 uv2) 1) as [Hge | Hlt].
  - destruct (Rle_dec 1 (-1)) as [Habs | _]; [ lra | ].
    rewrite math_acos_clamped by lra. cbn [rbind]. rewrite acos_1.
    assert (H0 : degrees 0 = 0) by (unfold degrees; lra). rewrite H0.
    split; [ reflexivity | intros; lra ].
  - destruct (Rle_dec (dot uv1 uv2) (-1)) as [Hle | Hgt].
    + rewrite math_acos_clamped by lra. cbn [rbind].
      rewrite acos_m1, degrees_PI.
      split; [ intros; lra | reflexivity ].
    + split; intros; lra.
Qed.

Lemma angular_distance_clamps_witness :
  angular_distance (1.0000001, 0, 0) (1, 0, 0) = Ok 0 /\
  angular_distance (-1.0000001, 0, 0) (1, 0, 0) = Ok 180.
Proof.
  split.
  - apply (angular_distance_clamps (1.0000001, 0, 0) (1, 0, 0)). simpl. lra.
  - apply (angular_distance_clamps (-1.0000001, 0, 0) (1, 0, 0)). simpl. lra.
Defined.

End GeoFacts.

(** ** Power curves *)

Section PowerFacts.
Local Open Scope string_scope.
Local Open Scope R_scope.

Lemma column_values (tbl : list curve_row) (f : curve_row -> R)
    (A : Type) (g : R -> A) :
  map (fun b => g (snd b)) (column tbl f) = map (fun r => g (f r)) tbl.
Proof.
  unfold column, range_index. generalize 0%nat.
  induction tbl as [ | r tbl IH ]; intros a; simpl.
  - reflexivity.
  - f_equal. apply IH.
Qed.

Lemma existsb_map_false (A : Type) (g : A -> bool) (l : list A) :
  (forall a, In a l -> g a = false) ->
  existsb (fun b => b) (map g l) = false.
Proof.
  induction l as [ | a l IH ]; simpl; intros H.
  - reflexivity.
  - rewrite (H a) by (left; reflexivity). simpl. apply IH.
    intros a' Ha'. apply H. right. exact Ha'.
Qed.

(** The guard of [get_power]: no line of the table has its speed bin
    between the floor and the ceiling of the speed. *)
Lemma get_power_no_match (tbl : list curve_row) (wspd : R) (turbine : string) :
  (forall r, In r tbl ->
             np_ceil wspd < speed_bin r \/ speed_bin r < np_floor wspd) ->
  get_power tbl wspd turbine = Ok 0.
Proof.
  intros H. unfold get_power.
  rewrite (column_values tbl speed_bin bool
             (fun b => Rleb b (np_ceil wspd) && Rgeb b (np_floor wspd))).
  rewrite existsb_map_false; [ reflexivity | ].
  intros r Hr. unfold Rleb, Rgeb.
  destruct (H r Hr) as [Hlt | Hlt].
  - destruct (Rle_dec (speed_bin r) (np_ceil wspd)); [ lra | reflexivity ].
  - destruct (Rge_dec (speed_bin r) (np_floor wspd)); [ lra | ].
    apply andb_false_r.
Qed.

(** Evaluation of [get_power] on a concrete table and speed, given the
    floor and the ceiling of the speed. *)
Ltac eval_get_power fl ce :=
  unfold get_power, column, table_5_6; simpl;
  unfold np_ceil, np_floor, Rleb, Rgeb;
  match goal with
  | |- context [Zfloor ?x] =>
      rewrite (Zfloor_eq fl x) by lra; rewrite (Zceil_eq ce x) by lra
  end;
  repeat (destruct Rle_dec; try lra); repeat (destruct Rge_dec; try lra);
  simpl; unfold np_interp; simpl;
  repeat (destruct Rle_dec; try lra); repeat (destruct Rlt_dec; try lra);
  try reflexivity.

Lemma get_power_5_6_at_4_5 : get_power table_5_6 4.5 "IEC class 2" = Ok 0.1.
Proof. eval_get_power 4%Z 5%Z. Qed.

Lemma get_power_5_6_at_6_5 : get_power table_5_6 6.5 "IEC class 2" = Ok 0.3.
Proof. eval_get_power 6%Z 7%Z. Qed.

Lemma get_power_5_6_at_5_5 : get_power table_5_6 5.5 "IEC class 2" = Ok 0.3.
Proof. eval_get_power 5%Z 6%Z. Qed.

Lemma Ok_inj (A : Type) (a b : A) : Ok a = Ok b -> a = b.
Proof. intros H. injection H as H. exact H. Qed.

(** C4, as stated, fails: on the table with bins 5 and 6, the speed 4.5
    is below the lowest bin and the speed 6.5 above the highest, and
    [get_power] returns the stored values 0.1 and 0.3, not 0. *)
Lemma get_power_outside_bins_nonzero :
  (forall r, In r table_5_6 -> 4.5 < speed_bin r) /\
  get_power table_5_6 4.5 "IEC class 2" <> Ok 0 /\
  (forall r, In r table_5_6 -> speed_bin r < 6.5) /\
  get_power table_5_6 6.5 "IEC class 2" <> Ok 0.
Proof.
  assert (Hin : forall r, In r table_5_6 -> speed_bin r = 5 \/ speed_bin r = 6).
  { intros r [<- | [<- | []]]; simpl; auto. }
  repeat split.
  - intros r Hr. destruct (Hin r Hr) as [-> | ->]; lra.
  - rewrite get_power_5_6_at_4_5. intros H. apply Ok_inj in H. lra.
  - intros r Hr. destruct (Hin r Hr) as [-> | ->]; lra.
  - rewrite get_power_5_6_at_6_5. intros H. apply Ok_inj in H. lra.
Qed.

(** C4, amended: when the ceiling of the speed is below the lowest bin of
    the table, or its floor above the highest bin, [get_power] returns
    exactly 0, for every turbine class. *)
Theorem get_power_zero_outside_bins (tbl : list curve_row)
    (lowest highest wspd : R) (turbine : string) :
  (forall r, In r tbl -> lowest <= speed_bin r <= highest) ->
  np_ceil wspd < lowest \/ highest < np_floor wspd ->
  get_power tbl wspd turbine = Ok 0.
Proof.
  intros Hbins Hout. apply get_power_no_match.
  intros r Hr. specialize (Hbins r Hr). destruct Hout; [ left | right ]; lra.
Qed.

Lemma get_power_zero_outside_bins_witness :
  get_power table_5_6 3.5 "IEC class 2" = Ok 0 /\
  get_power table_5_6 7.5 "IEC class 1" = Ok 0.
Proof.
  split.
  - apply (get_power_zero_outside_bins table_5_6 5 6 3.5 "IEC class 2").
    + intros r [<- | [<- | []]]; simpl; lra.
    + left. unfold np_ceil. rewrite (Zceil_eq 4 3.5) by lra. lra.
  - apply (get_power_zero_outside_bins table_5_6 5 6 7.5 "IEC class 1").
    + intros r [<- | [<- | []]]; simpl; lra.
    + right. unfold np_floor. rewrite (Zfloor_eq 7 7.5) by lra. lra.
Defined.

Lemma wind_speed_5_5 : wind_speed 5.5 0 = 5.5.
Proof.
  unfold wind_speed. replace (5.5 ^ 2 + 0 ^ 2) with (5.5 * 5.5) by ring.
  apply sqrt_square. lra.
Qed.

Lemma site_power_5_6_at_5_5 (capacity : R) :
  site_power table_5_6 (wind_speed 5.5 0) capacity = Ok (0.3 * capacity).
Proof.
  rewrite wind_speed_5_5. unfold site_power.
  rewrite get_power_5_6_at_5_5. reflexivity.
Qed.

(** C8, on the scenario of the claim: with the bins {5: 0.1, 6: 0.3}
    read from a file, the speed 5.5 (U = 5.5, V = 0) and the capacities
    100 MW and 50 MW, the code computes 30 MW and 15 MW: [np.interp] is
    given the row labels 0 and 1 as abscissas, not the bins 5 and 6, and
    5.5 lies to the right of both. *)
Theorem site_power_5_6_scenario :
  site_power table_5_6 (wind_speed 5.5 0) 100 = Ok 30 /\
  site_power table_5_6 (wind_speed 5.5 0) 50 = Ok 15 /\
  site_power table_5_6 (wind_speed 5.5 0) 100 <> Ok 20 /\
  site_power table_5_6 (wind_speed 5.5 0) 50 <> Ok 10.
Proof.
  rewrite !site_power_5_6_at_5_5.
  repeat split; try (f_equal; lra); intros H; apply Ok_inj in H; lra.
Qed.

End PowerFacts.

(** ** The schedule *)

Section ScheduleFacts.
Local Open Scope Z_scope.

Lemma build_files_eq (start end_ : Z) (files : list file) :
  build_files start end_ files =
  if Z_le_dec start end_ then
    if Z_lt_dec (start + 24) hours_max
    then build_files (start + 24) end_ (files ++ day_files start)
    else Raise OverflowError
  else Ok files.
Proof.
  rewrite build_files_equation_1.
  destruct (Z_le_dec start end_); simpl; [ | reflexivity ].
  destruct (Z_lt_dec (start + 24) hours_max); reflexivity.
Qed.

Lemma build_files_done (start end_ : Z) (files : list file) :
  end_ < start -> build_files start end_ files = Ok files.
Proof.
  intros H. rewrite build_files_eq.
  destruct (Z_le_dec start end_); [ lia | reflexivity ].
Qed.

Lemma build_files_days (n : nat) : forall start files,
  start + 24 * Z.of_nat (S n) < hours_max ->
  build_files start (start + 24 * Z.of_nat n) files
  = Ok (files ++ schedule start (S n)).
Proof.
  induction n as [ | n IH ]; intros start files Hmax; rewrite build_files_eq.
  - destruct (Z_le_dec start (start + 24 * Z.of_nat 0)); [ | lia ].
    destruct (Z_lt_dec (start + 24) hours_max); [ | lia ].
    rewrite build_files_done by lia.
    cbn [schedule]. rewrite app_nil_r. reflexivity.
  - destruct (Z_le_dec start (start + 24 * Z.of_nat (S n))); [ | lia ].
    destruct (Z_lt_dec (start + 24) hours_max); [ | lia ].
    replace (start + 24 * Z.of_nat (S n))
      with (start + 24 + 24 * Z.of_nat n) by lia.
    rewrite IH by lia. rewrite <- app_assoc. reflexivity.
Qed.

Lemma build_files_overflow (n : nat) : forall start files,
  hours_max <= start + 24 * Z.of_nat (S n) ->
  build_files start (start + 24 * Z.of_nat n) files = Raise OverflowError.
Proof.
  induction n as [ | n IH ]; intros start files Hmax; rewrite build_files_eq.
  - destruct (Z_le_dec start (start + 24 * Z.of_nat 0)); [ | lia ].
    destruct (Z_lt_dec (start + 24) hours_max); [ lia | reflexivity ].
  - destruct (Z_le_dec start (start + 24 * Z.of_nat (S n))); [ | lia ].
    destruct (Z_lt_dec (start + 24) hours_max); [ | reflexivity ].
    replace (start + 24 * Z.of_nat (S n))
      with (start + 24 + 24 * Z.of_nat n) by lia.
    apply IH. lia.
Qed.

Lemma day_number_range (d : date) : 0 <= day_number d < days_max.
Proof.
  destruct d as [n Hn]. cbn [day_number].
  apply andb_prop in Hn. destruct Hn as [H0 H1].
  apply Z.leb_le in H0. apply Z.ltb_lt in H1. lia.
Qed.

(** The schedule of a run that gets past lines 100-106: one entry per
    hour of the days from the start date to the end date. *)
Lemma build_files_dates (start_date end_date : date) (files : list file) :
  build_files (strptime start_date) (strptime end_date) [] = Ok files ->
  files = schedule (strptime start_date)
            (Z.to_nat (day_number end_date + 1 - day_number start_date)).
Proof.
  unfold strptime.
  destruct (Z_lt_dec (day_number end_date) (day_number start_date)) as [Hlt | Hge].
  - rewrite build_files_done by lia. intros H. apply Ok_inj in H. subst files.
    replace (Z.to_nat _) with 0%nat by lia. reflexivity.
  - set (n := Z.to_nat (day_number end_date - day_number start_date)).
    replace (24 * day_number end_date)
      with (24 * day_number start_date + 24 * Z.of_nat n) by lia.
    replace (Z.to_nat (day_number end_date + 1 - day_number start_date))
      with (S n) by lia.
    destruct (Z_lt_dec (24 * day_number start_date + 24 * Z.of_nat (S n)) hours_max).
    + rewrite build_files_days by assumption. intros H. apply Ok_inj in H.
      symmetry. exact H.
    + rewrite build_files_overflow by lia. discriminate.
Qed.

Lemma schedule_length (days : nat) : forall start,
  List.length (schedule start days) = (24 * days)%nat.
Proof.
  induction days as [ | d IH ]; intros start; cbn [schedule].
  - reflexivity.
  - rewrite length_app, IH. unfold day_files. rewrite length_map.
    change (List.length hour_codes) with 24%nat. lia.
Qed.

End ScheduleFacts.

(** ** Frames *)

Section FrameFacts.
Local Open Scope Z_scope.

Lemma combine_range_snd (A : Type) (l : list A) : forall a,
  map snd (combine (map Z.of_nat (seq a (List.length l))) l) = l.
Proof.
  induction l as [ | x l IH ]; intros a; simpl.
  - reflexivity.
  - f_equal. apply IH.
Qed.

Lemma combine_range_fst (A : Type) (l : list A) : forall a,
  map fst (combine (map Z.of_nat (seq a (List.length l))) l)
  = map Z.of_nat (seq a (List.length l)).
Proof.
  induction l as [ | x l IH ]; intros a; simpl.
  - reflexivity.
  - f_equal. apply IH.
Qed.

Lemma reset_index_rows (l : list row) : map snd (reset_index l) = l.
Proof. apply combine_range_snd. Qed.

Lemma reset_index_labels (l : list row) :
  map fst (reset_index l) = range_index (List.length l).
Proof. apply combine_range_fst. Qed.

Lemma reset_index_length (l : list row) :
  List.length (reset_index l) = List.length l.
Proof. rewrite <- (length_map snd), reset_index_rows. reflexivity. Qed.

Lemma append_rows (d : frame) (tmp : list row) :
  map snd (append d tmp) = map snd d ++ tmp.
Proof. apply reset_index_rows. Qed.

Lemma empty_rows (d : frame) : empty d = true <-> map snd d = [].
Proof.
  destruct d; simpl; split; intros H; try reflexivity; discriminate.
Qed.

Lemma insert_perm (x : Z * row) (l : frame) : Permutation (x :: l) (insert x l).
Proof.
  induction l as [ | y l IH ]; simpl.
  - apply Permutation_refl.
  - destruct (key_leb (key (snd x)) (key (snd y))).
    + apply Permutation_refl.
    + apply perm_trans with (y :: x :: l); [ apply perm_swap | ].
      apply perm_skip. exact IH.
Qed.

Lemma sort_values_perm (l : frame) : Permutation l (sort_values l).
Proof.
  induction l as [ | x l IH ]; simpl.
  - apply perm_nil.
  - apply perm_trans with (x :: sort_values l).
    + apply perm_skip. exact IH.
    + apply insert_perm.
Qed.

Lemma format_perm (d : frame) :
  Permutation (map (fun lr => format_row (snd lr)) d) (map snd (format d)).
Proof.
  unfold format. rewrite reset_index_rows.
  replace (map (fun lr => format_row (snd lr)) d)
    with (map snd (map (fun lr => (fst lr, format_row (snd lr))) d))
    by (rewrite map_map; reflexivity).
  apply Permutation_map. apply sort_values_perm.
Qed.

Lemma format_length (d : frame) : List.length (format d) = List.length d.
Proof.
  rewrite <- (length_map snd (format d)).
  rewrite <- (Permutation_length (format_perm d)).
  apply length_map.
Qed.

End FrameFacts.

(** ** One hour of the loop *)

Section LoopFacts.
Local Open Scope Z_scope.

Variable source : file -> option snapshot.
Variable PowerCurves : list curve_row.
Variable wind_farm : list site.

Lemma mapM_length (A B : Type) (f : A -> result B) (l : list A) :
  forall ys, mapM f l = Ok ys -> List.length ys = List.length l.
Proof.
  induction l as [ | x l IH ]; simpl; intros ys H.
  - apply Ok_inj in H. subst ys. reflexivity.
  - destruct (f x) as [y | e]; simpl in H; [ | discriminate ].
    destruct (mapM f l) as [ys' | e]; simpl in H; [ | discriminate ].
    apply Ok_inj in H. subst ys. simpl. f_equal. apply IH. reflexivity.
Qed.

Lemma map_fst_combine (A B C : Type) (g : A -> C) (l1 : list A) :
  forall (l2 : list B), List.length l2 = List.length l1 ->
  map (fun c => g (fst c)) (combine l1 l2) = map g l1.
Proof.
  induction l1 as [ | a l1 IH ]; intros [ | b l2 ] Hlen; simpl in *;
    try reflexivity; try discriminate.
  f_equal. apply IH. lia.
Qed.

(** What every row of the hour [i] holds, whatever the request gave. *)
Lemma frame_rows_keys (dt_ i : Z)
    (cells : list (site * (option R * option R * option R))) :
  map (fun r => (plantID r, ts r, tsID r)) (frame_rows dt_ i cells)
  = map (fun c => (site_id (fst c), dt_, i + 1)) cells.
Proof.
  unfold frame_rows. rewrite map_map. apply map_ext.
  intros [s [[u v] p]]. reflexivity.
Qed.

Lemma hour_missing_shape (st : loop_state) (i : Z) :
  hour_shape wind_farm (dt st) i (hour_missing wind_farm st i).
Proof.
  unfold hour_shape, hour_missing. rewrite frame_rows_keys, map_map.
  reflexivity.
Qed.

Lemma hour_ok_shape (st : loop_state) (i : Z) (tmp : snapshot)
    (rws : list row) (t2g : dict) :
  hour_ok PowerCurves wind_farm st i tmp = Ok (rws, t2g) ->
  hour_shape wind_farm (dt st) i rws.
Proof.
  unfold hour_ok, hour_shape. intros H.
  destruct (if empty (data st) then _ else _) as [d | e];
    cbn [rbind] in H; [ | discriminate ].
  destruct (extract wind_farm d (u_wsp tmp)) as [us | e] eqn:Hus;
    cbn [rbind] in H; [ | discriminate ].
  destruct (extract wind_farm d (v_wsp tmp)) as [vs | e] eqn:Hvs;
    cbn [rbind] in H; [ | discriminate ].
  destruct (mapM _ _) as [ps | e] eqn:Hps; cbn [rbind] in H; [ | discriminate ].
  apply Ok_inj in H. injection H as Hr _. subst rws.
  apply mapM_length in Hus, Hvs, Hps.
  rewrite frame_rows_keys.
  apply (map_fst_combine _ _ _ (fun s => (site_id s, dt st, i + 1))).
  repeat (rewrite length_combine in Hps || rewrite length_map in Hps).
  repeat (rewrite length_combine || rewrite length_map). lia.
Qed.

End LoopFacts.

(** ** The loop *)

Section LoopShape.
Local Open Scope Z_scope.

Variable source : file -> option snapshot.
Variable PowerCurves : list curve_row.
Variable wind_farm : list site.

Lemma requests_app (w1 w2 : list event) :
  requests (w1 ++ w2) = requests w1 ++ requests w2.
Proof. apply flat_map_app. Qed.

Lemma body_inv (i : Z) (f : file) (st st' : loop_state) (w w' : list event) :
  body source PowerCurves wind_farm i f st w = (Ok st', w') ->
  dt st' = dt st + 1 /\
  dt st + 1 < hours_max /\
  requests w' = requests w ++ [f] /\
  match source f with
  | None =>
      data st' = append (data st) (hour_missing wind_farm st i) /\
      missing st' = missing st ++ [f] /\
      target2grid st' = target2grid st
  | Some tmp =>
      exists rws,
        hour_ok PowerCurves wind_farm st i tmp = Ok (rws, target2grid st') /\
        data st' = append (data st) rws /\
        missing st' = missing st
  end.
Proof.
  unfold body, bind, lift, ret, requests_get, time_sleep, emit, add_hours.
  intros H.
  assert (Hreq : requests
            (snd ((if negb (i =? 0) && (i mod 1000 =? 0)
                   then fun w0 => (Ok tt, w0 ++ [Sleep 300])
                   else fun w0 => (Ok tt, w0)) w) ++ [Get f])
                 = requests w ++ [f]).
  { destruct (negb (i =? 0) && (i mod 1000 =? 0)); cbn [snd];
      rewrite ?requests_app; cbn; rewrite ?app_nil_r; reflexivity. }
  destruct (negb (i =? 0) && (i mod 1000 =? 0)); cbn [snd] in Hreq;
    destruct (source f) as [tmp | ];
    try (destruct (hour_ok PowerCurves wind_farm st i tmp)
           as [[rws t2g] | e]; cbn [rbind] in H; [ | discriminate ]);
    cbn [rbind dt data missing target2grid fst snd] in H;
    match type of H with context [?a <? ?b] =>
      destruct (Z.ltb_spec a b) as [Hlt | Hge] end;
    try discriminate;
    injection H as Hst Hw; subst st' w';
    cbn [dt data missing target2grid];
    (split; [ reflexivity | split; [ exact Hlt | split; [ exact Hreq | ] ] ]);
    try (exists rws); repeat split; reflexivity.
Qed.

Lemma flat_map_hours_length (A : Type) (g : nat -> site -> A) (n : nat) :
  forall a,
  List.length (flat_map (fun k => map (g k) wind_farm) (seq a n))
  = (n * List.length wind_farm)%nat.
Proof.
  induction n as [ | n IH ]; intros a; cbn [seq flat_map].
  - reflexivity.
  - rewrite length_app, length_map, IH. reflexivity.
Qed.

(** The state after the hours [a], [a + 1], ... of the schedule. *)
Lemma loop_shape (files : list file) :
  forall (a : nat) (st st' : loop_state) (w w' : list event),
  loop source PowerCurves wind_farm (Z.of_nat a) files st w = (Ok st', w') ->
  dt st' = dt st + Z.of_nat (List.length files) /\
  requests w' = requests w ++ files /\
  missing st' = missing st ++ filter (failed source) files /\
  exists extra,
    map snd (data st') = map snd (data st) ++ extra /\
    map (fun r => (plantID r, ts r, tsID r)) extra
    = flat_map (fun k => map (fun s => (site_id s,
                                        dt st + (Z.of_nat k - Z.of_nat a),
                                        Z.of_nat k + 1)) wind_farm)
               (seq a (List.length files)).
Proof.
  induction files as [ | f files IH ]; intros a st st' w w' H.
  - cbn in H. injection H as <- <-. cbn. rewrite !app_nil_r.
    repeat split; try lia.
    exists []. rewrite app_nil_r. split; reflexivity.
  - cbn [loop] in H. unfold bind in H.
    destruct (body source PowerCurves wind_farm (Z.of_nat a) f st w)
      as [[st1 | e] w1] eqn:Hbody; [ | discriminate ].
    replace (Z.of_nat a + 1) with (Z.of_nat (S a)) in H by lia.
    apply IH in H. destruct H as (Hdt & Hreq & Hmiss & extra & Hrows & Hkeys).
    apply body_inv in Hbody.
    destruct Hbody as (Hdt1 & _ & Hreq1 & Hsrc).
    assert (Hhour : exists rws,
               hour_shape wind_farm (dt st) (Z.of_nat a) rws /\
               data st1 = append (data st) rws /\
               missing st1 = missing st ++ (if failed source f then [f] else [])).
    { unfold failed. destruct (source f) as [tmp | ].
      - destruct Hsrc as (rws & Hok & Hdata & Hm).
        exists rws. rewrite app_nil_r.
        split; [ exact (hour_ok_shape _ _ _ _ _ _ _ Hok) | split; assumption ].
      - destruct Hsrc as (Hdata & Hm & _).
        exists (hour_missing wind_farm st (Z.of_nat a)).
        split; [ apply hour_missing_shape | split; assumption ]. }
    destruct Hhour as (rws & Hshape & Hdata & Hm).
    split; [ rewrite Hdt, Hdt1; cbn [List.length]; lia | ].
    split; [ rewrite Hreq, Hreq1, <- app_assoc; reflexivity | ].
    split.
    { rewrite Hmiss, Hm, <- app_assoc. cbn [filter].
      destruct (failed source f); reflexivity. }
    exists (rws ++ extra). split.
    + rewrite Hrows, Hdata, append_rows, app_assoc. reflexivity.
    + rewrite map_app, Hkeys. cbn [List.length seq flat_map]. f_equal.
      * rewrite Hshape. apply map_ext. intros s. repeat f_equal. lia.
      * apply flat_map_ext. intros k. apply map_ext. intros s.
        rewrite Hdt1. do 2 f_equal. lia.
Qed.

Lemma retrieve_data_inv (start_date end_date : date) (w w' : list event)
    (table : frame) (missing_ : list file) :
  retrieve_data source PowerCurves wind_farm start_date end_date w
  = (Ok (table, missing_), w') ->
  exists files st,
    build_files (strptime start_date) (strptime end_date) [] = Ok files /\
    loop source PowerCurves wind_farm 0 files
         (mk_state [] [] [] (strptime start_date)) w = (Ok st, w') /\
    table = format (data st) /\ missing_ = missing st.
Proof.
  unfold retrieve_data, bind, lift, ret. intros H.
  destruct (build_files _ _ _) as [files | e]; [ | discriminate ].
  destruct (loop source PowerCurves wind_farm 0 files _ w)
    as [[st | e] w1] eqn:Hloop; [ | discriminate ].
  injection H as <- <- <-. exists files, st. repeat split. exact Hloop.
Qed.

End LoopShape.

(** ** The run: number of rows *)

Section RowCount.
Local Open Scope Z_scope.

Variable source : file -> option snapshot.
Variable PowerCurves : list curve_row.
Variable wind_farm : list site.

(** The rows of the table before it is formatted, for a run that
    returns. *)
Lemma retrieve_data_rows (start_date end_date : date) (w w' : list event)
    (table : frame) (missing_ : list file) :
  retrieve_data source PowerCurves wind_farm start_date end_date w
  = (Ok (table, missing_), w') ->
  exists files st,
    files = schedule (strptime start_date)
              (Z.to_nat (day_number end_date + 1 - day_number start_date)) /\
    loop source PowerCurves wind_farm 0 files
         (mk_state [] [] [] (strptime start_date)) w = (Ok st, w') /\
    table = format (data st) /\
    missing_ = filter (failed source) files /\
    requests w' = requests w ++ files /\
    map (fun r => (plantID r, ts r, tsID r)) (map snd (data st))
    = flat_map (fun k => map (fun s => (site_id s,
                                        strptime start_date + Z.of_nat k,
                                        Z.of_nat k + 1)) wind_farm)
               (seq 0 (List.length files)).
Proof.
  intros H. apply retrieve_data_inv in H.
  destruct H as (files & st & Hfiles & Hloop & Htable & Hmissing).
  exists files, st. apply build_files_dates in Hfiles.
  split; [ exact Hfiles | ]. split; [ exact Hloop | ].
  split; [ exact Htable | ].
  apply (loop_shape source PowerCurves wind_farm files 0%nat) in Hloop.
  destruct Hloop as (_ & Hreq & Hmiss & extra & Hrows & Hkeys).
  cbn [data missing dt map app] in Hrows, Hmiss, Hkeys.
  split; [ congruence | ]. split; [ exact Hreq | ].
  rewrite Hrows, Hkeys. apply flat_map_ext. intros k. apply map_ext.
  intros s. do 2 f_equal. lia.
Qed.

(** C6: for every run that completes on a valid date range, the number
    of rows of the returned table is the number of sites times the number
    of scheduled hours, (end_date - start_date + 1 day) * 24, whatever
    the number of requests that failed. *)
Theorem row_count (start_date end_date : date) (w w' : list event)
    (table : frame) (missing_ : list file) :
  day_number start_date <= day_number end_date ->
  retrieve_data source PowerCurves wind_farm start_date end_date w
  = (Ok (table, missing_), w') ->
  Z.of_nat (List.length table)
  = Z.of_nat (List.length wind_farm)
    * ((day_number end_date - day_number start_date + 1) * 24).
Proof.
  intros Hdates H. apply retrieve_data_rows in H.
  destruct H as (files & st & Hfiles & _ & Htable & _ & _ & Hkeys).
  apply (f_equal (@List.length _)) in Hkeys.
  rewrite !length_map, flat_map_hours_length in Hkeys.
  rewrite Htable, format_length, Hkeys, Hfiles, schedule_length. lia.
Qed.

End RowCount.

Lemma row_count_witness :
  exists table missing_ w',
    retrieve_data source_down table_5_6 [site1; site2] day0 day1 []
    = (Ok (table, missing_), w') /\
    Z.of_nat (List.length table) = 96%Z.
Proof.
  destruct (retrieve_data source_down table_5_6 [site1; site2] day0 day1 [])
    as [[[table missing_] | e] w'] eqn:Hrun;
    [ | vm_compute in Hrun; discriminate ].
  exists table, missing_, w'. split; [ reflexivity | ].
  rewrite (row_count source_down table_5_6 [site1; site2] day0 day1 [] w'
             table missing_); [ reflexivity | cbn; lia | exact Hrun ].
Defined.

(** ** A first hour that fails *)

Section FirstHour.
Local Open Scope Z_scope.

Lemma fill_target2grid_grid1 :
  fill_target2grid grid1 [site1] [] = Ok [(1, 0%nat)].
Proof.
  cbn [fill_target2grid]. unfold nearest. cbn.
  destruct (angular_distance_returns
              (ll2uv (-110) 40) (ll2uv (-110) 40)) as [angle Hangle].
  rewrite Hangle. reflexivity.
Qed.

(** C1, on a run whose first request fails and whose second succeeds:
    the failed hour leaves [data] non-empty and the dictionary empty, so
    the test [data.empty] of the first successful hour is false, the
    nearest-grid assignment of that snapshot ({1: 0}) is never computed,
    and the empty dictionary is the one the extraction of U looks the
    plant up in (KeyError). *)
Theorem target2grid_not_built_after_failed_first_hour :
  exists st1 w1,
    body source_late table_5_6 [site1] 0 file0 state0 [] = (Ok st1, w1) /\
    target2grid st1 = [] /\
    empty (data st1) = false /\
    source_late file1 = Some grid1 /\
    fill_target2grid grid1 [site1] [] = Ok [(1, 0%nat)] /\
    hour_ok table_5_6 [site1] st1 1 grid1 = Raise (KeyError 1).
Proof.
  exists (mk_state [(0, mk_row 1 None None None (strptime day0) 1)]
                   [file0] [] (strptime day0 + 1)), [Get file0].
  split; [ vm_compute; reflexivity | ].
  split; [ reflexivity | ]. split; [ reflexivity | ].
  split; [ reflexivity | ].
  split; [ exact fill_target2grid_grid1 | reflexivity ].
Qed.

(** C2, on the same run (one site, one day, the first request fails and
    the others succeed): the run stops at the second hour with a
    KeyError, after two requests, and returns nothing. *)
Theorem failed_first_hour_aborts_run :
  source_late file0 = None /\
  retrieve_data source_late table_5_6 [site1] day0 day0 []
  = (Raise (KeyError 1), [Get file0; Get file1]).
Proof. split; vm_compute; reflexivity. Qed.

End FirstHour.

(** ** Dates out of order, no sites *)

Section Preconditions.
Local Open Scope Z_scope.

Variable source : file -> option snapshot.
Variable PowerCurves : list curve_row.

Lemma loop_no_sites (files : list file) :
  forall (i : Z) (st : loop_state) (w : list event),
  data st = [] ->
  dt st + Z.of_nat (List.length files) < hours_max ->
  exists st' w',
    loop source PowerCurves [] i files st w = (Ok st', w') /\ data st' = [].
Proof.
  induction files as [ | f files IH ]; intros i st w Hdata Hdt.
  - exists st, w. split; [ reflexivity | exact Hdata ].
  - cbn [List.length] in Hdt. cbn [loop].
    unfold bind at 1.
    assert (Hbody : exists st1 w1,
               body source PowerCurves [] i f st w = (Ok st1, w1) /\
               data st1 = [] /\ dt st1 = dt st + 1).
    { unfold body, bind, lift, ret, requests_get, time_sleep, emit, add_hours.
      destruct (negb (i =? 0) && (i mod 1000 =? 0));
        destruct (source f) as [tmp | ]; unfold hour_ok, hour_missing;
        rewrite Hdata; cbn -[hours_max Z.ltb];
        (destruct (Z.ltb_spec (dt st + 1) hours_max); [ | lia ]);
        eexists; eexists; (split; [ reflexivity | split; reflexivity ]). }
    destruct Hbody as (st1 & w1 & Hbody & Hdata1 & Hdt1).
    rewrite Hbody.
    apply IH; [ exact Hdata1 | lia ].
Qed.

(** C3, as stated, fails: with the end date before the start date the
    run returns an empty table and an empty list, without an error; with
    no site the run issues the 24 requests of the day and returns an
    empty table, without an error either. *)
Lemma no_precondition_error :
  retrieve_data source_down table_5_6 [site1] day1 day0 []
  = (Ok ([], []), []) /\
  exists w',
    retrieve_data source_down table_5_6 [] day0 day0 []
    = (Ok ([], schedule (strptime day0) 1), w') /\
    requests w' = schedule (strptime day0) 1.
Proof.
  split; [ vm_compute; reflexivity | ].
  eexists. split; vm_compute; reflexivity.
Qed.

(** C3, amended: if the end date precedes the start date, no request is
    issued and the run returns an empty table and an empty list of
    missing files, without an error; if the site set is empty (and the
    end date is not the last day of the calendar), the requests of the
    schedule are all issued and the run returns an empty table and the
    list of the requests that failed, without an error. *)
Theorem invalid_inputs_return_empty_table (wind_farm : list site)
    (start_date end_date : date) (w : list event) :
  (day_number end_date < day_number start_date ->
   retrieve_data source PowerCurves wind_farm start_date end_date w
   = (Ok ([], []), w)) /\
  (wind_farm = [] ->
   day_number start_date <= day_number end_date ->
   day_number end_date + 1 < days_max ->
   let files :=
     schedule (strptime start_date)
       (Z.to_nat (day_number end_date + 1 - day_number start_date)) in
   exists w',
     retrieve_data source PowerCurves wind_farm start_date end_date w
     = (Ok ([], filter (failed source) files), w') /\
     requests w' = requests w ++ files).
Proof.
  split.
  - intros Hlt. unfold retrieve_data, bind, lift, ret.
    rewrite build_files_done by (unfold strptime; lia). reflexivity.
  - intros -> Hle Hmax files.
    assert (Hfiles : build_files (strptime start_date) (strptime end_date) []
                     = Ok files).
    { unfold strptime, files.
      set (n := Z.to_nat (day_number end_date - day_number start_date)).
      replace (24 * day_number end_date)
        with (24 * day_number start_date + 24 * Z.of_nat n) by lia.
      replace (Z.to_nat (day_number end_date + 1 - day_number start_date))
        with (S n) by lia.
      apply build_files_days. unfold hours_max. lia. }
    destruct (loop_no_sites files 0 (mk_state [] [] [] (strptime start_date)) w)
      as (st & w' & Hloop & Hdata).
    { reflexivity. }
    { cbn [dt]. unfold files. rewrite schedule_length.
      unfold strptime, hours_max. lia. }
    assert (Hrun : retrieve_data source PowerCurves [] start_date end_date w
                   = (Ok (format (data st), missing st), w')).
    { unfold retrieve_data, bind, lift, ret. rewrite Hfiles, Hloop.
      reflexivity. }
    exists w'. rewrite Hrun.
    apply retrieve_data_rows in Hrun.
    destruct Hrun as (files' & st' & Hfiles' & _ & _ & Hmissing & Hreq & _).
    fold files in Hfiles'. subst files'.
    rewrite Hdata, Hmissing. split; [ reflexivity | exact Hreq ].
Qed.

End Preconditions.

Lemma invalid_inputs_return_empty_table_witness :
  retrieve_data source_late table_5_6 [site1; site2] day1 day0 []
  = (Ok ([], []), []) /\
  exists w',
    retrieve_data source_late table_5_6 [] day0 day1 []
    = (Ok ([], filter (failed source_late)
                 (schedule (strptime day0) 2)), w') /\
    requests w' = schedule (strptime day0) 2.
Proof.
  split.
  - apply (invalid_inputs_return_empty_table source_late table_5_6
             [site1; site2] day1 day0 []). cbn. lia.
  - apply (invalid_inputs_return_empty_table source_late table_5_6
             [] day0 day1 []);
      [ reflexivity | cbn; lia | unfold days_max; cbn; lia ].
Defined.

(** ** The run: order of the rows *)

Section SortFacts.
Local Open Scope Z_scope.

Lemma key_leb_row_le (a b : row) :
  key_leb (key a) (key b) = true <-> row_le a b.
Proof.
  unfold key_leb, key, row_le. cbn [fst snd].
  rewrite orb_true_iff, andb_true_iff, Z.ltb_lt, Z.eqb_eq, Z.leb_le.
  reflexivity.
Qed.

Lemma key_leb_total (a b : row) :
  key_leb (key a) (key b) = false -> row_le b a.
Proof.
  intros H. destruct (key_leb (key b) (key a)) eqn:Hba.
  - apply key_leb_row_le. exact Hba.
  - unfold key_leb, key in H, Hba. cbn [fst snd] in H, Hba.
    apply orb_false_iff in H, Hba. destruct H as [H1 H2], Hba as [H3 H4].
    apply Z.ltb_ge in H1, H3.
    apply andb_false_iff in H2, H4.
    rewrite Z.eqb_neq, Z.leb_gt in H2, H4. lia.
Qed.

Lemma row_le_trans (a b c : row) : row_le a b -> row_le b c -> row_le a c.
Proof. unfold row_le. lia. Qed.

Lemma insert_sorted (x : Z * row) (l : frame) :
  StronglySorted row_le (map snd l) ->
  StronglySorted row_le (map snd (insert x l)).
Proof.
  induction l as [ | y l IH ]; intros Hl; cbn [insert].
  - repeat constructor.
  - destruct (key_leb (key (snd x)) (key (snd y))) eqn:Hxy.
    + apply key_leb_row_le in Hxy. cbn [map]. constructor; [ exact Hl | ].
      constructor; [ exact Hxy | ].
      cbn [map] in Hl. apply StronglySorted_inv in Hl. destruct Hl as [_ Hy].
      revert Hy. apply Forall_impl. intros z. apply row_le_trans. exact Hxy.
    + apply key_leb_total in Hxy.
      cbn [map] in Hl |- *. apply StronglySorted_inv in Hl.
      destruct Hl as [Hl Hy]. constructor; [ apply IH; exact Hl | ].
      apply Forall_forall. intros z Hz.
      apply (Permutation_in z
               (Permutation_sym (Permutation_map snd (insert_perm x l)))) in Hz.
      cbn [map] in Hz. destruct Hz as [<- | Hz]; [ exact Hxy | ].
      rewrite Forall_forall in Hy. apply Hy. exact Hz.
Qed.

Lemma sort_values_sorted (l : frame) :
  StronglySorted row_le (map snd (sort_values l)).
Proof.
  induction l as [ | x l IH ]; cbn [sort_values].
  - constructor.
  - apply insert_sorted. exact IH.
Qed.

Lemma format_sorted (d : frame) : StronglySorted row_le (map snd (format d)).
Proof. unfold format. rewrite reset_index_rows. apply sort_values_sorted. Qed.

Lemma format_labels (d : frame) :
  map fst (format d) = range_index (List.length (format d)).
Proof.
  unfold format. rewrite reset_index_labels, reset_index_length. reflexivity.
Qed.

Lemma astype_int32_small (z : Z) :
  - 2 ^ 31 <= z < 2 ^ 31 -> astype_int32 z = z.
Proof.
  intros H. unfold astype_int32.
  destruct (Z.leb_spec (- 2 ^ 31) z); [ | lia ].
  destruct (Z.ltb_spec z (2 ^ 31)); [ reflexivity | lia ].
Qed.

Lemma map_flat_map (A B C : Type) (g : B -> C) (f : A -> list B)
    (l : list A) :
  map g (flat_map f l) = flat_map (fun a => map g (f a)) l.
Proof.
  induction l as [ | a l IH ]; cbn [flat_map].
  - reflexivity.
  - rewrite map_app, IH. reflexivity.
Qed.

(** Pairs (plant, hour) are distinct when the plants are and the hours
    are. *)
Lemma NoDup_hours (ids : list Z) (g : nat -> Z) (ks : list nat) :
  NoDup ids -> NoDup ks ->
  (forall k k', In k ks -> In k' ks -> g k = g k' -> k = k') ->
  NoDup (flat_map (fun k => map (fun p => (p, g k)) ids) ks).
Proof.
  intros Hids. induction ks as [ | k ks IH ]; intros Hks Hinj; cbn [flat_map].
  - constructor.
  - apply NoDup_cons_iff in Hks. destruct Hks as [Hk Hks].
    apply NoDup_app.
    + apply Injective_map_NoDup; [ | exact Hids ].
      intros p q Hpq. injection Hpq as Hpq. exact Hpq.
    + apply IH; [ exact Hks | ].
      intros a b Ha Hb. apply Hinj; right; assumption.
    + intros [p t] Hin Hin'.
      apply in_map_iff in Hin. destruct Hin as (p' & Hp' & _).
      injection Hp' as _ Ht.
      apply in_flat_map in Hin'. destruct Hin' as (k' & Hk' & Hin').
      apply in_map_iff in Hin'. destruct Hin' as (q & Hq & _).
      injection Hq as _ Ht'.
      apply Hk. rewrite (Hinj k k'); [ exact Hk' | left; reflexivity
                                      | right; exact Hk' | congruence ].
Qed.

End SortFacts.

Section OutputOrder.
Local Open Scope Z_scope.

Variable source : file -> option snapshot.
Variable PowerCurves : list curve_row.
Variable wind_farm : list site.

(** A run never has as many as 2^31 hours: the calendar is too short. *)
Lemma schedule_fits_int32 (start_date end_date : date) :
  Z.of_nat (List.length
              (schedule (strptime start_date)
                 (Z.to_nat (day_number end_date + 1 - day_number start_date))))
  < 2 ^ 31.
Proof.
  rewrite schedule_length.
  assert (Hs := day_number_range start_date).
  assert (He := day_number_range end_date).
  unfold days_max in Hs, He.
  change (2 ^ 31) with 2147483648. lia.
Qed.

(** The plant and the timestamp index of the formatted rows, before they
    are sorted. *)
Lemma formatted_keys (start_date end_date : date) (w w' : list event)
    (table : frame) (missing_ : list file) :
  retrieve_data source PowerCurves wind_farm start_date end_date w
  = (Ok (table, missing_), w') ->
  exists n,
    Z.of_nat n < 2 ^ 31 /\
    Permutation
      (flat_map (fun k => map (fun p => (p, astype_int32 (Z.of_nat k + 1)))
                              (map (fun s => astype_int32 (site_id s))
                                   wind_farm))
                (seq 0 n))
      (map (fun lr => (plantID (snd lr), tsID (snd lr))) table).
Proof.
  intros H. apply retrieve_data_rows in H.
  destruct H as (files & st & Hfiles & _ & Htable & _ & _ & Hkeys).
  exists (List.length files). split.
  { rewrite Hfiles. apply schedule_fits_int32. }
  subst table.
  rewrite <- (map_map snd (fun r => (plantID r, tsID r)) (format (data st))).
  apply perm_trans
    with (map (fun r => (plantID r, tsID r))
              (map (fun lr => format_row (snd lr)) (data st)));
    [ | apply Permutation_map; apply format_perm ].
  replace (map (fun r => (plantID r, tsID r))
               (map (fun lr => format_row (snd lr)) (data st)))
    with (map (fun t : Z * Z * Z =>
                 (astype_int32 (fst (fst t)), astype_int32 (snd t)))
              (map (fun r => (plantID r, ts r, tsID r)) (map snd (data st))))
    by (rewrite !map_map; reflexivity).
  rewrite Hkeys, map_flat_map.
  apply Permutation_refl'. apply flat_map_ext. intros k.
  rewrite !map_map. reflexivity.
Qed.

Lemma output_keys_NoDup (start_date end_date : date) (w w' : list event)
    (table : frame) (missing_ : list file) :
  NoDup (map (fun s => astype_int32 (site_id s)) wind_farm) ->
  retrieve_data source PowerCurves wind_farm start_date end_date w
  = (Ok (table, missing_), w') ->
  NoDup (map (fun lr => (plantID (snd lr), tsID (snd lr))) table).
Proof.
  intros Hids H. apply formatted_keys in H.
  destruct H as (n & Hn & Hperm).
  apply (Permutation_NoDup Hperm).
  apply NoDup_hours; [ exact Hids | apply seq_NoDup | ].
  intros k k' Hk Hk' Heq. apply in_seq in Hk, Hk'.
  change (2 ^ 31) with 2147483648 in Hn.
  rewrite !astype_int32_small in Heq
    by (change (2 ^ 31) with 2147483648; lia).
  lia.
Qed.

(** C5, amended: the table that a run returns is sorted ascending by
    (timestamp index, site id), has no two rows with the same (site,
    timestamp index), and its row labels are 0, 1, 2, ...; whatever the
    requests that failed.  Precondition: the site identifiers are unique
    and fit a signed 32-bit integer, the type the table gives them. *)
Theorem output_sorted_unique_dense (start_date end_date : date)
    (w w' : list event) (table : frame) (missing_ : list file) :
  NoDup (map site_id wind_farm) ->
  Forall (fun s => - 2 ^ 31 <= site_id s < 2 ^ 31) wind_farm ->
  retrieve_data source PowerCurves wind_farm start_date end_date w
  = (Ok (table, missing_), w') ->
  StronglySorted
    (fun a b => tsID a < tsID b \/ (tsID a = tsID b /\ plantID a <= plantID b))
    (map snd table) /\
  NoDup (map (fun lr => (plantID (snd lr), tsID (snd lr))) table) /\
  map fst table = range_index (List.length table).
Proof.
  intros Hids Hrange H.
  assert (Hnodup := H). apply output_keys_NoDup in Hnodup.
  - apply retrieve_data_inv in H.
    destruct H as (files & st & _ & _ & Htable & _). subst table.
    split; [ exact (format_sorted (data st)) | ].
    split; [ exact Hnodup | apply format_labels ].
  - replace (map (fun s => astype_int32 (site_id s)) wind_farm)
      with (map site_id wind_farm); [ exact Hids | ].
    apply map_ext_in. intros s Hs. rewrite Forall_forall in Hrange.
    symmetry. apply astype_int32_small. apply Hrange. exact Hs.
Qed.

End OutputOrder.

Lemma output_sorted_unique_dense_witness :
  exists table missing_ w',
    retrieve_data source_down table_5_6 [site2; site1] day0 day0 []
    = (Ok (table, missing_), w') /\
    StronglySorted
      (fun a b => (tsID a < tsID b \/ (tsID a = tsID b /\ plantID a <= plantID b))%Z)
      (map snd table) /\
    NoDup (map (fun lr => (plantID (snd lr), tsID (snd lr))) table) /\
    map fst table = range_index (List.length table).
Proof.
  destruct (retrieve_data source_down table_5_6 [site2; site1] day0 day0 [])
    as [[[table missing_] | e] w'] eqn:Hrun;
    [ | vm_compute in Hrun; discriminate ].
  exists table, missing_, w'. split; [ reflexivity | ].
  apply (output_sorted_unique_dense source_down table_5_6 [site2; site1]
           day0 day0 [] w' table missing_).
  - cbn. repeat constructor; cbn; intuition discriminate.
  - repeat constructor; cbn; lia.
  - exact Hrun.
Defined.

(** C5, as stated, fails: two plants with different ids that do not fit
    32 bits get the same plant id in the table (-2147483648), so the
    table of a run over one day, here with every request failing, holds
    the pair (plant id, timestamp index 1) twice, in its rows 0 and 1. *)
Lemma unique_ids_outside_int32_collide :
  NoDup (map site_id [site3; site4]) /\
  exists table missing_ w' r0 r1 rest,
    retrieve_data source_down table_5_6 [site3; site4] day0 day0 []
    = (Ok (table, missing_), w') /\
    table = (0%Z, r0) :: (1%Z, r1) :: rest /\
    (plantID r0, tsID r0) = (-2147483648, 1)%Z /\
    (plantID r1, tsID r1) = (-2147483648, 1)%Z /\
    ~ NoDup (map (fun lr => (plantID (snd lr), tsID (snd lr))) table).
Proof.
  split.
  - cbn. repeat constructor; cbn; intuition discriminate.
  - destruct (retrieve_data source_down table_5_6 [site3; site4] day0 day0 [])
      as [[[table missing_] | e] w'] eqn:Hrun;
      vm_compute in Hrun; [ | discriminate ].
    injection Hrun as Htable _ _.
    exists table, missing_, w'.
    rewrite <- Htable. do 3 eexists.
    split; [ reflexivity | ]. split; [ reflexivity | ].
    split; [ reflexivity | ]. split; [ reflexivity | ].
    intros H. cbn [map snd plantID tsID] in H.
    apply NoDup_cons_iff in H. destruct H as [Hn _].
    apply Hn. left. reflexivity.
Qed.

(** ** The run: a failed hour *)

Section ListFacts.

Lemma Permutation_filter (A : Type) (p : A -> bool) (l l' : list A) :
  Permutation l l' -> Permutation (filter p l) (filter p l').
Proof.
  induction 1 as [ | x l l' _ IH | x y l | l l' l'' _ IH1 _ IH2 ]; cbn [filter].
  - apply perm_nil.
  - destruct (p x); [ apply perm_skip | ]; exact IH.
  - destruct (p x), (p y); try apply Permutation_refl. apply perm_swap.
  - apply perm_trans with (filter p l'); assumption.
Qed.

Lemma filter_none (A : Type) (p : A -> bool) (l : list A) :
  Forall (fun a => p a = false) l -> filter p l = [].
Proof.
  induction 1 as [ | a l Ha _ IH ]; cbn [filter].
  - reflexivity.
  - rewrite Ha. exact IH.
Qed.

Lemma filter_all (A : Type) (p : A -> bool) (l : list A) :
  Forall (fun a => p a = true) l -> filter p l = l.
Proof.
  induction 1 as [ | a l Ha _ IH ]; cbn [filter].
  - reflexivity.
  - rewrite Ha, IH. reflexivity.
Qed.

Lemma Forall2_same (A : Type) (P : A -> A -> Prop) (l : list A) :
  (forall a, P a a) -> Forall2 P l l.
Proof. intros HP. induction l; constructor; auto. Qed.

(** Two lists with the same image by [f], itself the image of [l] by
    [g]. *)
Lemma Forall2_same_image (A B C : Type) (f : A -> B) (g : C -> B)
    (l : list C) :
  forall l1 l2, map f l1 = map g l -> map f l2 = map g l ->
  Forall2 (fun a b => f a = f b /\ exists c, f a = g c) l1 l2.
Proof.
  induction l as [ | c l IH ]; intros [ | a l1 ] [ | b l2 ] H1 H2;
    cbn [map] in H1, H2; try discriminate; constructor.
  - injection H1 as Ha H1. injection H2 as Hb H2.
    split; [ congruence | exists c; exact Ha ].
  - injection H1 as Ha H1. injection H2 as Hb H2. apply IH; assumption.
Qed.

Lemma Forall2_map_both (A B : Type) (f : A -> B) (P : B -> B -> Prop)
    (l1 l2 : list A) :
  Forall2 (fun a b => P (f a) (f b)) l1 l2 <-> Forall2 P (map f l1) (map f l2).
Proof.
  split.
  - induction 1; cbn [map]; constructor; assumption.
  - revert l2. induction l1 as [ | a l1 IH ]; intros [ | b l2 ] H;
      cbn [map] in H; inversion H; subst; constructor; auto.
Qed.

Lemma Forall2_combine_same (A B : Type) (P : B -> B -> Prop) (ls : list A) :
  forall l1 l2 : list B, Forall2 P l1 l2 ->
  Forall2 (fun a b => fst a = fst b /\ P (snd a) (snd b))
          (combine ls l1) (combine ls l2).
Proof.
  induction ls as [ | x ls IH ]; intros l1 l2 H; cbn [combine].
  - constructor.
  - destruct H as [ | a b l1 l2 Hab H ]; constructor.
    + split; [ reflexivity | exact Hab ].
    + apply IH. exact H.
Qed.

End ListFacts.

Section SortRelated.
Local Open Scope Z_scope.

Variable P : row -> row -> Prop.

(** Two frames whose rows have the same sort keys, position by position,
    are sorted by the same permutation. *)
Lemma insert_related (x y : Z * row) (l1 l2 : frame) :
  key (snd x) = key (snd y) /\ P (snd x) (snd y) ->
  Forall2 (fun a b => key (snd a) = key (snd b) /\ P (snd a) (snd b)) l1 l2 ->
  Forall2 (fun a b => key (snd a) = key (snd b) /\ P (snd a) (snd b))
          (insert x l1) (insert y l2).
Proof.
  intros Hxy H. induction H as [ | a b l1 l2 Hab H IH ]; cbn [insert].
  - constructor; [ exact Hxy | constructor ].
  - destruct Hxy as [Hk Hp], Hab as [Hk' Hp']. rewrite <- Hk, <- Hk'.
    destruct (key_leb (key (snd x)) (key (snd a))).
    + constructor; [ split; assumption | ].
      constructor; [ split; assumption | exact H ].
    + constructor; [ split; assumption | exact IH ].
Qed.

Lemma sort_values_related (l1 l2 : frame) :
  Forall2 (fun a b => key (snd a) = key (snd b) /\ P (snd a) (snd b)) l1 l2 ->
  Forall2 (fun a b => key (snd a) = key (snd b) /\ P (snd a) (snd b))
          (sort_values l1) (sort_values l2).
Proof.
  induction 1 as [ | a b l1 l2 Hab H IH ]; cbn [sort_values].
  - constructor.
  - apply insert_related; assumption.
Qed.

End SortRelated.

Section ScheduleDistinct.
Local Open Scope Z_scope.

Lemma hour_codes_NoDup : NoDup hour_codes.
Proof.
  unfold hour_codes. apply Injective_map_NoDup; [ | apply seq_NoDup ].
  intros a b H. lia.
Qed.

Lemma schedule_days (days : nat) : forall start f,
  In f (schedule start days) -> start <= file_day f.
Proof.
  induction days as [ | d IH ]; intros start f H; cbn [schedule] in H.
  - destruct H.
  - apply in_app_or in H. destruct H as [H | H].
    + unfold day_files in H. apply in_map_iff in H.
      destruct H as (c & <- & _). cbn. lia.
    + apply IH in H. lia.
Qed.

Lemma schedule_NoDup (days : nat) : forall start, NoDup (schedule start days).
Proof.
  induction days as [ | d IH ]; intros start; cbn [schedule].
  - constructor.
  - apply NoDup_app.
    + unfold day_files. apply Injective_map_NoDup; [ | apply hour_codes_NoDup ].
      intros a b H. injection H as H. exact H.
    + apply IH.
    + intros f Hf Hf'. apply schedule_days in Hf'.
      unfold day_files in Hf. apply in_map_iff in Hf.
      destruct Hf as (c & <- & _). cbn in Hf'. lia.
Qed.

End ScheduleDistinct.

Section LoopCoupling.
Local Open Scope Z_scope.

Variable PowerCurves : list curve_row.
Variable wind_farm : list site.

Lemma loop_app (source : file -> option snapshot) (fs1 : list file) :
  forall (fs2 : list file) (i : Z) (st : loop_state) (w : list event),
  loop source PowerCurves wind_farm i (fs1 ++ fs2) st w
  = match loop source PowerCurves wind_farm i fs1 st w with
    | (Ok st1, w1) =>
        loop source PowerCurves wind_farm
             (i + Z.of_nat (List.length fs1)) fs2 st1 w1
    | (Raise e, w1) => (Raise e, w1)
    end.
Proof.
  induction fs1 as [ | f fs1 IH ]; intros fs2 i st w; cbn [app loop List.length].
  - unfold ret. rewrite Z.add_0_r. reflexivity.
  - unfold bind.
    destruct (body source PowerCurves wind_farm i f st w) as [[st1 | e] w1];
      [ | reflexivity ].
    rewrite IH. replace (i + 1 + Z.of_nat (List.length fs1))
      with (i + Z.of_nat (S (List.length fs1))) by lia.
    reflexivity.
Qed.

(** The loop asks the source for the keys of its schedule only. *)
Lemma loop_ext_source (sourceA sourceB : file -> option snapshot)
    (fs : list file) :
  (forall f, In f fs -> sourceB f = sourceA f) ->
  forall (i : Z) (st : loop_state) (w : list event),
  loop sourceB PowerCurves wind_farm i fs st w
  = loop sourceA PowerCurves wind_farm i fs st w.
Proof.
  induction fs as [ | f fs IH ]; intros Hagree i st w; cbn [loop].
  - reflexivity.
  - assert (Hbody : body sourceB PowerCurves wind_farm i f st w
                    = body sourceA PowerCurves wind_farm i f st w).
    { unfold body, requests_get. rewrite (Hagree f) by (left; reflexivity).
      reflexivity. }
    unfold bind. rewrite Hbody.
    destruct (body sourceA PowerCurves wind_farm i f st w) as [[st1 | e] w1];
      [ | reflexivity ].
    apply IH. intros f' Hf'. apply Hagree. right. exact Hf'.
Qed.

Lemma empty_append (d : frame) (tmp : list row) :
  empty (append d tmp)
  = empty d && match tmp with [] => true | _ :: _ => false end.
Proof. destruct d as [ | x d ], tmp as [ | r tmp ]; reflexivity. Qed.

(** What an hour computes depends on the state through [data.empty], the
    dictionary and the timestamp. *)
Lemma hour_ok_ext (stA stB : loop_state) (i : Z) (tmp : snapshot) :
  empty (data stA) = empty (data stB) ->
  target2grid stA = target2grid stB ->
  dt stA = dt stB ->
  hour_ok PowerCurves wind_farm stA i tmp
  = hour_ok PowerCurves wind_farm stB i tmp.
Proof. intros He Ht Hd. unfold hour_ok. rewrite He, Ht, Hd. reflexivity. Qed.

Lemma hour_ok_keeps_dict (st : loop_state) (i : Z) (tmp : snapshot)
    (rws : list row) (t2g : dict) :
  empty (data st) = false ->
  hour_ok PowerCurves wind_farm st i tmp = Ok (rws, t2g) ->
  t2g = target2grid st.
Proof.
  unfold hour_ok. intros -> H. cbn [rbind] in H.
  destruct (extract wind_farm (target2grid st) (u_wsp tmp));
    cbn [rbind] in H; [ | discriminate ].
  destruct (extract wind_farm (target2grid st) (v_wsp tmp));
    cbn [rbind] in H; [ | discriminate ].
  destruct (mapM _ _); cbn [rbind] in H; [ | discriminate ].
  apply Ok_inj in H. injection H as _ H. symmetry. exact H.
Qed.

(** With rows in [data] and nothing in the dictionary, a successful
    request raises. *)
Lemma hour_ok_without_dict (st : loop_state) (i : Z) (tmp : snapshot) :
  wind_farm <> [] ->
  empty (data st) = false ->
  target2grid st = [] ->
  exists e, hour_ok PowerCurves wind_farm st i tmp = Raise e.
Proof.
  intros Hwf He Ht. unfold hour_ok. rewrite He, Ht. cbn [rbind].
  destruct wind_farm as [ | s rest ]; [ contradiction | ].
  exists (KeyError (site_id s)). reflexivity.
Qed.

Lemma hour_missing_ext (stA stB : loop_state) (i : Z) :
  dt stA = dt stB -> hour_missing wind_farm stA i = hour_missing wind_farm stB i.
Proof. intros H. unfold hour_missing. rewrite H. reflexivity. Qed.

(** Two runs of the loop on the same schedule and source, from states
    with the same timestamp: they append the same rows, when either the
    states agree on [data.empty] and on the dictionary, or the first has
    rows and no dictionary. *)
Lemma loop_coupled (source : file -> option snapshot) (fs : list file) :
  forall (i : Z) (stA stB stA' stB' : loop_state) (wA wB wA' wB' : list event),
  dt stA = dt stB ->
  (empty (data stA) = empty (data stB) /\ target2grid stA = target2grid stB) \/
  (wind_farm <> [] /\ target2grid stA = [] /\
   empty (data stA) = false /\ empty (data stB) = false) ->
  loop source PowerCurves wind_farm i fs stA wA = (Ok stA', wA') ->
  loop source PowerCurves wind_farm i fs stB wB = (Ok stB', wB') ->
  exists extra,
    map snd (data stA') = map snd (data stA) ++ extra /\
    map snd (data stB') = map snd (data stB) ++ extra.
Proof.
  induction fs as [ | f fs IH ];
    intros i stA stB stA' stB' wA wB wA' wB' Hdt Hc HA HB.
  - cbn in HA, HB. injection HA as <- _. injection HB as <- _.
    exists []. rewrite !app_nil_r. split; reflexivity.
  - cbn [loop] in HA, HB. unfold bind in HA, HB.
    destruct (body source PowerCurves wind_farm i f stA wA)
      as [[stA1 | e] wA1] eqn:HbA; [ | discriminate ].
    destruct (body source PowerCurves wind_farm i f stB wB)
      as [[stB1 | e] wB1] eqn:HbB; [ | discriminate ].
    apply body_inv in HbA, HbB.
    destruct HbA as (HdtA & _ & _ & HsA), HbB as (HdtB & _ & _ & HsB).
    assert (Hstep : exists rws,
               data stA1 = append (data stA) rws /\
               data stB1 = append (data stB) rws /\
               (target2grid stA1 = target2grid stB1 \/
                (wind_farm <> [] /\ target2grid stA1 = [] /\
                 empty (data stA) = false /\ empty (data stB) = false))).
    { destruct (source f) as [tmp | ].
      - destruct HsA as (rwsA & HokA & HdA & _).
        destruct HsB as (rwsB & HokB & HdB & _).
        destruct Hc as [[He Ht] | (Hwf & Ht & HeA & HeB)].
        + rewrite (hour_ok_ext stA stB i tmp He Ht Hdt) in HokA.
          rewrite HokA in HokB. apply Ok_inj in HokB.
          injection HokB as Hr Ht'. subst rwsB.
          exists rwsA. auto.
        + destruct (hour_ok_without_dict stA i tmp Hwf HeA Ht) as [e He].
          rewrite He in HokA. discriminate.
      - destruct HsA as (HdA & _ & HtA), HsB as (HdB & _ & HtB).
        exists (hour_missing wind_farm stA i).
        rewrite <- (hour_missing_ext stA stB i Hdt) in HdB.
        split; [ exact HdA | split; [ exact HdB | ] ].
        destruct Hc as [[He Ht] | (Hwf & Ht & HeA & HeB)].
        + left. congruence.
        + right. rewrite HtA. auto. }
    destruct Hstep as (rws & HdA & HdB & Ht1).
    destruct (IH (i + 1) stA1 stB1 stA' stB' wA1 wB1 wA' wB') as (extra & HeA & HeB);
      [ lia | | exact HA | exact HB | ].
    + rewrite HdA, HdB, !empty_append.
      destruct Ht1 as [Ht1 | (Hwf & Ht1 & HeA & HeB)].
      * destruct Hc as [[He _] | (_ & _ & HeA & HeB)].
        -- left. rewrite He. auto.
        -- left. rewrite HeA, HeB. auto.
      * right. rewrite HeA, HeB. auto.
    + exists (rws ++ extra).
      rewrite HeA, HeB, HdA, HdB, !append_rows, <- !app_assoc.
      split; reflexivity.
Qed.

End LoopCoupling.

Section FailedHour.
Local Open Scope Z_scope.

Variable PowerCurves : list curve_row.
Variable wind_farm : list site.

Lemma keys_tsID_range (d : nat -> Z) (a n : nat) (extra : list row) :
  map (fun r => (plantID r, ts r, tsID r)) extra
  = flat_map (fun k => map (fun s => (site_id s, d k, Z.of_nat k + 1))
                           wind_farm)
             (seq a n) ->
  Forall (fun r => Z.of_nat a < tsID r <= Z.of_nat (a + n)) extra.
Proof.
  intros H. apply Forall_forall. intros r Hr.
  apply (in_map (fun r => (plantID r, ts r, tsID r))) in Hr.
  rewrite H in Hr. apply in_flat_map in Hr. destruct Hr as (k & Hk & Hr).
  apply in_map_iff in Hr. destruct Hr as (s & Hs & _).
  injection Hs as _ _ Ht. apply in_seq in Hk. lia.
Qed.

(** A run that returns, cut at one hour of its schedule: the hours
    before, the hour itself, the hours after. *)
Lemma run_at_hour (source : file -> option snapshot)
    (start_date end_date : date) (w w' : list event)
    (table : frame) (missing_ : list file)
    (fs1 fs2 : list file) (f : file) :
  build_files (strptime start_date) (strptime end_date) []
  = Ok (fs1 ++ f :: fs2) ->
  retrieve_data source PowerCurves wind_farm start_date end_date w
  = (Ok (table, missing_), w') ->
  exists st1 w1 st2 w2 st extra2,
    loop source PowerCurves wind_farm 0 fs1
         (mk_state [] [] [] (strptime start_date)) w = (Ok st1, w1) /\
    body source PowerCurves wind_farm (Z.of_nat (List.length fs1)) f st1 w1
    = (Ok st2, w2) /\
    loop source PowerCurves wind_farm (Z.of_nat (S (List.length fs1))) fs2
         st2 w2 = (Ok st, w') /\
    table = format (data st) /\
    dt st1 = strptime start_date + Z.of_nat (List.length fs1) /\
    Forall (fun r => 0 < tsID r <= Z.of_nat (List.length fs1))
           (map snd (data st1)) /\
    List.length (map snd (data st1))
    = (List.length fs1 * List.length wind_farm)%nat /\
    map snd (data st) = map snd (data st2) ++ extra2 /\
    Forall (fun r => Z.of_nat (List.length fs1) + 1 < tsID r
                     <= Z.of_nat (List.length (fs1 ++ f :: fs2)))
           extra2.
Proof.
  intros Hfiles H. apply retrieve_data_inv in H.
  destruct H as (files & st & Hfiles' & Hloop & Htable & _).
  rewrite Hfiles in Hfiles'. apply Ok_inj in Hfiles'. subst files.
  rewrite loop_app in Hloop.
  destruct (loop source PowerCurves wind_farm 0 fs1 _ w)
    as [[st1 | e] w1] eqn:H1; [ | discriminate ].
  cbn [loop] in Hloop. unfold bind in Hloop. rewrite Z.add_0_l in Hloop.
  destruct (body source PowerCurves wind_farm (Z.of_nat (List.length fs1))
                 f st1 w1) as [[st2 | e] w2] eqn:Hb; [ | discriminate ].
  replace (Z.of_nat (List.length fs1) + 1)
    with (Z.of_nat (S (List.length fs1))) in Hloop by lia.
  assert (H1' := H1).
  apply (loop_shape source PowerCurves wind_farm fs1 0%nat) in H1'.
  destruct H1' as (Hdt1 & _ & _ & extra1 & Hrows1 & Hkeys1).
  cbn [data dt map app] in Hdt1, Hrows1.
  assert (H2' := Hloop).
  apply (loop_shape source PowerCurves wind_farm fs2 (S (List.length fs1)))
    in H2'.
  destruct H2' as (_ & _ & _ & extra2 & Hrows2 & Hkeys2).
  exists st1, w1, st2, w2, st, extra2.
  split; [ reflexivity | ]. split; [ exact Hb | ]. split; [ exact Hloop | ].
  split; [ exact Htable | ]. split; [ exact Hdt1 | ].
  split.
  { rewrite Hrows1. apply keys_tsID_range in Hkeys1.
    revert Hkeys1. apply Forall_impl. intros r. lia. }
  split.
  { rewrite Hrows1.
    rewrite <- (length_map (fun r => (plantID r, ts r, tsID r))), Hkeys1.
    apply flat_map_hours_length. }
  split; [ exact Hrows2 | ].
  apply keys_tsID_range in Hkeys2. revert Hkeys2. apply Forall_impl.
  intros r. rewrite length_app. cbn [List.length]. lia.
Qed.

Lemma hour_missing_formatted (st : loop_state) (h : Z) :
  - 2 ^ 31 <= h + 1 < 2 ^ 31 ->
  map format_row (hour_missing wind_farm st h)
  = map (fun s => mk_row (astype_int32 (site_id s)) None None None
                         (dt st) (h + 1)) wind_farm.
Proof.
  intros Hh. unfold hour_missing, frame_rows. rewrite !map_map.
  apply map_ext. intros s. unfold format_row. cbn.
  rewrite (astype_int32_small (h + 1)) by exact Hh. reflexivity.
Qed.

End FailedHour.

Section FailedHourIsolated.
Local Open Scope Z_scope.

Variable PowerCurves : list curve_row.
Variable wind_farm : list site.

(** X20: in a run that returns a table, when the request of the
    scheduled hour [h] failed, the table has, for that hour, exactly one
    row per site, with U, V and Pout set to NaN; the request key of [h]
    is in the list of missing files; and the rows of every other hour
    are the rows, at the same places, of the run in which only the
    answer to that request differs, when that run returns a table
    too. *)
Theorem failed_hour_isolated (sourceA sourceB : file -> option snapshot)
    (start_date end_date : date) (files : list file) (h : nat) (f : file)
    (w wA wB : list event) (tableA tableB : frame)
    (missingA missingB : list file) :
  build_files (strptime start_date) (strptime end_date) [] = Ok files ->
  nth_error files h = Some f ->
  sourceA f = None ->
  (forall f', f' <> f -> sourceB f' = sourceA f') ->
  retrieve_data sourceA PowerCurves wind_farm start_date end_date w
  = (Ok (tableA, missingA), wA) ->
  retrieve_data sourceB PowerCurves wind_farm start_date end_date w
  = (Ok (tableB, missingB), wB) ->
  Permutation
    (filter (fun r => tsID r =? Z.of_nat h + 1) (map snd tableA))
    (map (fun s => mk_row (astype_int32 (site_id s)) None None None
                          (strptime start_date + Z.of_nat h)
                          (Z.of_nat h + 1)) wind_farm) /\
  In f missingA /\
  Forall2 (fun a b => tsID (snd a) <> Z.of_nat h + 1 -> a = b) tableA tableB.
Proof.
  intros Hfiles Hnth HfA Hagree HA HB.
  assert (Hsched := Hfiles). apply build_files_dates in Hsched.
  assert (Hfit := schedule_fits_int32 start_date end_date).
  rewrite <- Hsched in Hfit.
  assert (Hnd : NoDup files) by (rewrite Hsched; apply schedule_NoDup).
  destruct (nth_error_split files h Hnth) as (fs1 & fs2 & Hsplit & Hlen).
  assert (Hmiss : In f missingA).
  { assert (HA' := HA). apply retrieve_data_rows in HA'.
    destruct HA' as (files' & _ & Hf' & _ & _ & Hm & _). rewrite <- Hsched in Hf'.
    subst files' missingA. apply filter_In.
    split; [ apply (nth_error_In files h Hnth)
           | unfold failed; rewrite HfA; reflexivity ]. }
  clear Hsched. subst files.
  assert (Hlenf : Z.of_nat (List.length fs1) + 1
                  <= Z.of_nat (List.length (fs1 ++ f :: fs2))).
  { rewrite length_app. cbn [List.length]. lia. }
  apply NoDup_remove_2 in Hnd.
  assert (Hagree1 : forall f', In f' fs1 -> sourceB f' = sourceA f').
  { intros f' Hin. apply Hagree. intros ->. apply Hnd. apply in_or_app. auto. }
  assert (Hagree2 : forall f', In f' fs2 -> sourceB f' = sourceA f').
  { intros f' Hin. apply Hagree. intros ->. apply Hnd. apply in_or_app. auto. }
  destruct (run_at_hour PowerCurves wind_farm sourceA start_date end_date
              w wA tableA missingA fs1 fs2 f Hfiles HA)
    as (st1 & w1 & st2A & w2A & stA & extraA
        & H1A & HbA & H2A & HtA & Hdt1 & Hts1 & Hlen1 & HrowsA & HtsA).
  destruct (run_at_hour PowerCurves wind_farm sourceB start_date end_date
              w wB tableB missingB fs1 fs2 f Hfiles HB)
    as (st1' & w1' & st2B & w2B & stB & extraB
        & H1B & HbB & H2B & HtB & _ & _ & _ & HrowsB & _).
  rewrite (loop_ext_source PowerCurves wind_farm sourceA sourceB fs1 Hagree1)
    in H1B.
  rewrite H1A in H1B. injection H1B as <- <-.
  rewrite (loop_ext_source PowerCurves wind_farm sourceA sourceB fs2 Hagree2)
    in H2B.
  rewrite Hlen in HbA, H2A, HbB, H2B, Hdt1, Hts1, Hlen1, HtsA, Hlenf.
  change (2 ^ 31) with 2147483648 in Hfit.
  assert (Hh : - 2 ^ 31 <= Z.of_nat h + 1 < 2 ^ 31)
    by (change (2 ^ 31) with 2147483648; lia).
  apply body_inv in HbA, HbB. rewrite HfA in HbA.
  destruct HbA as (Hdt2A & _ & _ & Hd2A & _ & Ht2A).
  destruct HbB as (Hdt2B & _ & _ & HsB).
  (* the rows of the hour in the second run *)
  assert (HhourB : exists rwsB,
             data st2B = append (data st1) rwsB /\
             hour_shape wind_farm (dt st1) (Z.of_nat h) rwsB /\
             (empty (data st1) = false -> target2grid st2B = target2grid st1)).
  { destruct (sourceB f) as [tmp | ].
    - destruct HsB as (rwsB & Hok & Hd & _). exists rwsB.
      split; [ exact Hd | ].
      split; [ exact (hour_ok_shape _ _ _ _ _ _ _ Hok) | ].
      intros He. exact (hour_ok_keeps_dict _ _ _ _ _ _ _ He Hok).
    - destruct HsB as (Hd & _ & Ht).
      exists (hour_missing wind_farm st1 (Z.of_nat h)).
      split; [ exact Hd | ]. split; [ apply hour_missing_shape | ].
      intros _. exact Ht. }
  destruct HhourB as (rwsB & Hd2B & HshapeB & Ht2B).
  assert (HshapeA := hour_missing_shape wind_farm st1 (Z.of_nat h)).
  split; [ | split; [ exact Hmiss | ] ].
  - (* the rows of the failed hour *)
    subst tableA.
    apply perm_trans
      with (filter (fun r => tsID r =? Z.of_nat h + 1)
                   (map (fun lr => format_row (snd lr)) (data stA)));
      [ apply Permutation_filter, Permutation_sym, format_perm | ].
    rewrite <- (map_map snd format_row), HrowsA, Hd2A, append_rows.
    rewrite !map_app, !filter_app.
    rewrite (filter_none _ _ (map format_row (map snd (data st1)))).
    2:{ apply Forall_map. revert Hts1. apply Forall_impl. intros r Hr.
        cbn. rewrite astype_int32_small
          by (change (2 ^ 31) with 2147483648; lia).
        apply Z.eqb_neq. lia. }
    rewrite (filter_none _ _ (map format_row extraA)).
    2:{ apply Forall_map. revert HtsA. apply Forall_impl. intros r Hr.
        cbn. rewrite astype_int32_small
          by (change (2 ^ 31) with 2147483648; lia).
        apply Z.eqb_neq. lia. }
    rewrite app_nil_r. cbn [app].
    rewrite hour_missing_formatted by exact Hh.
    rewrite filter_all.
    2:{ apply Forall_map. apply Forall_forall. intros s _. cbn.
        apply Z.eqb_refl. }
    rewrite Hdt1. apply Permutation_refl.
  - (* the rows of the other hours *)
    destruct (Nat.eq_dec (List.length wind_farm) 0) as [Hwf0 | Hwf].
    + (* no site: both tables are empty *)
      assert (Hempty : forall source t m w',
                 retrieve_data source PowerCurves wind_farm
                               start_date end_date w = (Ok (t, m), w') ->
                 t = []).
      { intros source t m w' Hrun. apply retrieve_data_rows in Hrun.
        destruct Hrun as (fs & st & _ & _ & Ht & _ & _ & Hk).
        apply (f_equal (@List.length _)) in Hk.
        rewrite !length_map, flat_map_hours_length, Hwf0, Nat.mul_0_r in Hk.
        apply length_zero_iff_nil. rewrite Ht, format_length. exact Hk. }
      rewrite (Hempty _ _ _ _ HA), (Hempty _ _ _ _ HB). constructor.
    + assert (Hwf' : wind_farm <> []) by (intros E; rewrite E in Hwf; auto).
      assert (HlenA : List.length (hour_missing wind_farm st1 (Z.of_nat h))
                      = List.length wind_farm).
      { rewrite <- (length_map (fun r => (plantID r, ts r, tsID r))), HshapeA.
        apply length_map. }
      assert (HlenB : List.length rwsB = List.length wind_farm).
      { rewrite <- (length_map (fun r => (plantID r, ts r, tsID r))), HshapeB.
        apply length_map. }
      (* the two runs append the same rows after the hour *)
      destruct (loop_coupled PowerCurves wind_farm sourceA fs2
                  (Z.of_nat (S h)) st2A st2B stA stB w2A w2B wA wB)
        as (extra & HeA & HeB); [ lia | | exact H2A | exact H2B | ].
      { rewrite Hd2A, Hd2B, !empty_append.
        destruct (empty (data st1)) eqn:He1.
        - right. split; [ exact Hwf' | ].
          assert (Hh0 : h = 0%nat).
          { apply empty_rows in He1. rewrite He1 in Hlen1. cbn in Hlen1.
            destruct h; [ reflexivity | ]. cbn in Hlen1. lia. }
          rewrite Hh0 in Hlen. apply length_zero_iff_nil in Hlen. subst fs1.
          cbn in H1A. injection H1A as <- _. cbn in Ht2A.
          split; [ exact Ht2A | ].
          destruct (hour_missing wind_farm _ _); [ cbn in HlenA; lia | ].
          destruct rwsB; [ cbn in HlenB; lia | ]. split; reflexivity.
        - left. cbn [andb]. split; [ reflexivity | ].
          rewrite Ht2A, Ht2B; reflexivity. }
      rewrite HrowsA in HeA. apply app_inv_head in HeA. subst extraA.
      (* position by position, before the rows are formatted *)
      assert (Hrel : Forall2
                (fun a b => (plantID a, tsID a) = (plantID b, tsID b) /\
                            (tsID a <> Z.of_nat h + 1 -> a = b))
                (map snd (data stA)) (map snd (data stB))).
      { rewrite HrowsA, HeB, Hd2A, Hd2B, !append_rows.
        apply Forall2_app; [ apply Forall2_app | ].
        - apply Forall2_same. auto.
        - generalize (Forall2_same_image _ _ _
                        (fun r => (plantID r, ts r, tsID r))
                        (fun s => (site_id s, dt st1, Z.of_nat h + 1))
                        wind_farm _ _ HshapeA HshapeB).
          apply Forall2_impl. intros a b [Hab (s & Hs)].
          injection Hab as Hp _ Ht. injection Hs as _ _ Hs.
          split; [ congruence | intros Hne; contradiction ].
        - apply Forall2_same. auto. }
      subst tableA tableB. unfold format.
      set (P := fun a b : row => tsID a <> Z.of_nat h + 1 -> a = b).
      assert (Hsorted : Forall2
                (fun a b => key (snd a) = key (snd b) /\ P (snd a) (snd b))
                (sort_values (map (fun lr => (fst lr, format_row (snd lr)))
                                  (data stA)))
                (sort_values (map (fun lr => (fst lr, format_row (snd lr)))
                                  (data stB)))).
      { apply sort_values_related.
        apply (proj1 (Forall2_map_both _ _
                        (fun lr => (fst lr, format_row (snd lr)))
                        (fun a b => key (snd a) = key (snd b) /\
                                    P (snd a) (snd b)) _ _)).
        apply (proj2 (Forall2_map_both _ _ snd _ _ _)) in Hrel. revert Hrel.
        apply Forall2_impl. intros a b [Hk Heq]. cbn [snd].
        injection Hk as Hp Ht. split.
        - unfold key, format_row. cbn. rewrite Hp, Ht. reflexivity.
        - unfold P. intros Hne. rewrite Heq; [ reflexivity | ].
          intros Ht'. apply Hne. cbn. rewrite Ht'.
          apply astype_int32_small. exact Hh. }
      assert (Hrows : Forall2 P
                (map snd (sort_values
                            (map (fun lr => (fst lr, format_row (snd lr)))
                                 (data stA))))
                (map snd (sort_values
                            (map (fun lr => (fst lr, format_row (snd lr)))
                                 (data stB))))).
      { apply (proj1 (Forall2_map_both _ _ snd P _ _)). revert Hsorted.
        apply Forall2_impl. intros a b [_ Hp]. exact Hp. }
      assert (Hl := Forall2_length Hrows). unfold reset_index.
      rewrite Hl.
      generalize (Forall2_combine_same _ _ P
                    (range_index (List.length
                       (map snd (sort_values
                                   (map (fun lr => (fst lr, format_row (snd lr)))
                                        (data stB))))))
                    _ _ Hrows).
      apply Forall2_impl. intros [la ra] [lb rb] [Hla Hp]. cbn in Hla, Hp |- *.
      intros Hne. rewrite Hla, (Hp Hne). reflexivity.
Qed.

End FailedHourIsolated.

Section FailedHourExample.
Local Open Scope Z_scope.

Variable source : file -> option snapshot.
Variable PowerCurves : list curve_row.
Variable wind_farm : list site.

(** When every request fails, the loop goes through its schedule. *)
Lemma loop_all_fail (fs : list file) :
  forall (i : Z) (st : loop_state) (w : list event),
  Forall (fun f => source f = None) fs ->
  dt st + Z.of_nat (List.length fs) < hours_max ->
  exists st' w', loop source PowerCurves wind_farm i fs st w = (Ok st', w').
Proof.
  induction fs as [ | f fs IH ]; intros i st w Hfail Hdt.
  - exists st, w. reflexivity.
  - apply Forall_cons_iff in Hfail. destruct Hfail as [Hf Hfail].
    cbn [List.length] in Hdt. cbn [loop]. unfold bind at 1.
    assert (Hbody : exists st1 w1,
               body source PowerCurves wind_farm i f st w = (Ok st1, w1) /\
               dt st1 = dt st + 1).
    { unfold body, bind, lift, ret, requests_get, time_sleep, emit, add_hours.
      rewrite Hf.
      destruct (negb (i =? 0) && (i mod 1000 =? 0));
        cbn -[hours_max Z.ltb];
        (destruct (Z.ltb_spec (dt st + 1) hours_max); [ | lia ]);
        eexists; eexists; (split; [ reflexivity | reflexivity ]). }
    destruct Hbody as (st1 & w1 & Hbody & Hdt1). rewrite Hbody.
    apply IH; [ exact Hfail | lia ].
Qed.

End FailedHourExample.

Lemma body_source_first :
  body source_first table_5_6 [site1] 0 file0 state0 []
  = (Ok (mk_state [(0%Z, mk_row 1 (Some 5.5%R) (Some 0%R) (Some (0.3 * 100)%R)
                               (strptime day0) 1)]
                  [] [(1%Z, 0%nat)] (strptime day0 + 1)%Z),
     [Get file0]).
Proof.
  unfold body, bind, lift, ret, requests_get.
  change (source_first file0) with (Some grid1).
  unfold hour_ok. cbn [state0 data empty target2grid].
  rewrite fill_target2grid_grid1. cbn [rbind].
  cbn -[wind_speed site_power strptime add_hours].
  rewrite site_power_5_6_at_5_5. cbn -[strptime]. reflexivity.
Qed.

Lemma failed_hour_isolated_witness :
  exists tableA missingA wA tableB missingB wB,
    retrieve_data source_down table_5_6 [site1] day0 day0 []
    = (Ok (tableA, missingA), wA) /\
    retrieve_data source_first table_5_6 [site1] day0 day0 []
    = (Ok (tableB, missingB), wB) /\
    Permutation
      (filter (fun r => (tsID r =? Z.of_nat 0 + 1)%Z) (map snd tableA))
      (map (fun s => mk_row (astype_int32 (site_id s)) None None None
                            (strptime day0 + Z.of_nat 0) (Z.of_nat 0 + 1))
           [site1]) /\
    In file0 missingA /\
    Forall2 (fun a b => tsID (snd a) <> (Z.of_nat 0 + 1)%Z -> a = b)
            tableA tableB.
Proof.
  assert (Hfiles : build_files (strptime day0) (strptime day0) []
                   = Ok (file0 :: tl (schedule (strptime day0) 1)))
    by (vm_compute; reflexivity).
  destruct (retrieve_data source_down table_5_6 [site1] day0 day0 [])
    as [[[tableA missingA] | e] wA] eqn:HA;
    [ | vm_compute in HA; discriminate ].
  assert (HB : exists tableB missingB wB,
             retrieve_data source_first table_5_6 [site1] day0 day0 []
             = (Ok (tableB, missingB), wB)).
  { unfold retrieve_data, bind, lift, ret. rewrite Hfiles.
    cbn [loop]. unfold bind. fold state0. rewrite body_source_first.
    destruct (loop_all_fail source_first table_5_6 [site1]
                (tl (schedule (strptime day0) 1)) (0 + 1)
                (mk_state [(0%Z, mk_row 1 (Some 5.5%R) (Some 0%R)
                                       (Some (0.3 * 100)%R) (strptime day0) 1)]
                          [] [(1%Z, 0%nat)] (strptime day0 + 1)%Z)
                [Get file0]) as (st' & w' & Hloop).
    - vm_compute. repeat constructor.
    - vm_compute. reflexivity.
    - rewrite Hloop. eauto. }
  destruct HB as (tableB & missingB & wB & HB).
  exists tableA, missingA, wA, tableB, missingB, wB.
  split; [ reflexivity | ]. split; [ exact HB | ].
  apply (failed_hour_isolated table_5_6 [site1] source_down source_first
           day0 day0 (file0 :: tl (schedule (strptime day0) 1)) 0 file0
           [] wA wB tableA tableB missingA missingB).
  - exact Hfiles.
  - reflexivity.
  - reflexivity.
  - intros [d c] Hne. unfold source_first, source_down. cbn [file_day file_h].
    destruct (d =? strptime day0)%Z eqn:Hd; [ | reflexivity ].
    destruct (c =? 10000)%Z eqn:Hc; [ | reflexivity ].
    apply Z.eqb_eq in Hd, Hc. subst d c. exfalso. apply Hne. reflexivity.
  - exact HA.
  - exact HB.
Defined.

(** C7, on a run over two days with two plants, whose request of the
    first hour of a day fails and whose other requests succeed: hour 0 is
    a scheduled hour whose fetch fails, and the output has no row for it
    and no list of missing files, because there is no output: the run
    stops at the second request with a KeyError and returns no table. *)
Theorem failed_first_hour_not_isolated :
  nth_error (schedule (strptime day0) 2) 0 = Some file0 /\
  source_late file0 = None /\
  source_late file1 = Some grid1 /\
  retrieve_data source_late table_5_6 [site1; site2] day0 day1 []
  = (Raise (KeyError 1), [Get file0; Get file1]) /\
  forall table missing_ w',
    retrieve_data source_late table_5_6 [site1; site2] day0 day1 []
    <> (Ok (table, missing_), w').
Proof.
  assert (Hrun : retrieve_data source_late table_5_6 [site1; site2]
                   day0 day1 []
                 = (Raise (KeyError 1), [Get file0; Get file1]))
    by (vm_compute; reflexivity).
  split; [ reflexivity | ]. split; [ reflexivity | ].
  split; [ reflexivity | ]. split; [ exact Hrun | ].
  intros table missing_ w' H. rewrite Hrun in H. discriminate H.
Qed.

(** ** The dictionary when the first request succeeds *)

Section DictFrozen.
Local Open Scope Z_scope.

Variable source : file -> option snapshot.
Variable PowerCurves : list curve_row.
Variable wind_farm : list site.

(** An hour that finds [data] empty and succeeds leaves the dictionary
    that lines 152-157 build from its snapshot. *)
Lemma body_builds_dict (i : Z) (f : file) (tmp : snapshot)
    (st st' : loop_state) (w w' : list event) :
  body source PowerCurves wind_farm i f st w = (Ok st', w') ->
  source f = Some tmp ->
  empty (data st) = true ->
  fill_target2grid tmp wind_farm (target2grid st) = Ok (target2grid st').
Proof.
  intros Hbody Hsrc He. apply body_inv in Hbody.
  destruct Hbody as (_ & _ & _ & Hs). rewrite Hsrc in Hs.
  destruct Hs as (rws & Hok & _). unfold hour_ok in Hok. rewrite He in Hok.
  destruct (fill_target2grid tmp wind_farm (target2grid st)) as [d | e];
    cbn [rbind] in Hok; [ | discriminate ].
  destruct (extract wind_farm d (u_wsp tmp)); cbn [rbind] in Hok;
    [ | discriminate ].
  destruct (extract wind_farm d (v_wsp tmp)); cbn [rbind] in Hok;
    [ | discriminate ].
  destruct (mapM _ _); cbn [rbind] in Hok; [ | discriminate ].
  apply Ok_inj in Hok. injection Hok as _ Hd. rewrite Hd. reflexivity.
Qed.

(** Once [data] has rows, the dictionary does not change any more. *)
Lemma loop_keeps_dict (fs : list file) :
  forall (i : Z) (st st' : loop_state) (w w' : list event),
  loop source PowerCurves wind_farm i fs st w = (Ok st', w') ->
  empty (data st) = false ->
  target2grid st' = target2grid st.
Proof.
  induction fs as [ | f fs IH ]; intros i st st' w w' H He.
  - cbn in H. injection H as <- _. reflexivity.
  - cbn [loop] in H. unfold bind in H.
    destruct (body source PowerCurves wind_farm i f st w)
      as [[st1 | e] w1] eqn:Hbody; [ | discriminate ].
    apply body_inv in Hbody. destruct Hbody as (_ & _ & _ & Hs).
    assert (H1 : target2grid st1 = target2grid st /\ empty (data st1) = false).
    { destruct (source f) as [tmp | ].
      - destruct Hs as (rws & Hok & Hd & _).
        rewrite Hd, empty_append, He.
        split; [ exact (hour_ok_keeps_dict _ _ _ _ _ _ _ He Hok) | reflexivity ].
      - destruct Hs as (Hd & _ & Ht). rewrite Hd, empty_append, He. auto. }
    destruct H1 as [Ht1 He1]. rewrite <- Ht1. exact (IH _ _ _ _ _ H He1).
Qed.

(** When the first request of the schedule succeeds, the dictionary of
    the whole run is the one built from that first snapshot. *)
Lemma first_snapshot_dict (f : file) (fs : list file) (tmp : snapshot)
    (dt0 : Z) (st : loop_state) (w w' : list event) :
  wind_farm <> [] ->
  source f = Some tmp ->
  loop source PowerCurves wind_farm 0 (f :: fs) (mk_state [] [] [] dt0) w
  = (Ok st, w') ->
  fill_target2grid tmp wind_farm [] = Ok (target2grid st).
Proof.
  intros Hwf Hsrc H. cbn [loop] in H. unfold bind in H.
  destruct (body source PowerCurves wind_farm 0 f (mk_state [] [] [] dt0) w)
    as [[st1 | e] w1] eqn:Hbody; [ | discriminate ].
  assert (Hd := body_builds_dict _ _ _ _ _ _ _ Hbody Hsrc eq_refl).
  cbn [target2grid] in Hd.
  apply body_inv in Hbody. destruct Hbody as (_ & _ & _ & Hs).
  rewrite Hsrc in Hs. destruct Hs as (rws & Hok & Hdata & _).
  apply hour_ok_shape in Hok.
  apply (f_equal (@List.length _)) in Hok. rewrite !length_map in Hok.
  rewrite (loop_keeps_dict _ _ _ _ _ _ H); [ exact Hd | ].
  rewrite Hdata, empty_append. cbn [data empty andb].
  destruct rws; [ | reflexivity ].
  destruct wind_farm; [ contradiction | discriminate ].
Qed.

End DictFrozen.

(** ** Runs that return *)

Section PowerReturns.
Local Open Scope R_scope.

Lemma mask_nonempty (A : Type) (s : list A) :
  forall m, List.length s = List.length m ->
  existsb (fun b => b) m = true -> mask s m <> [].
Proof.
  induction s as [ | a s IH ]; intros [ | b m ] Hlen Hex; cbn in *;
    try discriminate.
  destruct b; [ discriminate | ]. apply IH; [ lia | exact Hex ].
Qed.

Lemma column_length (tbl : list curve_row) (f : curve_row -> R) :
  List.length (column tbl f) = List.length tbl.
Proof.
  unfold column, range_index.
  rewrite length_combine, !length_map, length_seq. lia.
Qed.

(** [get_power] never raises: [np.interp] is only called on a
    selection that has a line. *)
Lemma get_power_returns (tbl : list curve_row) (wspd : R) (turbine : string) :
  exists p, get_power tbl wspd turbine = Ok p.
Proof.
  unfold get_power.
  destruct (existsb (fun b => b) _) eqn:Hex; cbn [negb]; [ | eauto ].
  apply mask_nonempty with (s := column tbl (fun r => power r turbine)) in Hex.
  - destruct (mask _ _) as [ | [i v] values ]; [ contradiction | ].
    unfold np_interp. cbn [map combine fst snd]. eauto.
  - rewrite length_map, !column_length. reflexivity.
Qed.

Lemma site_power_returns (tbl : list curve_row) (val capacity : R) :
  exists p, site_power tbl val capacity = Ok p.
Proof.
  unfold site_power.
  destruct (get_power_returns tbl val "IEC class 2") as [p Hp].
  rewrite Hp. cbn [rbind]. eauto.
Qed.

End PowerReturns.

Section NearestReturns.

Lemma mapM_returns (A B : Type) (f : A -> result B) (l : list A) :
  (forall x, In x l -> exists y, f x = Ok y) -> exists ys, mapM f l = Ok ys.
Proof.
  induction l as [ | x l IH ]; intros H; cbn [mapM].
  - eauto.
  - destruct (H x) as [y Hy]; [ left; reflexivity | ]. rewrite Hy.
    destruct IH as [ys Hys]; [ intros z Hz; apply H; right; exact Hz | ].
    rewrite Hys. cbn [rbind]. eauto.
Qed.

Lemma getitem_returns (A : Type) (l : list A) (k : nat) :
  (k < List.length l)%nat -> exists a, getitem l k = Ok a.
Proof.
  intros H. unfold getitem. apply nth_error_Some in H.
  destruct (nth_error l k); [ eauto | contradiction ].
Qed.

Lemma argmin_from_bound (l : list R) :
  forall best besti i, (besti < i)%nat ->
  (argmin_from best besti i l < i + List.length l)%nat.
Proof.
  induction l as [ | x l IH ]; intros best besti i H; cbn [argmin_from List.length].
  - lia.
  - destruct (Rlt_dec x best).
    + specialize (IH x i (S i)). lia.
    + specialize (IH best besti (S i)). lia.
Qed.

(** The nearest grid point of a target is a point of the grid. *)
Lemma nearest_returns (tmp : snapshot) (s : site) :
  lon_grid tmp <> [] ->
  (List.length (lon_grid tmp) <= List.length (lat_grid tmp))%nat ->
  exists k, nearest tmp s = Ok k /\ (k < List.length (lon_grid tmp))%nat.
Proof.
  intros Hne Hlat. unfold nearest.
  destruct (mapM_returns _ _
              (fun k => rbind (getitem (lon_grid tmp) k) (fun lo =>
                        rbind (getitem (lat_grid tmp) k) (fun la =>
                        angular_distance (ll2uv (lon s) (lat s))
                                         (ll2uv lo la))))
              (seq 0 (List.length (lon_grid tmp)))) as [angle Hangle].
  { intros k Hk. apply in_seq in Hk.
    destruct (getitem_returns _ (lon_grid tmp) k) as [lo Hlo]; [ lia | ].
    destruct (getitem_returns _ (lat_grid tmp) k) as [la Hla]; [ lia | ].
    rewrite Hlo, Hla. cbn [rbind]. apply angular_distance_returns. }
  rewrite Hangle. cbn [rbind].
  apply mapM_length in Hangle. rewrite length_seq in Hangle.
  destruct angle as [ | x angle ].
  - destruct (lon_grid tmp); [ contradiction | discriminate ].
  - cbn [np_argmin]. eexists. split; [ reflexivity | ].
    rewrite <- Hangle. cbn [List.length].
    apply (argmin_from_bound angle x 0 1). lia.
Qed.

End NearestReturns.

Section RunReturns.
Local Open Scope Z_scope.

Variable source : file -> option snapshot.
Variable PowerCurves : list curve_row.
Variable wind_farm : list site.

Lemma dict_get_set (d : dict) (k : Z) (v : nat) (k' : Z) :
  dict_get (dict_set d k v) k' = if k =? k' then Ok v else dict_get d k'.
Proof.
  induction d as [ | [k0 v0] d IH ]; cbn [dict_set dict_get].
  - reflexivity.
  - destruct (k0 =? k) eqn:Hk0; cbn [dict_get].
    + apply Z.eqb_eq in Hk0. subst k0.
      destruct (k =? k'); reflexivity.
    + rewrite IH. destruct (k0 =? k') eqn:Hk'; [ | reflexivity ].
      apply Z.eqb_eq in Hk'. subst k'. rewrite Z.eqb_sym, Hk0. reflexivity.
Qed.

(** Lines 152-157 return, and leave every target with a grid point. *)
Lemma fill_target2grid_returns (tmp : snapshot) (targets : list site) :
  lon_grid tmp <> [] ->
  (List.length (lon_grid tmp) <= List.length (lat_grid tmp))%nat ->
  forall d, exists d',
    fill_target2grid tmp targets d = Ok d' /\
    forall s, In s targets ->
      exists k, dict_get d' (site_id s) = Ok k /\
                (k < List.length (lon_grid tmp))%nat.
Proof.
  intros Hne Hlat.
  assert (Hgen : forall d, exists d',
             fill_target2grid tmp targets d = Ok d' /\
             forall id,
               (exists k, dict_get d id = Ok k /\
                          (k < List.length (lon_grid tmp))%nat) \/
               In id (map site_id targets) ->
               exists k, dict_get d' id = Ok k /\
                         (k < List.length (lon_grid tmp))%nat).
  { induction targets as [ | s rest IH ]; intros d; cbn [fill_target2grid].
    - exists d. split; [ reflexivity | ]. intros id [H | []]. exact H.
    - destruct (nearest_returns tmp s Hne Hlat) as (k & Hk & Hlt).
      rewrite Hk. cbn [rbind].
      destruct (IH (dict_set d (site_id s) k)) as (d' & Hd' & Hcov).
      exists d'. split; [ exact Hd' | ].
      intros id H. apply Hcov. rewrite dict_get_set.
      destruct (site_id s =? id) eqn:Hid.
      + left. eauto.
      + destruct H as [H | [H | H]]; [ left; exact H | | right; exact H ].
        apply Z.eqb_neq in Hid. contradiction. }
  intros d. destruct (Hgen d) as (d' & Hd' & Hcov).
  exists d'. split; [ exact Hd' | ].
  intros s Hs. apply Hcov. right. apply in_map. exact Hs.
Qed.

Lemma extract_returns (d : dict) (wsp : list R) (n : nat) :
  (forall s, In s wind_farm ->
     exists k, dict_get d (site_id s) = Ok k /\ (k < n)%nat) ->
  (n <= List.length wsp)%nat ->
  exists us, extract wind_farm d wsp = Ok us.
Proof.
  intros Hd Hn. unfold extract. apply mapM_returns. intros s Hs.
  destruct (Hd s Hs) as (k & Hk & Hlt). rewrite Hk. cbn [rbind].
  apply getitem_returns. lia.
Qed.

Lemma hour_ok_returns (st : loop_state) (i : Z) (tmp : snapshot)
    (d : dict) (n : nat) :
  (if empty (data st)
   then fill_target2grid tmp wind_farm (target2grid st)
   else Ok (target2grid st)) = Ok d ->
  (forall s, In s wind_farm ->
     exists k, dict_get d (site_id s) = Ok k /\ (k < n)%nat) ->
  (n <= List.length (u_wsp tmp))%nat ->
  (n <= List.length (v_wsp tmp))%nat ->
  exists rws, hour_ok PowerCurves wind_farm st i tmp = Ok (rws, d).
Proof.
  intros Hfill Hd Hu Hv. unfold hour_ok. rewrite Hfill. cbn [rbind].
  destruct (extract_returns d (u_wsp tmp) n Hd Hu) as [us Hus].
  destruct (extract_returns d (v_wsp tmp) n Hd Hv) as [vs Hvs].
  rewrite Hus, Hvs. cbn [rbind].
  destruct (mapM_returns _ _
              (fun vc : R * R => site_power PowerCurves (fst vc) (snd vc))
              (combine (map (fun uv : R * R => wind_speed (fst uv) (snd uv))
                            (combine us vs))
                       (map GenMWMax wind_farm))) as [ps Hps].
  { intros vc _. apply site_power_returns. }
  rewrite Hps. cbn [rbind]. eauto.
Qed.

Lemma body_returns (i : Z) (f : file) (st : loop_state) (w : list event) :
  dt st + 1 < hours_max ->
  (forall tmp, source f = Some tmp ->
     exists rt, hour_ok PowerCurves wind_farm st i tmp = Ok rt) ->
  exists st' w', body source PowerCurves wind_farm i f st w = (Ok st', w').
Proof.
  intros Hdt Hok.
  unfold body, bind, lift, ret, requests_get, time_sleep, emit, add_hours.
  destruct (negb (i =? 0) && (i mod 1000 =? 0));
    (destruct (source f) as [tmp | ];
     [ destruct (Hok tmp eq_refl) as [rt Hrt]; rewrite Hrt | ]);
    cbn -[hours_max Z.ltb];
    (destruct (Z.ltb_spec (dt st + 1) hours_max); [ | lia ]); eauto.
Qed.

(** Once the dictionary is built, the loop goes through its schedule,
    whatever the requests that fail, when the snapshots have the grid
    points of the dictionary. *)
Lemma loop_returns (n : nat) (fs : list file) :
  (forall f tmp, In f fs -> source f = Some tmp ->
     (n <= List.length (u_wsp tmp))%nat /\ (n <= List.length (v_wsp tmp))%nat) ->
  forall (i : Z) (st : loop_state) (w : list event),
  empty (data st) = false ->
  (forall s, In s wind_farm ->
     exists k, dict_get (target2grid st) (site_id s) = Ok k /\ (k < n)%nat) ->
  dt st + Z.of_nat (List.length fs) < hours_max ->
  exists st' w', loop source PowerCurves wind_farm i fs st w = (Ok st', w').
Proof.
  induction fs as [ | f fs IH ]; intros Hgrid i st w He Hd Hdt.
  - exists st, w. reflexivity.
  - cbn [List.length] in Hdt. cbn [loop]. unfold bind at 1.
    destruct (body_returns i f st w) as (st1 & w1 & Hbody); [ lia | | ].
    { intros tmp Hsrc.
      destruct (Hgrid f tmp (or_introl eq_refl) Hsrc) as [Hu Hv].
      destruct (hour_ok_returns st i tmp (target2grid st) n) as [rws Hrws];
        [ rewrite He; reflexivity | exact Hd | exact Hu | exact Hv | eauto ]. }
    rewrite Hbody. apply body_inv in Hbody.
    destruct Hbody as (Hdt1 & _ & _ & Hs).
    assert (H1 : target2grid st1 = target2grid st /\ empty (data st1) = false).
    { destruct (source f) as [tmp | ].
      - destruct Hs as (rws & Hok & Hdata & _).
        rewrite Hdata, empty_append, He.
        split; [ exact (hour_ok_keeps_dict _ _ _ _ _ _ _ He Hok) | reflexivity ].
      - destruct Hs as (Hdata & _ & Ht). rewrite Hdata, empty_append, He. auto. }
    destruct H1 as [Ht1 He1].
    apply IH; [ | exact He1 | rewrite Ht1; exact Hd | lia ].
    intros f' tmp Hf'. apply Hgrid. right. exact Hf'.
Qed.

End RunReturns.

Section RetrieveDataReturns.
Local Open Scope Z_scope.

Variable source : file -> option snapshot.
Variable PowerCurves : list curve_row.

Lemma schedule_first (start : Z) (days : nat) :
  schedule start (S days)
  = mk_file start 10000 :: tl (schedule start (S days)).
Proof. reflexivity. Qed.

(** The run returns when its first request succeeds with a grid that is
    not empty, and every snapshot has the grid points of the first one;
    the requests after the first may fail or succeed in any pattern.
    (The end date is not the last day of the calendar.) *)
Lemma retrieve_data_returns (wind_farm : list site)
    (start_date end_date : date) (w : list event) (tmp0 : snapshot) :
  day_number start_date <= day_number end_date ->
  day_number end_date + 1 < days_max ->
  source (mk_file (strptime start_date) 10000) = Some tmp0 ->
  lon_grid tmp0 <> [] ->
  (List.length (lon_grid tmp0) <= List.length (lat_grid tmp0))%nat ->
  (forall f tmp, source f = Some tmp ->
     (List.length (lon_grid tmp0) <= List.length (u_wsp tmp))%nat /\
     (List.length (lon_grid tmp0) <= List.length (v_wsp tmp))%nat) ->
  exists table missing_ w',
    retrieve_data source PowerCurves wind_farm start_date end_date w
    = (Ok (table, missing_), w').
Proof.
  intros Hle Hmax Hsrc Hne Hlat Hgrid.
  set (n := Z.to_nat (day_number end_date - day_number start_date)).
  assert (Hfiles : build_files (strptime start_date) (strptime end_date) []
                   = Ok (schedule (strptime start_date) (S n))).
  { unfold strptime.
    replace (24 * day_number end_date)
      with (24 * day_number start_date + 24 * Z.of_nat n) by lia.
    apply build_files_days. unfold hours_max. lia. }
  assert (Hlen : strptime start_date
                 + Z.of_nat (List.length (schedule (strptime start_date) (S n)))
                 < hours_max).
  { rewrite schedule_length. unfold strptime, hours_max. lia. }
  assert (Hloop : exists st w',
             loop source PowerCurves wind_farm 0
                  (schedule (strptime start_date) (S n))
                  (mk_state [] [] [] (strptime start_date)) w = (Ok st, w')).
  { destruct wind_farm as [ | s0 sites ].
    - destruct (loop_no_sites source PowerCurves
                  (schedule (strptime start_date) (S n)) 0
                  (mk_state [] [] [] (strptime start_date)) w)
        as (st & w' & Hl & _); [ reflexivity | exact Hlen | eauto ].
    - rewrite schedule_first in Hlen |- *. cbn [List.length] in Hlen.
      cbn [loop]. unfold bind at 1.
      destruct (fill_target2grid_returns tmp0 (s0 :: sites) Hne Hlat [])
        as (d & Hfill & Hd).
      destruct (Hgrid _ _ Hsrc) as [Hu Hv].
      destruct (hour_ok_returns PowerCurves (s0 :: sites)
                  (mk_state [] [] [] (strptime start_date)) 0 tmp0 d
                  (List.length (lon_grid tmp0)) Hfill Hd Hu Hv)
        as [rws Hrws].
      destruct (body_returns source PowerCurves (s0 :: sites) 0
                  (mk_file (strptime start_date) 10000)
                  (mk_state [] [] [] (strptime start_date)) w)
        as (st1 & w1 & Hbody).
      { cbn [dt]. lia. }
      { intros tmp Htmp. rewrite Hsrc in Htmp. injection Htmp as <-. eauto. }
      rewrite Hbody. apply body_inv in Hbody.
      destruct Hbody as (Hdt1 & _ & _ & Hs). rewrite Hsrc in Hs.
      destruct Hs as (rws' & Hok & Hdata & _).
      rewrite Hrws in Hok. apply Ok_inj in Hok. injection Hok as <- Ht1.
      apply hour_ok_shape in Hrws.
      apply (loop_returns source PowerCurves (s0 :: sites)
               (List.length (lon_grid tmp0))).
      + intros f tmp _ Hf. exact (Hgrid f tmp Hf).
      + rewrite Hdata, empty_append. cbn [data empty andb].
        destruct rws; [ discriminate Hrws | reflexivity ].
      + rewrite <- Ht1. exact Hd.
      + cbn [dt] in Hdt1. lia. }
  destruct Hloop as (st & w' & Hloop).
  exists (format (data st)), (missing st), w'.
  unfold retrieve_data, bind, lift, ret. rewrite Hfiles, Hloop. reflexivity.
Qed.

(** The run returns when every request fails. *)
Lemma retrieve_data_returns_source_down (wind_farm : list site)
    (start_date end_date : date) (w : list event) :
  day_number end_date + 1 < days_max ->
  (forall f, source f = None) ->
  exists table missing_ w',
    retrieve_data source PowerCurves wind_farm start_date end_date w
    = (Ok (table, missing_), w').
Proof.
  intros Hmax Hdown.
  destruct (build_files (strptime start_date) (strptime end_date) [])
    as [files | e] eqn:Hfiles.
  - assert (Hsched := build_files_dates _ _ _ Hfiles).
    destruct (loop_all_fail source PowerCurves wind_farm files 0
                (mk_state [] [] [] (strptime start_date)) w)
      as (st & w' & Hloop).
    + apply Forall_forall. intros f _. apply Hdown.
    + rewrite Hsched, schedule_length. cbn [dt].
      assert (Hs := day_number_range start_date).
      unfold strptime, hours_max. lia.
    + exists (format (data st)), (missing st), w'.
      unfold retrieve_data, bind, lift, ret. rewrite Hfiles, Hloop.
      reflexivity.
  - exfalso. unfold strptime in Hfiles.
    destruct (Z_lt_dec (day_number end_date) (day_number start_date)).
    + rewrite build_files_done in Hfiles by lia. discriminate.
    + replace (24 * day_number end_date)
        with (24 * day_number start_date
              + 24 * Z.of_nat (Z.to_nat (day_number end_date
                                         - day_number start_date)))
        in Hfiles by lia.
      rewrite build_files_days in Hfiles; [ discriminate | ].
      unfold hours_max. lia.
Qed.

End RetrieveDataReturns.

(** ** Interpolation when the row labels are the speed bins *)

Section Interpolation.
Local Open Scope R_scope.

Variable f : curve_row -> R.
Variable g : R -> bool.

(** The selection [PowerCurves[turbine][match]] of a table whose first
    line has the label [a]. *)
Local Notation "'selected' a tbl" :=
  (mask (combine (map Z.of_nat (seq a (List.length tbl))) (map f tbl))
        (map (fun r : curve_row => g (speed_bin r)) tbl))
  (at level 10, a at level 9, tbl at level 9).

Lemma selected_none (tbl : list curve_row) : forall a,
  (forall r, In r tbl -> g (speed_bin r) = false) ->
  selected a tbl = [].
Proof.
  induction tbl as [ | r tbl IH ]; intros a H; cbn.
  - reflexivity.
  - rewrite (H r) by (left; reflexivity). apply IH.
    intros r' Hr'. apply H. right. exact Hr'.
Qed.

Lemma selected_app (l1 l2 : list curve_row) : forall a,
  selected a (l1 ++ l2)
  = selected a l1 ++ selected (a + List.length l1)%nat l2.
Proof.
  induction l1 as [ | r l1 IH ]; intros a.
  - cbn [app List.length]. rewrite Nat.add_0_r. reflexivity.
  - cbn. rewrite IH. replace (S a + List.length l1)%nat
      with (a + S (List.length l1))%nat by lia.
    destruct (g (speed_bin r)); reflexivity.
Qed.

End Interpolation.

Section InterpolationFacts.
Local Open Scope R_scope.

Lemma existsb_map_true (A : Type) (g : A -> bool) (l : list A) (a : A) :
  In a l -> g a = true -> existsb (fun b => b) (map g l) = true.
Proof.
  intros Hin Ha. apply existsb_exists. exists true.
  split; [ | reflexivity ]. rewrite <- Ha. apply in_map. exact Hin.
Qed.

Lemma matched_iff (wspd b : R) :
  Rleb b (np_ceil wspd) && Rgeb b (np_floor wspd) = true
  <-> np_floor wspd <= b <= np_ceil wspd.
Proof.
  unfold Rleb, Rgeb.
  destruct (Rle_dec b (np_ceil wspd)), (Rge_dec b (np_floor wspd));
    cbn; split; intros H; try discriminate; try reflexivity; lra.
Qed.

Lemma unmatched (wspd b : R) :
  b < np_floor wspd \/ np_ceil wspd < b ->
  Rleb b (np_ceil wspd) && Rgeb b (np_floor wspd) = false.
Proof.
  intros H. destruct (Rleb b (np_ceil wspd) && Rgeb b (np_floor wspd)) eqn:E;
    [ | reflexivity ].
  apply matched_iff in E. lra.
Qed.

(** X18: at a speed that is a bin of the table, [get_power] returns the
    value stored for that bin, whatever the labels of the lines. *)
Lemma get_power_at_bin (pre post : list curve_row) (r0 : curve_row)
    (z : Z) (turbine : string) :
  speed_bin r0 = IZR z ->
  (forall r, In r (pre ++ post) -> speed_bin r <> IZR z) ->
  get_power (pre ++ r0 :: post) (IZR z) turbine = Ok (power r0 turbine).
Proof.
  intros Hbin Hother. unfold get_power.
  assert (Hfl : np_floor (IZR z) = IZR z)
    by (unfold np_floor; rewrite ZfloorZ; reflexivity).
  assert (Hce : np_ceil (IZR z) = IZR z).
  { unfold np_ceil. rewrite (Zceil_eq z); [ reflexivity | lra ]. }
  rewrite (column_values _ speed_bin bool
             (fun b => Rleb b (np_ceil (IZR z)) && Rgeb b (np_floor (IZR z)))).
  rewrite (existsb_map_true _ _ _ r0).
  2:{ apply in_or_app. right. left. reflexivity. }
  2:{ apply matched_iff. rewrite Hfl, Hce, Hbin. lra. }
  cbn [negb]. unfold column, range_index.
  rewrite (selected_app (fun r => power r turbine)
             (fun b => Rleb b (np_ceil (IZR z)) && Rgeb b (np_floor (IZR z)))
             pre (r0 :: post) 0).
  rewrite (selected_none (fun r => power r turbine)
             (fun b => Rleb b (np_ceil (IZR z)) && Rgeb b (np_floor (IZR z))) pre 0).
  2:{ intros r Hr. cbv beta. apply not_true_is_false. intros E.
      apply matched_iff in E. rewrite Hfl, Hce in E.
      apply (Hother r); [ apply in_or_app; left; exact Hr | lra ]. }
  cbn [app List.length seq map combine mask snd].
  assert (Hm : Rleb (speed_bin r0) (np_ceil (IZR z))
               && Rgeb (speed_bin r0) (np_floor (IZR z)) = true).
  { apply matched_iff. rewrite Hfl, Hce, Hbin. lra. }
  rewrite Hm.
  rewrite (selected_none (fun r => power r turbine)
             (fun b => Rleb b (np_ceil (IZR z)) && Rgeb b (np_floor (IZR z))) post).
  2:{ intros r Hr. cbv beta. apply not_true_is_false. intros E.
      apply matched_iff in E. rewrite Hfl, Hce in E.
      apply (Hother r); [ apply in_or_app; right; exact Hr | lra ]. }
  unfold np_interp. cbn [map combine fst snd interp_from].
  destruct (Rle_dec _ _); reflexivity.
Qed.

(** X19: between two consecutive bins, [get_power] interpolates linearly
    between the two stored values, provided the label of the line of the
    lower bin is that bin: that is the case when the lines of the file
    are the bins 0, 1, 2, ... *)
Lemma get_power_interpolates (pre post : list curve_row) (r0 r1 : curve_row)
    (wspd : R) (turbine : string) :
  let lo := IZR (Z.of_nat (List.length pre)) in
  speed_bin r0 = lo ->
  speed_bin r1 = lo + 1 ->
  lo < wspd < lo + 1 ->
  (forall r, In r pre -> speed_bin r < lo) ->
  (forall r, In r post -> lo + 1 < speed_bin r) ->
  get_power (pre ++ r0 :: r1 :: post) wspd turbine
  = Ok (power r0 turbine
        + (power r1 turbine - power r0 turbine) * (wspd - lo)).
Proof.
  intros lo Hr0 Hr1 Hw Hpre Hpost. unfold get_power.
  assert (Hfl : np_floor wspd = lo).
  { unfold np_floor, lo. rewrite (Zfloor_eq (Z.of_nat (List.length pre)));
      [ reflexivity | fold lo; lra ]. }
  assert (Hce : np_ceil wspd = lo + 1).
  { unfold np_ceil.
    rewrite (Zceil_eq (Z.of_nat (List.length pre) + 1));
      rewrite plus_IZR; fold lo; [ reflexivity | lra ]. }
  rewrite (column_values _ speed_bin bool
             (fun b => Rleb b (np_ceil wspd) && Rgeb b (np_floor wspd))).
  rewrite (existsb_map_true _ _ _ r0).
  2:{ apply in_or_app. right. left. reflexivity. }
  2:{ apply matched_iff. rewrite Hfl, Hce, Hr0. lra. }
  cbn [negb]. unfold column, range_index.
  rewrite (selected_app (fun r => power r turbine)
             (fun b => Rleb b (np_ceil wspd) && Rgeb b (np_floor wspd))
             pre (r0 :: r1 :: post) 0).
  rewrite (selected_none (fun r => power r turbine)
             (fun b => Rleb b (np_ceil wspd) && Rgeb b (np_floor wspd)) pre 0).
  2:{ intros r Hr. cbv beta. apply unmatched. left. rewrite Hfl. apply Hpre. exact Hr. }
  cbn [app List.length seq map combine mask snd].
  assert (Hm0 : Rleb (speed_bin r0) (np_ceil wspd)
                && Rgeb (speed_bin r0) (np_floor wspd) = true).
  { apply matched_iff. rewrite Hfl, Hce, Hr0. lra. }
  assert (Hm1 : Rleb (speed_bin r1) (np_ceil wspd)
                && Rgeb (speed_bin r1) (np_floor wspd) = true).
  { apply matched_iff. rewrite Hfl, Hce, Hr1. lra. }
  rewrite Hm0, Hm1.
  rewrite (selected_none (fun r => power r turbine)
             (fun b => Rleb b (np_ceil wspd) && Rgeb b (np_floor wspd)) post).
  2:{ intros r Hr. cbv beta. apply unmatched. right. rewrite Hce.
      apply Hpost. exact Hr. }
  unfold np_interp. cbn [map combine fst snd interp_from].
  replace (IZR (Z.of_nat (0 + List.length pre))) with lo
    by (unfold lo; rewrite Nat.add_0_l; reflexivity).
  replace (IZR (Z.of_nat (S (0 + List.length pre)))) with (lo + 1).
  2:{ unfold lo. rewrite Nat.add_0_l, Nat2Z.inj_succ, succ_IZR. reflexivity. }
  destruct (Rle_dec wspd lo); [ lra | ].
  destruct (Rlt_dec wspd (lo + 1)); [ | lra ].
  f_equal. field. lra.
Qed.

End InterpolationFacts.

(** * Further properties *)

(** ** Angular distance *)

Section AngleFacts.
Local Open Scope R_scope.

Lemma dot_comm (uv1 uv2 : vec3) : dot uv1 uv2 = dot uv2 uv1.
Proof.
  destruct uv1 as [[x1 y1] z1], uv2 as [[x2 y2] z2]. unfold dot. ring.
Qed.

Lemma degrees_bounds (x : R) : 0 <= x <= PI -> 0 <= degrees x <= 180.
Proof.
  intros [H0 H1]. unfold degrees.
  assert (Hpi := PI_RGT_0).
  assert (Hk : 0 < 180 / PI) by (apply Rdiv_lt_0_compat; lra).
  split.
  - apply Rmult_le_pos; lra.
  - replace 180 with (PI * (180 / PI)) at 2 by (field; lra).
    apply Rmult_le_compat_r; lra.
Qed.

(** The angle that [angular_distance] returns, in terms of the clamped
    dot product. *)
Lemma angular_distance_value (uv1 uv2 : vec3) :
  exists c,
    angular_distance uv1 uv2 = Ok (degrees (acos c)) /\
    -1 <= c <= 1 /\
    (-1 <= dot uv1 uv2 <= 1 -> c = dot uv1 uv2).
Proof.
  unfold angular_distance.
  destruct (Rge_dec (dot uv1 uv2) 1) as [Hge | Hlt].
  - destruct (Rle_dec 1 (-1)) as [Habs | _]; [ lra | ].
    exists 1. rewrite math_acos_clamped by lra.
    split; [ reflexivity | split; lra ].
  - destruct (Rle_dec (dot uv1 uv2) (-1)) as [Hle | Hgt].
    + exists (-1). rewrite math_acos_clamped by lra.
      split; [ reflexivity | split; lra ].
    + exists (dot uv1 uv2). rewrite math_acos_clamped by lra.
      split; [ reflexivity | split; [ lra | reflexivity ] ].
Qed.

(** X1: [angular_distance] does not depend on the order of its two
    vectors, and the angle it returns is between 0 and 180 degrees,
    whatever the vectors. *)
Theorem angular_distance_symmetric_bounded (uv1 uv2 : vec3) :
  angular_distance uv1 uv2 = angular_distance uv2 uv1 /\
  exists angle, angular_distance uv1 uv2 = Ok angle /\ 0 <= angle <= 180.
Proof.
  split.
  - unfold angular_distance. rewrite (dot_comm uv1 uv2). reflexivity.
  - destruct (angular_distance_value uv1 uv2) as (c & Hc & Hrange & _).
    exists (degrees (acos c)). split; [ exact Hc | ].
    apply degrees_bounds. apply acos_bound.
Qed.

End AngleFacts.

(** ** The nearest grid point *)

Section NearestFacts.
Local Open Scope R_scope.

(** [argmin_from] scans the rest of a sequence knowing the first minimum
    of what came before. *)
Lemma argmin_from_first_min (l : list R) :
  forall (pre : list R) (best : R) (besti : nat),
  nth_error pre besti = Some best ->
  Forall (fun x => best <= x) pre ->
  Forall (fun x => best < x) (firstn besti pre) ->
  exists m,
    nth_error (pre ++ l) (argmin_from best besti (List.length pre) l) = Some m /\
    Forall (fun x => m <= x) (pre ++ l) /\
    Forall (fun x => m < x)
           (firstn (argmin_from best besti (List.length pre) l) (pre ++ l)).
Proof.
  induction l as [ | x l IH ]; intros pre best besti Hnth Hle Hlt.
  - cbn [argmin_from]. rewrite app_nil_r. exists best. auto.
  - cbn [argmin_from].
    assert (Hi : (besti < List.length pre)%nat)
      by (apply nth_error_Some; rewrite Hnth; discriminate).
    replace (pre ++ x :: l) with ((pre ++ [x]) ++ l)
      by (rewrite <- app_assoc; reflexivity).
    replace (S (List.length pre)) with (List.length (pre ++ [x]))
      by (rewrite length_app; cbn; lia).
    destruct (Rlt_dec x best) as [Hx | Hx].
    + apply IH.
      * rewrite nth_error_app2, Nat.sub_diag by lia. reflexivity.
      * apply Forall_app. split; [ | constructor; [ lra | constructor ] ].
        revert Hle. apply Forall_impl. intros y Hy. lra.
      * rewrite firstn_app, Nat.sub_diag, firstn_all, app_nil_r.
        revert Hle. apply Forall_impl. intros y Hy. lra.
    + apply IH.
      * rewrite nth_error_app1 by lia. exact Hnth.
      * apply Forall_app.
        split; [ exact Hle | constructor; [ lra | constructor ] ].
      * rewrite firstn_app.
        replace (besti - List.length pre)%nat with 0%nat by lia.
        cbn [firstn]. rewrite app_nil_r. exact Hlt.
Qed.

(** [np.argmin] returns the position of the first minimum. *)
Lemma np_argmin_first_min (l : list R) (k : nat) :
  np_argmin l = Ok k ->
  exists m,
    nth_error l k = Some m /\
    Forall (fun x => m <= x) l /\
    Forall (fun x => m < x) (firstn k l).
Proof.
  destruct l as [ | x l ]; cbn [np_argmin]; intros H; [ discriminate | ].
  apply Ok_inj in H. subst k.
  apply (argmin_from_first_min l [x] x 0).
  - reflexivity.
  - constructor; [ lra | constructor ].
  - constructor.
Qed.

Lemma mapM_Forall2 (A B : Type) (f : A -> result B) (l : list A) :
  forall ys, mapM f l = Ok ys -> Forall2 (fun x y => f x = Ok y) l ys.
Proof.
  induction l as [ | x l IH ]; cbn [mapM]; intros ys H.
  - apply Ok_inj in H. subst ys. constructor.
  - destruct (f x) as [y | e] eqn:Hy; cbn [rbind] in H; [ | discriminate ].
    destruct (mapM f l) as [ys' | e]; cbn [rbind] in H; [ | discriminate ].
    apply Ok_inj in H. subst ys. constructor; [ exact Hy | ]. apply IH.
    reflexivity.
Qed.

Lemma Forall2_seq_nth (B : Type) (P : nat -> B -> Prop) (ys : list B) :
  forall (a n : nat), Forall2 P (seq a n) ys ->
  forall j y, nth_error ys j = Some y -> P (a + j)%nat y.
Proof.
  induction ys as [ | y0 ys IH ]; intros a n H j y Hj.
  - destruct j; discriminate.
  - destruct n as [ | n ]; cbn [seq] in H; inversion H; subst.
    destruct j as [ | j ]; cbn in Hj.
    + injection Hj as <-. rewrite Nat.add_0_r. assumption.
    + replace (a + S j)%nat with (S a + j)%nat by lia.
      apply (IH (S a) n); assumption.
Qed.

Lemma getitem_Ok (A : Type) (l : list A) (k : nat) (a : A) :
  getitem l k = Ok a <-> nth_error l k = Some a.
Proof.
  unfold getitem. destruct (nth_error l k); split; intros H;
    try discriminate; try (injection H as <-; reflexivity).
Qed.

(** X3: the grid point that lines 153-157 assign to a target is at the
    least angular distance from it, among all the points of the grid, and
    the first such point in the order of the grid arrays. *)
Theorem nearest_is_first_minimum (tmp : snapshot) (s : site) (k : nat) :
  nearest tmp s = Ok k ->
  exists lo la d,
    nth_error (lon_grid tmp) k = Some lo /\
    nth_error (lat_grid tmp) k = Some la /\
    angular_distance (ll2uv (lon s) (lat s)) (ll2uv lo la) = Ok d /\
    forall j lo' la' d',
      nth_error (lon_grid tmp) j = Some lo' ->
      nth_error (lat_grid tmp) j = Some la' ->
      angular_distance (ll2uv (lon s) (lat s)) (ll2uv lo' la') = Ok d' ->
      d <= d' /\ ((j < k)%nat -> d < d').
Proof.
  unfold nearest. intros H.
  destruct (mapM _ (seq 0 (List.length (lon_grid tmp)))) as [angle | e]
    eqn:Hangle; cbn [rbind] in H; [ | discriminate ].
  assert (Hlen := mapM_length _ _ _ _ _ Hangle). rewrite length_seq in Hlen.
  apply mapM_Forall2 in Hangle.
  assert (Hat : forall j a, nth_error angle j = Some a ->
            exists lo la,
              nth_error (lon_grid tmp) j = Some lo /\
              nth_error (lat_grid tmp) j = Some la /\
              angular_distance (ll2uv (lon s) (lat s)) (ll2uv lo la) = Ok a).
  { intros j a Hj.
    apply (Forall2_seq_nth _ _ _ _ _ Hangle) in Hj. cbn [Nat.add] in Hj.
    destruct (getitem (lon_grid tmp) j) as [lo | e] eqn:Hlo;
      cbn [rbind] in Hj; [ | discriminate ].
    destruct (getitem (lat_grid tmp) j) as [la | e] eqn:Hla;
      cbn [rbind] in Hj; [ | discriminate ].
    apply getitem_Ok in Hlo, Hla. exists lo, la. auto. }
  apply np_argmin_first_min in H. destruct H as (m & Hk & Hmin & Hfirst).
  destruct (Hat k m Hk) as (lo & la & Hlo & Hla & Hd).
  exists lo, la, m. repeat split; try assumption.
  - assert (Hj : (j < List.length angle)%nat).
    { rewrite Hlen. apply nth_error_Some. rewrite H. discriminate. }
    apply nth_error_Some in Hj.
    destruct (nth_error angle j) as [a | ] eqn:Ha; [ | contradiction ].
    destruct (Hat j a Ha) as (lo2 & la2 & Hlo2 & Hla2 & Hd2).
    rewrite H in Hlo2. rewrite H0 in Hla2.
    injection Hlo2 as <-. injection Hla2 as <-.
    rewrite H1 in Hd2. apply Ok_inj in Hd2. subst a.
    rewrite Forall_forall in Hmin. apply Hmin.
    apply (nth_error_In _ _ Ha).
  - intros Hjk.
    assert (Hj : (j < List.length angle)%nat).
    { rewrite Hlen. apply nth_error_Some. rewrite H. discriminate. }
    apply nth_error_Some in Hj.
    destruct (nth_error angle j) as [a | ] eqn:Ha; [ | contradiction ].
    destruct (Hat j a Ha) as (lo2 & la2 & Hlo2 & Hla2 & Hd2).
    rewrite H in Hlo2. rewrite H0 in Hla2.
    injection Hlo2 as <-. injection Hla2 as <-.
    rewrite H1 in Hd2. apply Ok_inj in Hd2. subst a.
    rewrite Forall_forall in Hfirst. apply Hfirst.
    apply (nth_error_In _ j). rewrite nth_error_firstn.
    destruct (Nat.ltb_spec j k); [ exact Ha | lia ].
Qed.

Lemma nearest_is_first_minimum_witness :
  exists k lo la d,
    nearest grid2 site1 = Ok k /\
    nth_error (lon_grid grid2) k = Some lo /\
    nth_error (lat_grid grid2) k = Some la /\
    angular_distance (ll2uv (lon site1) (lat site1)) (ll2uv lo la) = Ok d /\
    forall j lo' la' d',
      nth_error (lon_grid grid2) j = Some lo' ->
      nth_error (lat_grid grid2) j = Some la' ->
      angular_distance (ll2uv (lon site1) (lat site1)) (ll2uv lo' la') = Ok d' ->
      d <= d' /\ ((j < k)%nat -> d < d').
Proof.
  destruct (nearest_returns grid2 site1) as (k & Hk & _);
    [ discriminate | cbn; lia | ].
  destruct (nearest_is_first_minimum grid2 site1 k Hk)
    as (lo & la & d & H).
  exists k, lo, la, d. split; [ exact Hk | exact H ].
Defined.

End NearestFacts.

(** ** The dictionary after lines 152-157 *)

Section DictFacts.
Local Open Scope Z_scope.

Lemma fill_target2grid_lookup_from (tmp : snapshot) (targets : list site) :
  NoDup (map site_id targets) ->
  forall d d', fill_target2grid tmp targets d = Ok d' ->
  (forall s, In s targets -> dict_get d' (site_id s) = nearest tmp s) /\
  (forall id, ~ In id (map site_id targets) -> dict_get d' id = dict_get d id).
Proof.
  induction targets as [ | s rest IH ]; intros Hnd d d' H;
    cbn [fill_target2grid] in H.
  - apply Ok_inj in H. subst d'. split; [ intros s [] | reflexivity ].
  - cbn [map] in Hnd. apply NoDup_cons_iff in Hnd. destruct Hnd as [Hs Hnd].
    destruct (nearest tmp s) as [k | e] eqn:Hk; cbn [rbind] in H;
      [ | discriminate ].
    destruct (IH Hnd _ _ H) as [Hin Hout]. split.
    + intros s' [<- | Hs'].
      * rewrite (Hout _ Hs), dict_get_set, Z.eqb_refl, Hk. reflexivity.
      * apply Hin. exact Hs'.
    + intros id Hid. cbn [map In] in Hid.
      rewrite Hout by tauto. rewrite dict_get_set.
      destruct (site_id s =? id) eqn:E; [ | reflexivity ].
      apply Z.eqb_eq in E. tauto.
Qed.

(** X4: when the plant ids are unique, the dictionary that lines 152-157
    fill from a snapshot gives, for every plant of the wind farm, the
    nearest grid point of that plant; looking up any other key raises
    KeyError. *)
Theorem fill_target2grid_lookup (tmp : snapshot) (wind_farm : list site)
    (d : dict) :
  NoDup (map site_id wind_farm) ->
  fill_target2grid tmp wind_farm [] = Ok d ->
  (forall s, In s wind_farm -> dict_get d (site_id s) = nearest tmp s) /\
  (forall id, ~ In id (map site_id wind_farm) ->
     dict_get d id = Raise (KeyError id)).
Proof.
  intros Hnd H.
  destruct (fill_target2grid_lookup_from tmp wind_farm Hnd [] d H)
    as [Hin Hout].
  split; [ exact Hin | ]. intros id Hid. rewrite (Hout id Hid). reflexivity.
Qed.

Lemma fill_target2grid_lookup_witness :
  exists d,
    fill_target2grid grid2 [site1; site2] [] = Ok d /\
    (forall s, In s [site1; site2] ->
       dict_get d (site_id s) = nearest grid2 s) /\
    (forall id, ~ In id (map site_id [site1; site2]) ->
       dict_get d id = Raise (KeyError id)).
Proof.
  destruct (fill_target2grid_returns grid2 [site1; site2]) with (d := @nil (Z * nat))
    as (d & Hd & _); [ discriminate | cbn; lia | ].
  exists d. split; [ exact Hd | ].
  apply (fill_target2grid_lookup grid2 [site1; site2] d); [ | exact Hd ].
  cbn. repeat constructor; cbn; intuition discriminate.
Defined.

End DictFacts.

(** ** The rows of a successful hour *)

Section HourRows.
Local Open Scope Z_scope.

Variable source : file -> option snapshot.
Variable PowerCurves : list curve_row.
Variable wind_farm : list site.

Lemma hour_ok_dict (st : loop_state) (i : Z) (tmp : snapshot)
    (rws : list row) (d : dict) :
  hour_ok PowerCurves wind_farm st i tmp = Ok (rws, d) ->
  (if empty (data st)
   then fill_target2grid tmp wind_farm (target2grid st)
   else Ok (target2grid st)) = Ok d.
Proof.
  unfold hour_ok. intros H.
  destruct (if empty (data st) then _ else _) as [d0 | e];
    cbn [rbind] in H; [ | discriminate ].
  destruct (extract wind_farm d0 (u_wsp tmp)); cbn [rbind] in H;
    [ | discriminate ].
  destruct (extract wind_farm d0 (v_wsp tmp)); cbn [rbind] in H;
    [ | discriminate ].
  destruct (mapM _ _); cbn [rbind] in H; [ | discriminate ].
  apply Ok_inj in H. injection H as _ Hd. rewrite Hd. reflexivity.
Qed.

Lemma rows_of_columns (d : dict) (tmp : snapshot) (dt_ i : Z)
    (sites : list site) :
  forall us vs ps,
  Forall2 (fun s u => rbind (dict_get d (site_id s))
                            (fun k => getitem (u_wsp tmp) k) = Ok u) sites us ->
  Forall2 (fun s v => rbind (dict_get d (site_id s))
                            (fun k => getitem (v_wsp tmp) k) = Ok v) sites vs ->
  Forall2 (fun vc p => site_power PowerCurves (fst vc) (snd vc) = Ok p)
          (combine (map (fun uv => wind_speed (fst uv) (snd uv))
                        (combine us vs))
                   (map GenMWMax sites)) ps ->
  Forall2 (hour_row PowerCurves d tmp dt_ i) sites
          (frame_rows dt_ i
             (combine sites
                (map (fun c : R * R * R =>
                        let '(u, v, p) := c in (Some u, Some v, Some p))
                     (combine (combine us vs) ps)))).
Proof.
  induction sites as [ | s sites IH ]; intros us vs ps Hu Hv Hp.
  - constructor.
  - inversion Hu as [ | s' u sites' us' Hu0 Hu' ]; subst.
    inversion Hv as [ | s' v sites' vs' Hv0 Hv' ]; subst.
    cbn [combine map] in Hp.
    inversion Hp as [ | vc p cs ps' Hp0 Hp' ]; subst.
    cbn [combine map frame_rows]. constructor.
    + destruct (dict_get d (site_id s)) as [k | e] eqn:Hk;
        cbn [rbind] in Hu0, Hv0; [ | discriminate ].
      apply getitem_Ok in Hu0, Hv0.
      cbn [fst snd] in Hp0. unfold site_power, wind_speed in Hp0.
      destruct (get_power PowerCurves (sqrt (u ^ 2 + v ^ 2)) "IEC class 2")
        as [p0 | e] eqn:Hp0'; cbn [rbind] in Hp0; [ | discriminate ].
      apply Ok_inj in Hp0. subst p.
      exists k, u, v, p0. repeat split; assumption.
    + apply IH; assumption.
Qed.

(** The rows that lines 159-166 compute, plant by plant. *)
Lemma hour_ok_rows (st : loop_state) (i : Z) (tmp : snapshot)
    (rws : list row) (d : dict) :
  hour_ok PowerCurves wind_farm st i tmp = Ok (rws, d) ->
  Forall2 (hour_row PowerCurves d tmp (dt st) i) wind_farm rws.
Proof.
  intros H. assert (Hd := hour_ok_dict _ _ _ _ _ H).
  unfold hour_ok in H. rewrite Hd in H. cbn [rbind] in H.
  destruct (extract wind_farm d (u_wsp tmp)) as [us | e] eqn:Hus;
    cbn [rbind] in H; [ | discriminate ].
  destruct (extract wind_farm d (v_wsp tmp)) as [vs | e] eqn:Hvs;
    cbn [rbind] in H; [ | discriminate ].
  destruct (mapM _ _) as [ps | e] eqn:Hps; cbn [rbind] in H; [ | discriminate ].
  apply Ok_inj in H. injection H as <-.
  apply mapM_Forall2 in Hus, Hvs, Hps.
  apply rows_of_columns; assumption.
Qed.

Lemma loop_keeps_rows (fs : list file) (i : Z) (st st' : loop_state)
    (w w' : list event) :
  loop source PowerCurves wind_farm i fs st w = (Ok st', w') ->
  empty (data st) = false -> empty (data st') = false.
Proof.
  intros H He. revert i st w H He.
  induction fs as [ | f fs IH ]; intros i st w H He.
  - cbn in H. injection H as <- _. exact He.
  - cbn [loop] in H. unfold bind in H.
    destruct (body source PowerCurves wind_farm i f st w)
      as [[st1 | e] w1] eqn:Hbody; [ | discriminate ].
    apply (IH _ _ _ H). apply body_inv in Hbody.
    destruct Hbody as (_ & _ & _ & Hs).
    destruct (source f) as [tmp | ].
    + destruct Hs as (rws & _ & Hd & _). rewrite Hd, empty_append, He.
      reflexivity.
    + destruct Hs as (Hd & _). rewrite Hd, empty_append, He. reflexivity.
Qed.

End HourRows.

(** ** Where the rows of the table come from *)

Section RowOrigin.
Local Open Scope Z_scope.

Variable source : file -> option snapshot.
Variable PowerCurves : list curve_row.
Variable wind_farm : list site.

(** Every row that the loop appends is a row of one hour of its
    schedule. *)
Lemma loop_row_origin (fs : list file) :
  forall (a : nat) (st st' : loop_state) (w w' : list event),
  loop source PowerCurves wind_farm (Z.of_nat a) fs st w = (Ok st', w') ->
  forall r0, In r0 (map snd (data st')) ->
  In r0 (map snd (data st)) \/
  exists j f stj rws,
    nth_error fs j = Some f /\
    In r0 rws /\
    dt stj = dt st + Z.of_nat j /\
    hour_shape wind_farm (dt stj) (Z.of_nat (a + j)) rws /\
    match source f with
    | None => rws = hour_missing wind_farm stj (Z.of_nat (a + j))
    | Some tmp =>
        exists d, hour_ok PowerCurves wind_farm stj (Z.of_nat (a + j)) tmp
                  = Ok (rws, d)
    end.
Proof.
  induction fs as [ | f fs IH ]; intros a st st' w w' H r0 Hr0.
  - cbn in H. injection H as <- _. left. exact Hr0.
  - cbn [loop] in H. unfold bind in H.
    destruct (body source PowerCurves wind_farm (Z.of_nat a) f st w)
      as [[st1 | e] w1] eqn:Hbody; [ | discriminate ].
    replace (Z.of_nat a + 1) with (Z.of_nat (S a)) in H by lia.
    apply body_inv in Hbody. destruct Hbody as (Hdt1 & _ & _ & Hs).
    assert (Hhour : exists rws,
               data st1 = append (data st) rws /\
               hour_shape wind_farm (dt st) (Z.of_nat a) rws /\
               match source f with
               | None => rws = hour_missing wind_farm st (Z.of_nat a)
               | Some tmp =>
                   exists d, hour_ok PowerCurves wind_farm st (Z.of_nat a) tmp
                             = Ok (rws, d)
               end).
    { destruct (source f) as [tmp | ].
      - destruct Hs as (rws & Hok & Hd & _). exists rws.
        split; [ exact Hd | ].
        split; [ exact (hour_ok_shape _ _ _ _ _ _ _ Hok) | eauto ].
      - destruct Hs as (Hd & _). exists (hour_missing wind_farm st (Z.of_nat a)).
        split; [ exact Hd | ].
        split; [ apply hour_missing_shape | reflexivity ]. }
    destruct Hhour as (rws & Hd & Hshape & Hsrc).
    destruct (IH _ _ _ _ _ H r0 Hr0) as [Hin | (j & f' & stj & rws' & Hj)].
    + rewrite Hd, append_rows in Hin. apply in_app_or in Hin.
      destruct Hin as [Hin | Hin]; [ left; exact Hin | ].
      right. exists 0%nat, f, st, rws. rewrite Nat.add_0_r, Z.add_0_r.
      repeat split; assumption.
    + destruct Hj as (Hnth & Hin & Hdt & Hsh & Hm).
      right. exists (S j), f', stj, rws'.
      replace (a + S j)%nat with (S a + j)%nat by lia.
      repeat split; try assumption. lia.
Qed.

(** Every row of the returned table is the formatted row of a plant for
    one hour of the schedule. *)
Lemma table_row_origin (start_date end_date : date) (w w' : list event)
    (table : frame) (missing_ : list file) :
  retrieve_data source PowerCurves wind_farm start_date end_date w
  = (Ok (table, missing_), w') ->
  forall r, In r (map snd table) ->
  exists r0 j f stj rws s,
    r = format_row r0 /\
    nth_error (schedule (strptime start_date)
                 (Z.to_nat (day_number end_date + 1 - day_number start_date)))
              j = Some f /\
    In r0 rws /\ In s wind_farm /\
    plantID r0 = site_id s /\
    ts r0 = strptime start_date + Z.of_nat j /\
    tsID r0 = Z.of_nat j + 1 /\
    astype_int32 (Z.of_nat j + 1) = Z.of_nat j + 1 /\
    dt stj = strptime start_date + Z.of_nat j /\
    match source f with
    | None => rws = hour_missing wind_farm stj (Z.of_nat j)
    | Some tmp =>
        exists d, hour_ok PowerCurves wind_farm stj (Z.of_nat j) tmp
                  = Ok (rws, d)
    end.
Proof.
  intros H r Hr.
  assert (Hfit := schedule_fits_int32 start_date end_date).
  apply retrieve_data_rows in H.
  destruct H as (files & st & Hfiles & Hloop & Htable & _).
  rewrite <- Hfiles in Hfit |- *. subst table.
  apply (Permutation_in _ (Permutation_sym (format_perm (data st)))) in Hr.
  rewrite <- (map_map snd format_row) in Hr. apply in_map_iff in Hr.
  destruct Hr as (r0 & Hr & Hr0).
  destruct (loop_row_origin files 0 _ _ _ _ Hloop r0 Hr0)
    as [[] | (j & f & stj & rws & Hnth & Hin & Hdt & Hsh & Hm)].
  cbn [dt Nat.add] in Hdt, Hsh, Hm.
  assert (Hj : (j < List.length files)%nat)
    by (apply nth_error_Some; rewrite Hnth; discriminate).
  unfold hour_shape in Hsh.
  apply (in_map (fun r => (plantID r, ts r, tsID r))) in Hin as Hk.
  rewrite Hsh in Hk. apply in_map_iff in Hk. destruct Hk as (s & Hs & Hsin).
  injection Hs as Hp Ht Hi.
  exists r0, j, f, stj, rws, s.
  repeat split; try assumption; try congruence.
  apply astype_int32_small. change (2 ^ 31) with 2147483648 in *. lia.
Qed.

(** X5: in the returned table, the timestamp index of every row is
    between 1 and the number of scheduled hours, its timestamp is the
    start date plus (index - 1) hours, and its plant is a plant of the
    wind farm (with its id as [astype(np.int32)] leaves it: unchanged
    when it fits 32 bits). *)
Theorem rows_timestamp_and_plant (start_date end_date : date)
    (w w' : list event) (table : frame) (missing_ : list file) :
  retrieve_data source PowerCurves wind_farm start_date end_date w
  = (Ok (table, missing_), w') ->
  forall r, In r (map snd table) ->
  1 <= tsID r
    <= 24 * (day_number end_date + 1 - day_number start_date) /\
  ts r = strptime start_date + (tsID r - 1) /\
  exists s, In s wind_farm /\ plantID r = astype_int32 (site_id s).
Proof.
  intros H r Hr.
  destruct (table_row_origin _ _ _ _ _ _ H r Hr)
    as (r0 & j & f & stj & rws & s & -> & Hnth & _ & Hs & Hp & Ht & Hi & Hfit & _).
  assert (Hj : (j < List.length
                     (schedule (strptime start_date)
                        (Z.to_nat (day_number end_date + 1
                                   - day_number start_date))))%nat)
    by (apply nth_error_Some; rewrite Hnth; discriminate).
  rewrite schedule_length in Hj.
  cbn [format_row tsID ts plantID]. rewrite Hi, Hfit, Ht, Hp.
  split; [ lia | ]. split; [ lia | ]. exists s. auto.
Qed.

(** X6: in the returned table, every row belongs to an hour of the
    schedule, the one of index tsID - 1; the file of that hour is listed
    as missing exactly when its request failed, and the rows of an hour
    listed as missing have U, V and Pout all NaN. *)
Theorem missing_hours_are_nan (start_date end_date : date)
    (w w' : list event) (table : frame) (missing_ : list file) :
  retrieve_data source PowerCurves wind_farm start_date end_date w
  = (Ok (table, missing_), w') ->
  forall r, In r (map snd table) ->
  exists f,
    nth_error (schedule (strptime start_date)
                 (Z.to_nat (day_number end_date + 1 - day_number start_date)))
              (Z.to_nat (tsID r - 1)) = Some f /\
    (In f missing_ <-> source f = None) /\
    (In f missing_ -> U r = None /\ V r = None /\ Pout r = None).
Proof.
  intros H r Hr.
  destruct (table_row_origin _ _ _ _ _ _ H r Hr)
    as (r0 & j & f & stj & rws & s & -> & Hnth & Hin & _ & _ & _ & Hi & Hfit
        & _ & Hm).
  apply retrieve_data_rows in H.
  destruct H as (files & _ & Hfiles & _ & _ & Hmiss & _).
  rewrite <- Hfiles in Hnth |- *. subst missing_.
  exists f. cbn [format_row tsID U V Pout]. rewrite Hi, Hfit.
  replace (Z.to_nat (Z.of_nat j + 1 - 1)) with j by lia.
  split; [ exact Hnth | ].
  assert (Hf : In f (filter (failed source) files) <-> source f = None).
  { rewrite filter_In. unfold failed. split.
    - intros [_ E]. destruct (source f); [ discriminate | reflexivity ].
    - intros E. rewrite E. split; [ exact (nth_error_In _ _ Hnth) | reflexivity ]. }
  split; [ exact Hf | ].
  intros Hfin. apply Hf in Hfin. rewrite Hfin in Hm. subst rws.
  unfold hour_missing, frame_rows in Hin.
  rewrite map_map in Hin. apply in_map_iff in Hin.
  destruct Hin as (s' & <- & _). cbn [U V Pout]. auto.
Qed.

End RowOrigin.

Section HourInTable.
Local Open Scope Z_scope.

Variable source : file -> option snapshot.
Variable PowerCurves : list curve_row.
Variable wind_farm : list site.

(** The rows of one hour, found again in the returned table. *)
Lemma hour_rows_in_table (start_date end_date : date) (w w' : list event)
    (table : frame) (missing_ : list file)
    (fs1 fs2 : list file) (f : file) :
  build_files (strptime start_date) (strptime end_date) []
  = Ok (fs1 ++ f :: fs2) ->
  retrieve_data source PowerCurves wind_farm start_date end_date w
  = (Ok (table, missing_), w') ->
  exists st1 w1 st2 rws,
    loop source PowerCurves wind_farm 0 fs1
         (mk_state [] [] [] (strptime start_date)) w = (Ok st1, w1) /\
    dt st1 = strptime start_date + Z.of_nat (List.length fs1) /\
    data st2 = append (data st1) rws /\
    match source f with
    | None => rws = hour_missing wind_farm st1 (Z.of_nat (List.length fs1))
    | Some tmp =>
        hour_ok PowerCurves wind_farm st1 (Z.of_nat (List.length fs1)) tmp
        = Ok (rws, target2grid st2)
    end /\
    Permutation
      (filter (fun r => tsID r =? Z.of_nat (List.length fs1) + 1)
              (map snd table))
      (map format_row rws).
Proof.
  intros Hfiles H.
  assert (Hsched := build_files_dates _ _ _ Hfiles).
  assert (Hfit := schedule_fits_int32 start_date end_date).
  rewrite <- Hsched in Hfit. change (2 ^ 31) with 2147483648 in Hfit.
  destruct (run_at_hour PowerCurves wind_farm source start_date end_date
              w w' table missing_ fs1 fs2 f Hfiles H)
    as (st1 & w1 & st2 & w2 & st & extra
        & H1 & Hb & H2 & Ht & Hdt1 & Hts1 & _ & Hrows & Hts).
  assert (Hlenf : Z.of_nat (List.length fs1) + 1
                  <= Z.of_nat (List.length (fs1 ++ f :: fs2))).
  { rewrite length_app. cbn [List.length]. lia. }
  apply body_inv in Hb. destruct Hb as (_ & _ & _ & Hs).
  assert (Hhour : exists rws,
             data st2 = append (data st1) rws /\
             hour_shape wind_farm (dt st1) (Z.of_nat (List.length fs1)) rws /\
             match source f with
             | None =>
                 rws = hour_missing wind_farm st1 (Z.of_nat (List.length fs1))
             | Some tmp =>
                 hour_ok PowerCurves wind_farm st1
                         (Z.of_nat (List.length fs1)) tmp
                 = Ok (rws, target2grid st2)
             end).
  { destruct (source f) as [tmp | ].
    - destruct Hs as (rws & Hok & Hd & _). exists rws.
      split; [ exact Hd | ].
      split; [ exact (hour_ok_shape _ _ _ _ _ _ _ Hok) | exact Hok ].
    - destruct Hs as (Hd & _).
      exists (hour_missing wind_farm st1 (Z.of_nat (List.length fs1))).
      split; [ exact Hd | ].
      split; [ apply hour_missing_shape | reflexivity ]. }
  destruct Hhour as (rws & Hd & Hshape & Hm).
  exists st1, w1, st2, rws.
  split; [ exact H1 | ]. split; [ exact Hdt1 | ]. split; [ exact Hd | ].
  split; [ exact Hm | ].
  subst table.
  apply perm_trans
    with (filter (fun r => tsID r =? Z.of_nat (List.length fs1) + 1)
                 (map (fun lr => format_row (snd lr)) (data st)));
    [ apply Permutation_filter, Permutation_sym, format_perm | ].
  rewrite <- (map_map snd format_row), Hrows, Hd, append_rows.
  rewrite !map_app, !filter_app.
  rewrite (filter_none _ _ (map format_row (map snd (data st1)))).
  2:{ apply Forall_map. revert Hts1. apply Forall_impl. intros r Hr.
      cbn. rewrite astype_int32_small
        by (change (2 ^ 31) with 2147483648; lia).
      apply Z.eqb_neq. lia. }
  rewrite (filter_none _ _ (map format_row extra)).
  2:{ apply Forall_map. revert Hts. apply Forall_impl. intros r Hr.
      cbn. rewrite astype_int32_small
        by (change (2 ^ 31) with 2147483648; lia).
      apply Z.eqb_neq. lia. }
  rewrite app_nil_r. cbn [app].
  rewrite filter_all; [ apply Permutation_refl | ].
  apply Forall_map. apply Forall_forall. intros r Hr.
  apply (in_map (fun r => (plantID r, ts r, tsID r))) in Hr.
  unfold hour_shape in Hshape. rewrite Hshape in Hr.
  apply in_map_iff in Hr. destruct Hr as (s & Hs' & _).
  injection Hs' as _ _ Hi. cbn. rewrite <- Hi.
  rewrite astype_int32_small by (change (2 ^ 31) with 2147483648; lia).
  apply Z.eqb_refl.
Qed.

(** The dictionary in use at any hour of a run whose first request
    succeeded is the one filled from the first snapshot. *)
Lemma dict_at_hour (f0 : file) (fs : list file) (tmp0 : snapshot)
    (dt0 : Z) (st : loop_state) (w w' : list event) :
  wind_farm <> [] ->
  source f0 = Some tmp0 ->
  loop source PowerCurves wind_farm 0 (f0 :: fs) (mk_state [] [] [] dt0) w
  = (Ok st, w') ->
  fill_target2grid tmp0 wind_farm [] = Ok (target2grid st) /\
  empty (data st) = false.
Proof.
  intros Hwf Hsrc H. cbn [loop] in H. unfold bind in H.
  destruct (body source PowerCurves wind_farm 0 f0 (mk_state [] [] [] dt0) w)
    as [[st1 | e] w1] eqn:Hbody; [ | discriminate ].
  assert (Hd := body_builds_dict _ _ _ _ _ _ _ _ _ _ Hbody Hsrc eq_refl).
  cbn [target2grid] in Hd.
  apply body_inv in Hbody. destruct Hbody as (_ & _ & _ & Hs).
  rewrite Hsrc in Hs. destruct Hs as (rws & Hok & Hdata & _).
  apply hour_ok_shape in Hok.
  apply (f_equal (@List.length _)) in Hok. rewrite !length_map in Hok.
  assert (He1 : empty (data st1) = false).
  { rewrite Hdata, empty_append. cbn [data empty andb].
    destruct rws; [ | reflexivity ].
    destruct wind_farm; [ contradiction | discriminate ]. }
  split.
  - rewrite (loop_keeps_dict _ _ _ _ _ _ _ _ _ H He1). exact Hd.
  - exact (loop_keeps_rows _ _ _ _ _ _ _ _ _ H He1).
Qed.

End HourInTable.

Section SuccessfulHour.
Local Open Scope Z_scope.

Variable source : file -> option snapshot.
Variable PowerCurves : list curve_row.
Variable wind_farm : list site.

(** X7: in a run whose first request succeeded, the rows of the table for
    an hour whose request succeeded are, one per plant: U and V read from
    that hour's snapshot at the grid point that the dictionary filled
    from the first snapshot gives the plant, and Pout the power of their
    speed for 'IEC class 2' times the capacity of the plant. *)
Theorem successful_hour_rows (start_date end_date : date)
    (w w' : list event) (table : frame) (missing_ : list file)
    (files : list file) (h : nat) (f f0 : file) (tmp tmp0 : snapshot) :
  build_files (strptime start_date) (strptime end_date) [] = Ok files ->
  nth_error files 0 = Some f0 ->
  source f0 = Some tmp0 ->
  nth_error files h = Some f ->
  source f = Some tmp ->
  retrieve_data source PowerCurves wind_farm start_date end_date w
  = (Ok (table, missing_), w') ->
  exists d rws,
    fill_target2grid tmp0 wind_farm [] = Ok d /\
    Forall2 (hour_row PowerCurves d tmp
                      (strptime start_date + Z.of_nat h) (Z.of_nat h))
            wind_farm rws /\
    Permutation
      (filter (fun r => tsID r =? Z.of_nat h + 1) (map snd table))
      (map (fun r => mk_row (astype_int32 (plantID r)) (U r) (V r) (Pout r)
                            (ts r) (tsID r)) rws).
Proof.
  intros Hfiles Hnth0 Hsrc0 Hnth Hsrc H.
  destruct (nth_error_split files h Hnth) as (fs1 & fs2 & -> & Hlen).
  destruct (hour_rows_in_table source PowerCurves wind_farm start_date
              end_date w w' table missing_ fs1 fs2 f Hfiles H)
    as (st1 & w1 & st2 & rws & H1 & Hdt1 & Hd & Hm & Hperm).
  rewrite Hsrc in Hm. rewrite Hlen in Hdt1, Hm, Hperm.
  assert (Hrows := hour_ok_rows PowerCurves wind_farm _ _ _ _ _ Hm).
  assert (Hshape := hour_ok_shape _ _ _ _ _ _ _ Hm).
  rewrite Hdt1 in Hrows.
  assert (Hfmt : map format_row rws
                 = map (fun r => mk_row (astype_int32 (plantID r)) (U r) (V r)
                                        (Pout r) (ts r) (tsID r)) rws).
  { apply map_ext_in. intros r Hr. unfold format_row. f_equal.
    apply (in_map (fun r => (plantID r, ts r, tsID r))) in Hr.
    unfold hour_shape in Hshape. rewrite Hshape in Hr.
    apply in_map_iff in Hr. destruct Hr as (s & Hs & _).
    injection Hs as _ _ Hi. rewrite <- Hi.
    assert (Hfit := schedule_fits_int32 start_date end_date).
    rewrite <- (build_files_dates _ _ _ Hfiles) in Hfit.
    rewrite length_app in Hfit. cbn [List.length] in Hfit.
    apply astype_int32_small. change (2 ^ 31) with 2147483648 in *. lia. }
  rewrite Hfmt in Hperm.
  destruct (Nat.eq_dec (List.length wind_farm) 0) as [Hwf0 | Hwf].
  - apply length_zero_iff_nil in Hwf0.
    exists [], rws. rewrite Hwf0 in Hrows |- *.
    split; [ reflexivity | ]. split; [ | exact Hperm ].
    inversion Hrows. constructor.
  - assert (Hwf' : wind_farm <> []) by (intros E; rewrite E in Hwf; auto).
    exists (target2grid st2), rws.
    split; [ | split; [ exact Hrows | exact Hperm ] ].
    destruct fs1 as [ | f0' fs1 ].
    + cbn in Hnth0, H1. injection Hnth0 as <-.
      injection H1 as <- _. rewrite Hsrc in Hsrc0. injection Hsrc0 as <-.
      apply hour_ok_dict in Hm. exact Hm.
    + cbn in Hnth0. injection Hnth0 as ->.
      destruct (dict_at_hour source PowerCurves wind_farm _ _ _ _ _ _ _
                  Hwf' Hsrc0 H1) as [Hfill He].
      rewrite (hour_ok_keeps_dict _ _ _ _ _ _ _ He Hm). exact Hfill.
Qed.

End SuccessfulHour.

Lemma run_source_up_returns :
  exists table missing_ w',
    retrieve_data source_up table_0_2 [site1; site2] day0 day0 []
    = (Ok (table, missing_), w').
Proof.
  apply (retrieve_data_returns source_up table_0_2 [site1; site2]
           day0 day0 [] grid2).
  - cbn. lia.
  - unfold days_max. cbn. lia.
  - reflexivity.
  - discriminate.
  - cbn. lia.
  - intros f tmp H. injection H as <-. cbn. lia.
Qed.

Lemma successful_hour_rows_witness :
  exists table missing_ w' d rws,
    retrieve_data source_up table_0_2 [site1; site2] day0 day0 []
    = (Ok (table, missing_), w') /\
    fill_target2grid grid2 [site1; site2] [] = Ok d /\
    Forall2 (hour_row table_0_2 d grid2
                      (strptime day0 + Z.of_nat 1) (Z.of_nat 1))
            [site1; site2] rws /\
    Permutation
      (filter (fun r => (tsID r =? Z.of_nat 1 + 1)%Z) (map snd table))
      (map (fun r => mk_row (astype_int32 (plantID r)) (U r) (V r) (Pout r)
                            (ts r) (tsID r)) rws).
Proof.
  destruct run_source_up_returns as (table & missing_ & w' & Hrun).
  destruct (successful_hour_rows source_up table_0_2 [site1; site2]
              day0 day0 [] w' table missing_
              (schedule (strptime day0) 1) 1 file1 file0 grid2 grid2)
    as (d & rws & H);
    [ vm_compute; reflexivity | reflexivity | reflexivity | reflexivity
    | reflexivity | exact Hrun | ].
  exists table, missing_, w', d, rws. split; [ exact Hrun | exact H ].
Defined.

Lemma run_source_first_returns :
  exists table missing_ w',
    retrieve_data source_first table_5_6 [site1] day0 day0 []
    = (Ok (table, missing_), w').
Proof.
  assert (Hfiles : build_files (strptime day0) (strptime day0) []
                   = Ok (file0 :: tl (schedule (strptime day0) 1)))
    by (vm_compute; reflexivity).
  unfold retrieve_data, bind, lift, ret. rewrite Hfiles.
  cbn [loop]. unfold bind. fold state0. rewrite body_source_first.
  destruct (loop_all_fail source_first table_5_6 [site1]
              (tl (schedule (strptime day0) 1)) (0 + 1)
              (mk_state [(0%Z, mk_row 1 (Some 5.5%R) (Some 0%R)
                                     (Some (0.3 * 100)%R) (strptime day0) 1)]
                        [] [(1%Z, 0%nat)] (strptime day0 + 1)%Z)
              [Get file0]) as (st' & w' & Hloop).
  - vm_compute. repeat constructor.
  - vm_compute. reflexivity.
  - rewrite Hloop. eauto.
Qed.

Lemma rows_timestamp_and_plant_witness :
  exists table missing_ w',
    retrieve_data source_first table_5_6 [site1] day0 day0 []
    = (Ok (table, missing_), w') /\
    forall r, In r (map snd table) ->
    (1 <= tsID r <= 24 * (day_number day0 + 1 - day_number day0))%Z /\
    ts r = (strptime day0 + (tsID r - 1))%Z /\
    exists s, In s [site1] /\ plantID r = astype_int32 (site_id s).
Proof.
  destruct run_source_first_returns as (table & missing_ & w' & Hrun).
  exists table, missing_, w'. split; [ exact Hrun | ].
  exact (rows_timestamp_and_plant source_first table_5_6 [site1]
           day0 day0 [] w' table missing_ Hrun).
Defined.

Lemma missing_hours_are_nan_witness :
  exists table missing_ w',
    retrieve_data source_first table_5_6 [site1] day0 day0 []
    = (Ok (table, missing_), w') /\
    forall r, In r (map snd table) ->
    exists f,
      nth_error (schedule (strptime day0)
                   (Z.to_nat (day_number day0 + 1 - day_number day0)))
                (Z.to_nat (tsID r - 1)) = Some f /\
      (In f missing_ <-> source_first f = None) /\
      (In f missing_ -> U r = None /\ V r = None /\ Pout r = None).
Proof.
  destruct run_source_first_returns as (table & missing_ & w' & Hrun).
  exists table, missing_, w'. split; [ exact Hrun | ].
  exact (missing_hours_are_nan source_first table_5_6 [site1]
           day0 day0 [] w' table missing_ Hrun).
Defined.

(** ** Bounds on the power *)

Section PowerBounds.
Local Open Scope R_scope.

Lemma interp_from_bounds (lo hi x : R) (pts : list (R * R)) :
  forall x0 y0,
  x0 <= x -> lo <= y0 <= hi ->
  Forall (fun pt => lo <= snd pt <= hi) pts ->
  lo <= interp_from x x0 y0 pts <= hi.
Proof.
  induction pts as [ | [x1 y1] pts IH ]; intros x0 y0 Hx Hy Hpts;
    cbn [interp_from].
  - exact Hy.
  - apply Forall_cons_iff in Hpts. destruct Hpts as [Hy1 Hpts].
    cbn [snd] in Hy1.
    destruct (Rlt_dec x x1) as [Hlt | Hge].
    + assert (Hd : 0 < x1 - x0) by lra.
      set (t := (x - x0) / (x1 - x0)).
      assert (Ht : 0 <= t < 1).
      { unfold t. split.
        - apply Rmult_le_pos; [ lra | ].
          apply Rlt_le, Rinv_0_lt_compat. exact Hd.
        - apply Rmult_lt_reg_r with (x1 - x0); [ exact Hd | ].
          unfold Rdiv. rewrite Rmult_assoc, Rinv_l by lra. lra. }
      replace ((y1 - y0) / (x1 - x0) * (x - x0) + y0)
        with (y0 + t * (y1 - y0)) by (unfold t; field; lra).
      split; nra.
    + apply IH; [ lra | exact Hy1 | exact Hpts ].
Qed.

Lemma mask_Forall (A : Type) (P : A -> Prop) (s : list A) :
  forall m, Forall P s -> Forall P (mask s m).
Proof.
  induction s as [ | a s IH ]; intros [ | b m ] H; cbn [mask];
    try constructor.
  apply Forall_cons_iff in H. destruct H as [Ha H].
  destruct b; [ constructor; [ exact Ha | ] | ]; apply IH; exact H.
Qed.

Lemma column_Forall (tbl : list curve_row) (f : curve_row -> R)
    (lo hi : R) :
  (forall r, In r tbl -> lo <= f r <= hi) ->
  Forall (fun v : Z * R => lo <= snd v <= hi) (column tbl f).
Proof.
  intros H. unfold column, range_index. generalize 0%nat.
  induction tbl as [ | r tbl IH ]; intros a; cbn.
  - constructor.
  - constructor; [ apply H; left; reflexivity | ].
    apply IH. intros r' Hr'. apply H. right. exact Hr'.
Qed.

(** The interpolation of [get_power] stays between the bounds of the
    selected values. *)
Lemma get_power_range (tbl : list curve_row) (turbine : string)
    (lo hi wspd : R) :
  lo <= 0 <= hi ->
  (forall r, In r tbl -> lo <= power r turbine <= hi) ->
  exists p, get_power tbl wspd turbine = Ok p /\ lo <= p <= hi.
Proof.
  intros H0 Htbl. unfold get_power.
  destruct (existsb (fun b => b) _) eqn:Hex; cbn [negb];
    [ | exists 0; auto ].
  pose proof (mask_Forall _ _ _
    (map (fun b : Z * R =>
            Rleb (snd b) (np_ceil wspd) && Rgeb (snd b) (np_floor wspd))
         (column tbl speed_bin))
    (column_Forall tbl (fun r => power r turbine) lo hi Htbl)) as Hvals.
  apply mask_nonempty with (s := column tbl (fun r => power r turbine))
    in Hex; [ | rewrite length_map, !column_length; reflexivity ].
  destruct (mask _ _) as [ | [i v] values ]; [ contradiction Hex; reflexivity | ].
  apply Forall_cons_iff in Hvals. destruct Hvals as [Hv Hvals].
  cbn [snd] in Hv. unfold np_interp. cbn [map combine fst snd].
  eexists. split; [ reflexivity | ].
  destruct (Rle_dec wspd (IZR i)) as [Hle | Hgt]; [ exact Hv | ].
  apply interp_from_bounds; [ lra | exact Hv | ].
  clear - Hvals. induction values as [ | [j y] values IH ]; cbn.
  - constructor.
  - apply Forall_cons_iff in Hvals. destruct Hvals as [Hy Hvals].
    constructor; [ exact Hy | apply IH; exact Hvals ].
Qed.

(** X8: [get_power] never leaves the range of the power curve: when the
    stored values of a turbine class are all between two bounds (0 being
    between them), it returns, and the normalized power of every wind
    speed is between these bounds too. *)
Theorem get_power_within_curve (tbl : list curve_row) (turbine : string)
    (lo hi wspd : R) :
  lo <= 0 <= hi ->
  (forall r, In r tbl -> lo <= power r turbine <= hi) ->
  exists p, get_power tbl wspd turbine = Ok p /\ lo <= p <= hi.
Proof.
  intros H0 Htbl. exact (get_power_range tbl turbine lo hi wspd H0 Htbl).
Qed.

Lemma get_power_within_curve_witness :
  exists p, get_power table_0_2 1.5 "IEC class 2" = Ok p /\ 0 <= p <= 0.6.
Proof.
  apply (get_power_within_curve table_0_2 "IEC class 2" 0 0.6 1.5).
  - lra.
  - intros r [<- | [<- | [<- | []]]]; cbn; lra.
Defined.

End PowerBounds.

Section PowerInTable.
Local Open Scope R_scope.
Local Open Scope string_scope.

Variable source : file -> option snapshot.
Variable PowerCurves : list curve_row.
Variable wind_farm : list site.

Lemma Forall2_In_r (A B : Type) (P : A -> B -> Prop) (l : list A)
    (l' : list B) (y : B) :
  Forall2 P l l' -> In y l' -> exists x, In x l /\ P x y.
Proof.
  induction 1 as [ | x y' l l' Hxy _ IH ]; intros Hin; [ destruct Hin | ].
  destruct Hin as [<- | Hin].
  - exists x. split; [ left; reflexivity | exact Hxy ].
  - destruct (IH Hin) as (x' & Hx' & HP). exists x'.
    split; [ right; exact Hx' | exact HP ].
Qed.

(** X9: when the 'IEC class 2' column of the power curve holds normalized
    values (between 0 and 1) and no plant has a negative capacity, every
    power output of the returned table that is not NaN lies between 0 and
    the capacity of a plant with the row's plant id. *)
Theorem pout_within_capacity (start_date end_date : date)
    (w w' : list event) (table : frame) (missing_ : list file) :
  (forall c, In c PowerCurves -> 0 <= power c "IEC class 2" <= 1) ->
  (forall s, In s wind_farm -> 0 <= GenMWMax s) ->
  retrieve_data source PowerCurves wind_farm start_date end_date w
  = (Ok (table, missing_), w') ->
  forall r p, In r (map snd table) -> Pout r = Some p ->
  exists s, In s wind_farm /\ plantID r = astype_int32 (site_id s) /\
            0 <= p <= GenMWMax s.
Proof.
  intros Hcurve Hcap H r p Hr Hp.
  destruct (table_row_origin _ _ _ _ _ _ _ _ _ H r Hr)
    as (r0 & j & f & stj & rws & _ & -> & _ & Hin & _ & _ & _ & _ & _
        & _ & Hm).
  cbn [format_row Pout plantID] in Hp |- *.
  destruct (source f) as [tmp | ].
  - destruct Hm as (d & Hok). apply hour_ok_rows in Hok.
    destruct (Forall2_In_r _ _ _ _ _ _ Hok Hin)
      as (s & Hs & k & u & v & q & _ & _ & _ & Hq & ->).
    cbn [Pout plantID] in Hp |- *. injection Hp as <-.
    exists s. split; [ exact Hs | ]. split; [ reflexivity | ].
    destruct (get_power_range PowerCurves "IEC class 2" 0 1
                (sqrt (u ^ 2 + v ^ 2)) ltac:(lra) Hcurve)
      as (q' & Hq' & Hb).
    rewrite Hq in Hq'. injection Hq' as <-.
    specialize (Hcap s Hs). nra.
  - subst rws. unfold hour_missing, frame_rows in Hin.
    rewrite map_map in Hin. apply in_map_iff in Hin.
    destruct Hin as (s' & <- & _). discriminate.
Qed.

End PowerInTable.

Lemma pout_within_capacity_witness :
  exists table missing_ w',
    retrieve_data source_up table_0_2 [site1; site2] day0 day0 []
    = (Ok (table, missing_), w') /\
    forall r p, In r (map snd table) -> Pout r = Some p ->
    exists s, In s [site1; site2] /\ plantID r = astype_int32 (site_id s) /\
              (0 <= p <= GenMWMax s)%R.
Proof.
  destruct run_source_up_returns as (table & missing_ & w' & Hrun).
  exists table, missing_, w'. split; [ exact Hrun | ].
  apply (pout_within_capacity source_up table_0_2 [site1; site2]
           day0 day0 [] w' table missing_).
  - intros c [<- | [<- | [<- | []]]]; cbn; lra.
  - intros s [<- | [<- | []]]; cbn; lra.
  - exact Hrun.
Defined.

(** ** The trace of requests and pauses *)

Section Traces.
Local Open Scope Z_scope.

Variable source : file -> option snapshot.
Variable PowerCurves : list curve_row.
Variable wind_farm : list site.

Lemma pauses_app (w1 w2 : list event) :
  pauses (w1 ++ w2) = pauses w1 ++ pauses w2.
Proof. apply flat_map_app. Qed.

(** Whatever the outcome of an iteration, it pauses if its index is a
    positive multiple of 1000 and then issues its one request. *)
Lemma body_trace (i : Z) (f : file) (st : loop_state) (w : list event) :
  snd (body source PowerCurves wind_farm i f st w)
  = w ++ (if negb (i =? 0) && (i mod 1000 =? 0) then [Sleep 300] else [])
      ++ [Get f].
Proof.
  unfold body, bind, lift, ret, requests_get, time_sleep, emit, add_hours.
  destruct (negb (i =? 0) && (i mod 1000 =? 0));
    destruct (source f) as [tmp | ];
    try (destruct (hour_ok PowerCurves wind_farm st i tmp)
           as [[rws t2g] | e]);
    cbn -[hours_max Z.ltb];
    try match goal with |- context [?a <? ?b] => destruct (a <? b) end;
    cbn [snd]; rewrite <- ?app_assoc; reflexivity.
Qed.

Lemma loop_requests (fs : list file) :
  forall (i : Z) (st : loop_state) (w : list event),
  exists n,
    requests (snd (loop source PowerCurves wind_farm i fs st w))
    = requests w ++ firstn n fs /\
    (forall st', fst (loop source PowerCurves wind_farm i fs st w) = Ok st' ->
                 n = List.length fs).
Proof.
  induction fs as [ | f fs IH ]; intros i st w.
  - exists 0%nat. cbn. rewrite app_nil_r. auto.
  - cbn [loop]. unfold bind.
    assert (Ht := body_trace i f st w).
    destruct (body source PowerCurves wind_farm i f st w)
      as [[st1 | e] w1]; cbn [snd] in Ht.
    + destruct (IH (i + 1) st1 w1) as (n & Hn & Hall).
      exists (S n). split.
      * rewrite Hn, Ht, !requests_app. cbn [firstn].
        destruct (negb (i =? 0) && (i mod 1000 =? 0)); cbn;
          rewrite <- ?app_assoc; reflexivity.
      * intros st' H. cbn [List.length]. f_equal. exact (Hall st' H).
    + exists 1%nat. split.
      * cbn [snd firstn]. rewrite Ht, !requests_app.
        destruct (negb (i =? 0) && (i mod 1000 =? 0)); reflexivity.
      * intros st' H. discriminate H.
Qed.

Lemma cooldown_step (n : nat) :
  (n / 1000)%nat
  = ((n - 1) / 1000
     + (if (negb (Z.of_nat n =? 0) && (Z.of_nat n mod 1000 =? 0))%Z
        then 1 else 0))%nat.
Proof.
  destruct (Z.eqb_spec (Z.of_nat n) 0) as [H0 | H0]; cbn [negb andb].
  - replace n with 0%nat by lia. reflexivity.
  - apply Nat2Z.inj.
    rewrite Nat2Z.inj_add, !Nat2Z.inj_div, Nat2Z.inj_sub by lia.
    change (Z.of_nat 1000) with 1000%Z. change (Z.of_nat 1) with 1%Z.
    destruct (Z.eqb_spec (Z.of_nat n mod 1000) 0) as [Hm | Hm];
      [ change (Z.of_nat 1) with 1%Z | change (Z.of_nat 0) with 0%Z ];
      Z.div_mod_to_equations; lia.
Qed.

Lemma loop_pauses (fs : list file) :
  forall (st st' : loop_state) (w w' : list event),
  loop source PowerCurves wind_farm 0 fs st w = (Ok st', w') ->
  pauses w' = pauses w ++ repeat 300 ((List.length fs - 1) / 1000)%nat.
Proof.
  induction fs as [ | f fs IH ] using rev_ind; intros st st' w w' H.
  - cbn in H. injection H as _ <-. cbn. rewrite app_nil_r. reflexivity.
  - rewrite loop_app in H.
    destruct (loop source PowerCurves wind_farm 0 fs st w)
      as [[st1 | e] w1] eqn:H1; [ | discriminate ].
    apply IH in H1. cbn [loop] in H. unfold bind, ret in H.
    assert (Ht := body_trace (0 + Z.of_nat (List.length fs)) f st1 w1).
    destruct (body source PowerCurves wind_farm
                (0 + Z.of_nat (List.length fs)) f st1 w1)
      as [[st2 | e] w2]; [ | discriminate ].
    injection H as _ <-. cbn [snd] in Ht.
    rewrite Ht, !pauses_app, H1, <- app_assoc. f_equal.
    rewrite length_app. cbn [List.length].
    replace (List.length fs + 1 - 1)%nat with (List.length fs) by lia.
    rewrite (cooldown_step (List.length fs)), repeat_app.
    rewrite Z.add_0_l. f_equal.
    destruct (negb (Z.of_nat (List.length fs) =? 0)
              && (Z.of_nat (List.length fs) mod 1000 =? 0)); reflexivity.
Qed.

(** X11: whatever the data source answers and however the run ends, the
    requests it issues are an initial part of the schedule, in the order
    of the schedule and each once; a run that returns has issued them
    all. *)
Theorem requests_follow_schedule (start_date end_date : date)
    (w : list event) :
  exists n,
    requests (snd (retrieve_data source PowerCurves wind_farm
                                 start_date end_date w))
    = requests w
      ++ firstn n (schedule (strptime start_date)
                     (Z.to_nat (day_number end_date + 1
                                - day_number start_date))) /\
    (forall v,
       fst (retrieve_data source PowerCurves wind_farm
                          start_date end_date w) = Ok v ->
       n = List.length
             (schedule (strptime start_date)
                (Z.to_nat (day_number end_date + 1
                           - day_number start_date)))).
Proof.
  unfold retrieve_data, bind, lift, ret.
  destruct (build_files (strptime start_date) (strptime end_date) [])
    as [files | e] eqn:Hfiles.
  - rewrite <- (build_files_dates _ _ _ Hfiles).
    destruct (loop_requests files 0 (mk_state [] [] [] (strptime start_date)) w)
      as (n & Hn & Hall).
    exists n.
    destruct (loop source PowerCurves wind_farm 0 files
                (mk_state [] [] [] (strptime start_date)) w)
      as [[st | e] w1]; cbn [fst snd] in *.
    + split; [ exact Hn | ]. intros _ _. exact (Hall st eq_refl).
    + split; [ exact Hn | ]. intros v H. discriminate H.
  - exists 0%nat. cbn [fst snd firstn]. rewrite app_nil_r.
    split; [ reflexivity | ]. intros v H. discriminate H.
Qed.

Lemma loop_trace (fs : list file) :
  forall (a : nat) (st st' : loop_state) (w w' : list event),
  loop source PowerCurves wind_farm (Z.of_nat a) fs st w = (Ok st', w') ->
  w' = w ++ flat_map (fun kf : Z * file =>
                        (if negb (fst kf =? 0) && (fst kf mod 1000 =? 0)
                         then [Sleep 300] else [])
                        ++ [Get (snd kf)])
                     (combine (map Z.of_nat (seq a (List.length fs))) fs).
Proof.
  induction fs as [ | f fs IH ]; intros a st st' w w' H.
  - cbn in H. injection H as _ <-. cbn. rewrite app_nil_r. reflexivity.
  - cbn [loop] in H. unfold bind in H.
    assert (Ht := body_trace (Z.of_nat a) f st w).
    destruct (body source PowerCurves wind_farm (Z.of_nat a) f st w)
      as [[st1 | e] w1]; [ | discriminate ].
    cbn [snd] in Ht.
    replace (Z.of_nat a + 1) with (Z.of_nat (S a)) in H by lia.
    apply IH in H. rewrite H, Ht.
    cbn [List.length seq map combine flat_map fst snd].
    rewrite <- !app_assoc. reflexivity.
Qed.

(** X12: the events of a run that returns are, in this order and for each
    file of the schedule in turn, a pause of 300 seconds if the index of
    the file is a positive multiple of 1000, and the request of the
    file; so the run pauses before each such request and at no other
    time, (n - 1) / 1000 times for a schedule of n requests. *)
Theorem cooldown_pauses (start_date end_date : date) (w w' : list event)
    (table : frame) (missing_ : list file) :
  retrieve_data source PowerCurves wind_farm start_date end_date w
  = (Ok (table, missing_), w') ->
  w' = w ++ paced (schedule (strptime start_date)
                     (Z.to_nat (day_number end_date + 1
                                - day_number start_date))) /\
  pauses w'
  = pauses w
    ++ repeat 300
         ((24 * Z.to_nat (day_number end_date + 1 - day_number start_date)
           - 1) / 1000)%nat.
Proof.
  intros H. apply retrieve_data_rows in H.
  destruct H as (files & st & Hfiles & Hloop & _).
  split.
  - apply (loop_trace files 0) in Hloop. rewrite <- Hfiles. exact Hloop.
  - apply loop_pauses in Hloop. rewrite Hloop, Hfiles, schedule_length.
    reflexivity.
Qed.

End Traces.

Lemma cooldown_pauses_witness :
  exists table missing_ w',
    retrieve_data source_down table_5_6 [site1] day0 day41 []
    = (Ok (table, missing_), w') /\
    w' = [] ++ paced (schedule (strptime day0)
                        (Z.to_nat (day_number day41 + 1
                                   - day_number day0))) /\
    pauses w'
    = pauses []
      ++ repeat 300%Z
           ((24 * Z.to_nat (day_number day41 + 1 - day_number day0) - 1)
            / 1000)%nat.
Proof.
  destruct (retrieve_data_returns_source_down source_down table_5_6 [site1]
              day0 day41 [])
    as (table & missing_ & w' & Hrun);
    [ unfold days_max; cbn; lia | reflexivity | ].
  exists table, missing_, w'. split; [ exact Hrun | ].
  exact (cooldown_pauses source_down table_5_6 [site1] day0 day41 [] w'
           table missing_ Hrun).
Defined.

(** ** Runs that raise *)

Section Raises.
Local Open Scope Z_scope.

Variable source : file -> option snapshot.
Variable PowerCurves : list curve_row.
Variable wind_farm : list site.

Lemma build_files_in_range (start_date end_date : date) :
  day_number start_date <= day_number end_date ->
  day_number end_date + 1 < days_max ->
  build_files (strptime start_date) (strptime end_date) []
  = Ok (schedule (strptime start_date)
          (Z.to_nat (day_number end_date + 1 - day_number start_date))).
Proof.
  intros Hle Hmax.
  assert (He : strptime end_date
               = strptime start_date
                 + 24 * Z.of_nat (Z.to_nat (day_number end_date
                                            - day_number start_date)))
    by (unfold strptime; lia).
  rewrite He, build_files_days.
  - cbn [app]. f_equal. f_equal. lia.
  - unfold strptime, hours_max. lia.
Qed.

Lemma loop_down_keeps_dict (fs : list file) :
  forall (i : Z) (st st' : loop_state) (w w' : list event),
  Forall (fun f => source f = None) fs ->
  loop source PowerCurves wind_farm i fs st w = (Ok st', w') ->
  target2grid st' = target2grid st /\
  (empty (data st) = false -> empty (data st') = false).
Proof.
  induction fs as [ | f fs IH ]; intros i st st' w w' Hfail H.
  - cbn in H. injection H as <- _. auto.
  - apply Forall_cons_iff in Hfail. destruct Hfail as [Hf Hfail].
    cbn [loop] in H. unfold bind in H.
    destruct (body source PowerCurves wind_farm i f st w)
      as [[st1 | e] w1] eqn:Hbody; [ | discriminate ].
    apply body_inv in Hbody. rewrite Hf in Hbody.
    destruct Hbody as (_ & _ & _ & Hd & _ & Ht).
    destruct (IH _ _ _ _ _ Hfail H) as [Ht' He].
    split; [ congruence | ].
    intros Hne. apply He. rewrite Hd, empty_append, Hne. reflexivity.
Qed.

Lemma body_down_fills (i : Z) (f : file) (st st' : loop_state)
    (w w' : list event) :
  wind_farm <> [] ->
  source f = None ->
  body source PowerCurves wind_farm i f st w = (Ok st', w') ->
  empty (data st') = false /\ target2grid st' = target2grid st.
Proof.
  intros Hwf Hf Hbody. apply body_inv in Hbody. rewrite Hf in Hbody.
  destruct Hbody as (_ & _ & _ & Hd & _ & Ht).
  split; [ | exact Ht ].
  rewrite Hd, empty_append. unfold hour_missing, frame_rows.
  destruct wind_farm; [ contradiction | ].
  cbn [map]. apply andb_false_r.
Qed.

Lemma body_without_dict (i : Z) (f : file) (tmp : snapshot) (s : site)
    (rest : list site) (st : loop_state) (w : list event) :
  wind_farm = s :: rest ->
  source f = Some tmp ->
  empty (data st) = false ->
  target2grid st = [] ->
  fst (body source PowerCurves wind_farm i f st w)
  = Raise (KeyError (site_id s)).
Proof.
  intros Hwf Hf He Ht.
  unfold body, bind, lift, ret, requests_get, time_sleep, emit.
  assert (Hh : hour_ok PowerCurves wind_farm st i tmp
               = Raise (KeyError (site_id s))).
  { unfold hour_ok. rewrite He, Ht. cbn [rbind]. unfold extract.
    rewrite Hwf. reflexivity. }
  rewrite Hf, Hh.
  destruct (negb (i =? 0) && (i mod 1000 =? 0)); reflexivity.
Qed.

(** X13: with at least one plant, a run whose first request fails and
    that later receives a successful response never returns a table: it
    raises KeyError for the id of the first plant at the first successful
    response, having issued the requests up to that one. *)
Theorem failed_first_request_then_success (start_date end_date : date)
    (w : list event) (s : site) (rest : list site)
    (f0 f : file) (fs1 fs2 : list file) (tmp : snapshot) :
  wind_farm = s :: rest ->
  day_number start_date <= day_number end_date ->
  day_number end_date + 1 < days_max ->
  schedule (strptime start_date)
    (Z.to_nat (day_number end_date + 1 - day_number start_date))
  = f0 :: fs1 ++ f :: fs2 ->
  source f0 = None ->
  Forall (fun f' => source f' = None) fs1 ->
  source f = Some tmp ->
  exists w',
    retrieve_data source PowerCurves wind_farm start_date end_date w
    = (Raise (KeyError (site_id s)), w') /\
    requests w' = requests w ++ f0 :: fs1 ++ [f].
Proof.
  intros Hwf Hle Hmax Hsched Hf0 Hfs1 Hf.
  assert (Hne : wind_farm <> []) by (rewrite Hwf; discriminate).
  assert (Hlen := schedule_length
                    (Z.to_nat (day_number end_date + 1
                               - day_number start_date))
                    (strptime start_date)).
  rewrite Hsched in Hlen. cbn [List.length] in Hlen.
  rewrite length_app in Hlen. cbn [List.length] in Hlen.
  unfold retrieve_data, bind, lift, ret.
  rewrite (build_files_in_range _ _ Hle Hmax), Hsched.
  change (f0 :: fs1 ++ f :: fs2) with ((f0 :: fs1) ++ f :: fs2).
  rewrite loop_app.
  destruct (loop_all_fail source PowerCurves wind_farm (f0 :: fs1) 0
              (mk_state [] [] [] (strptime start_date)) w)
    as (st1 & w1 & H1).
  { constructor; assumption. }
  { cbn [dt List.length]. unfold strptime, hours_max. lia. }
  rewrite H1.
  assert (Hreq : requests w1 = requests w ++ f0 :: fs1).
  { destruct (loop_requests source PowerCurves wind_farm (f0 :: fs1) 0
                (mk_state [] [] [] (strptime start_date)) w)
      as (n & Hn & Hall).
    rewrite H1 in Hn, Hall. cbn [fst snd] in Hn, Hall.
    rewrite (Hall st1 eq_refl), firstn_all in Hn. exact Hn. }
  assert (Hst1 : empty (data st1) = false /\ target2grid st1 = []).
  { cbn [loop] in H1. unfold bind in H1.
    destruct (body source PowerCurves wind_farm 0 f0
                (mk_state [] [] [] (strptime start_date)) w)
      as [[st0 | e] w0] eqn:Hbody; [ | discriminate ].
    destruct (body_down_fills _ _ _ _ _ _ Hne Hf0 Hbody) as [He Ht].
    destruct (loop_down_keeps_dict _ _ _ _ _ _ Hfs1 H1) as [Ht' He'].
    split; [ exact (He' He) | rewrite Ht', Ht; reflexivity ]. }
  destruct Hst1 as [He Ht].
  cbn [loop]. unfold bind.
  assert (Hb := body_without_dict (0 + Z.of_nat (List.length (f0 :: fs1)))
                  f tmp s rest st1 w1 Hwf Hf He Ht).
  assert (Htr := body_trace source PowerCurves wind_farm
                   (0 + Z.of_nat (List.length (f0 :: fs1))) f st1 w1).
  destruct (body source PowerCurves wind_farm
              (0 + Z.of_nat (List.length (f0 :: fs1))) f st1 w1)
    as [r w2]. cbn [fst snd] in Hb, Htr. subst r.
  exists w2. split; [ reflexivity | ].
  rewrite Htr, !requests_app, Hreq.
  destruct (negb (0 + Z.of_nat (List.length (f0 :: fs1)) =? 0)
            && ((0 + Z.of_nat (List.length (f0 :: fs1))) mod 1000 =? 0));
    cbn; rewrite <- app_assoc; reflexivity.
Qed.

(** X14: with at least one plant, a run whose first response holds an
    empty grid raises ValueError (the argmin of an empty sequence) right
    after its first request. *)
Theorem empty_first_grid_raises (start_date end_date : date)
    (w : list event) (s : site) (rest : list site) (tmp : snapshot) :
  wind_farm = s :: rest ->
  day_number start_date <= day_number end_date ->
  day_number end_date + 1 < days_max ->
  source (mk_file (strptime start_date) 10000) = Some tmp ->
  lon_grid tmp = [] ->
  retrieve_data source PowerCurves wind_farm start_date end_date w
  = (Raise ValueError, w ++ [Get (mk_file (strptime start_date) 10000)]).
Proof.
  intros Hwf Hle Hmax Hf Hgrid.
  unfold retrieve_data, bind, lift, ret.
  rewrite (build_files_in_range _ _ Hle Hmax).
  replace (Z.to_nat (day_number end_date + 1 - day_number start_date))
    with (S (Z.to_nat (day_number end_date - day_number start_date)))
    by lia.
  rewrite schedule_first. cbn [loop]. unfold bind.
  assert (Hh : hour_ok PowerCurves wind_farm
                 (mk_state [] [] [] (strptime start_date)) 0 tmp
               = Raise ValueError).
  { unfold hour_ok. cbn [data empty target2grid]. rewrite Hwf.
    cbn [fill_target2grid]. unfold nearest. rewrite Hgrid. reflexivity. }
  unfold body, bind, lift, ret, requests_get, time_sleep, emit.
  cbn [Z.eqb negb andb]. rewrite Hf, Hh. reflexivity.
Qed.

(** X15: when the end date is the last day of the calendar
    (9999-12-31) and the start date is not after it, building the
    schedule raises OverflowError before any request is issued. *)
Theorem last_day_overflows (start_date end_date : date) (w : list event) :
  day_number start_date <= day_number end_date ->
  day_number end_date + 1 = days_max ->
  retrieve_data source PowerCurves wind_farm start_date end_date w
  = (Raise OverflowError, w).
Proof.
  intros Hle Hmax. unfold retrieve_data, bind, lift, ret.
  assert (He : strptime end_date
               = strptime start_date
                 + 24 * Z.of_nat (Z.to_nat (day_number end_date
                                            - day_number start_date)))
    by (unfold strptime; lia).
  rewrite He, build_files_overflow; [ reflexivity | ].
  unfold strptime, hours_max. lia.
Qed.

End Raises.

Lemma failed_first_request_then_success_witness :
  exists w',
    retrieve_data source_late table_5_6 [site1] day0 day0 []
    = (Raise (KeyError (site_id site1)), w') /\
    requests w' = requests [] ++ file0 :: [] ++ [file1].
Proof.
  apply (failed_first_request_then_success source_late table_5_6 [site1]
           day0 day0 [] site1 [] file0 file1 []
           (skipn 2 (schedule (strptime day0) 1)) grid1).
  - reflexivity.
  - cbn. lia.
  - unfold days_max. cbn. lia.
  - reflexivity.
  - reflexivity.
  - constructor.
  - reflexivity.
Defined.

Lemma empty_first_grid_raises_witness :
  retrieve_data source_empty table_5_6 [site1] day0 day0 []
  = (Raise ValueError, [] ++ [Get (mk_file (strptime day0) 10000)]).
Proof.
  apply (empty_first_grid_raises source_empty table_5_6 [site1]
           day0 day0 [] site1 [] grid0).
  - reflexivity.
  - cbn. lia.
  - unfold days_max. cbn. lia.
  - reflexivity.
  - reflexivity.
Defined.

Lemma last_day_overflows_witness :
  retrieve_data source_up table_5_6 [site1] day0 last_day []
  = (Raise OverflowError, []).
Proof.
  apply (last_day_overflows source_up table_5_6 [site1] day0 last_day []).
  - cbn. lia.
  - reflexivity.
Defined.

(** ** Runs that return *)

Section Returns.
Local Open Scope Z_scope.

Variable source : file -> option snapshot.
Variable PowerCurves : list curve_row.
Variable wind_farm : list site.

(** X16: a run over dates in range returns a table when its first request
    succeeds with a grid that is not empty, the latitude array being at
    least as long as the longitude array, and every successful response
    carries at least as many wind values as the first grid has points;
    it has then requested the whole schedule and lists exactly the failed
    requests as missing, in the order of the schedule. *)
Theorem run_completes_after_first_success (start_date end_date : date)
    (w : list event) (tmp0 : snapshot) :
  day_number start_date <= day_number end_date ->
  day_number end_date + 1 < days_max ->
  source (mk_file (strptime start_date) 10000) = Some tmp0 ->
  lon_grid tmp0 <> [] ->
  (List.length (lon_grid tmp0) <= List.length (lat_grid tmp0))%nat ->
  (forall f tmp, source f = Some tmp ->
     (List.length (lon_grid tmp0) <= List.length (u_wsp tmp))%nat /\
     (List.length (lon_grid tmp0) <= List.length (v_wsp tmp))%nat) ->
  exists table missing_ w',
    retrieve_data source PowerCurves wind_farm start_date end_date w
    = (Ok (table, missing_), w') /\
    missing_
    = filter (failed source)
        (schedule (strptime start_date)
           (Z.to_nat (day_number end_date + 1 - day_number start_date))) /\
    requests w'
    = requests w
      ++ schedule (strptime start_date)
           (Z.to_nat (day_number end_date + 1 - day_number start_date)).
Proof.
  intros Hle Hmax Hf0 Hgrid Hlat Hwsp.
  destruct (retrieve_data_returns source PowerCurves wind_farm start_date
              end_date w tmp0 Hle Hmax Hf0 Hgrid Hlat Hwsp)
    as (table & missing_ & w' & Hrun).
  exists table, missing_, w'. split; [ exact Hrun | ].
  apply retrieve_data_rows in Hrun.
  destruct Hrun as (files & st & -> & _ & _ & Hm & Hreq & _).
  split; assumption.
Qed.

(** X17: when every request fails, a run over dates in range still
    returns: every row of its table has U, V and Pout NaN, the whole
    schedule is listed as missing, and every file of the schedule was
    requested. *)
Theorem source_down_all_missing (start_date end_date : date)
    (w : list event) :
  (forall f, source f = None) ->
  day_number end_date + 1 < days_max ->
  exists table w',
    retrieve_data source PowerCurves wind_farm start_date end_date w
    = (Ok (table,
           schedule (strptime start_date)
             (Z.to_nat (day_number end_date + 1 - day_number start_date))),
       w') /\
    Forall (fun r => U r = None /\ V r = None /\ Pout r = None)
           (map snd table) /\
    requests w'
    = requests w
      ++ schedule (strptime start_date)
           (Z.to_nat (day_number end_date + 1 - day_number start_date)).
Proof.
  intros Hdown Hmax.
  destruct (retrieve_data_returns_source_down source PowerCurves wind_farm
              start_date end_date w Hmax Hdown)
    as (table & missing_ & w' & Hrun).
  exists table, w'.
  assert (Hrows := table_row_origin source PowerCurves wind_farm _ _ _ _ _ _
                     Hrun).
  assert (Hinv := retrieve_data_rows _ _ _ _ _ _ _ _ _ Hrun).
  destruct Hinv as (files & st & Hfiles & _ & _ & Hm & Hreq & _).
  rewrite <- Hfiles.
  rewrite filter_all in Hm.
  2:{ apply Forall_forall. intros f _. unfold failed. rewrite Hdown.
      reflexivity. }
  subst missing_. split; [ exact Hrun | ]. split; [ | exact Hreq ].
  apply Forall_forall. intros r Hr.
  destruct (Hrows r Hr)
    as (r0 & j & f & stj & rws & s & -> & _ & Hin & _ & _ & _ & _ & _ & _
        & Hsrc).
  rewrite Hdown in Hsrc. subst rws.
  unfold hour_missing, frame_rows in Hin. rewrite map_map in Hin.
  apply in_map_iff in Hin. destruct Hin as (s' & <- & _).
  cbn [format_row U V Pout]. auto.
Qed.

End Returns.

Lemma run_completes_after_first_success_witness :
  exists table missing_ w',
    retrieve_data source_up table_0_2 [site1; site2] day0 day0 []
    = (Ok (table, missing_), w') /\
    missing_
    = filter (failed source_up)
        (schedule (strptime day0)
           (Z.to_nat (day_number day0 + 1 - day_number day0))) /\
    requests w'
    = requests []
      ++ schedule (strptime day0)
           (Z.to_nat (day_number day0 + 1 - day_number day0)).
Proof.
  apply (run_completes_after_first_success source_up table_0_2
           [site1; site2] day0 day0 [] grid2).
  - cbn. lia.
  - unfold days_max. cbn. lia.
  - reflexivity.
  - discriminate.
  - cbn. lia.
  - intros f tmp H. injection H as <-. cbn. lia.
Defined.

Lemma source_down_all_missing_witness :
  exists table w',
    retrieve_data source_down table_5_6 [site1] day0 day1 []
    = (Ok (table,
           schedule (strptime day0)
             (Z.to_nat (day_number day1 + 1 - day_number day0))),
       w') /\
    Forall (fun r => U r = None /\ V r = None /\ Pout r = None)
           (map snd table) /\
    requests w'
    = requests []
      ++ schedule (strptime day0)
           (Z.to_nat (day_number day1 + 1 - day_number day0)).
Proof.
  apply (source_down_all_missing source_down table_5_6 [site1] day0 day1 []).
  - reflexivity.
  - unfold days_max. cbn. lia.
Defined.

(** ** Power at and between the bins: examples *)

Lemma get_power_at_bin_witness :
  get_power ([mk_curve_row 0 (fun _ => 0%R)]
             ++ mk_curve_row 1 (fun _ => 0.2%R)
                :: [mk_curve_row 2 (fun _ => 0.6%R)])
            (IZR 1) "IEC class 2"
  = Ok (power (mk_curve_row 1 (fun _ => 0.2%R)) "IEC class 2").
Proof.
  apply (get_power_at_bin [mk_curve_row 0 (fun _ => 0%R)]
           [mk_curve_row 2 (fun _ => 0.6%R)]
           (mk_curve_row 1 (fun _ => 0.2%R)) 1 "IEC class 2").
  - reflexivity.
  - intros r [<- | [<- | []]]; cbn; lra.
Defined.

Lemma get_power_interpolates_witness :
  get_power ([mk_curve_row 0 (fun _ => 0%R)]
             ++ mk_curve_row 1 (fun _ => 0.2%R)
                :: mk_curve_row 2 (fun _ => 0.6%R) :: [])
            1.5%R "IEC class 2"
  = Ok (0.2 + (0.6 - 0.2) * (1.5 - IZR (Z.of_nat 1)))%R.
Proof.
  apply (get_power_interpolates [mk_curve_row 0 (fun _ => 0%R)] []
           (mk_curve_row 1 (fun _ => 0.2%R))
           (mk_curve_row 2 (fun _ => 0.6%R)) 1.5%R "IEC class 2").
  - reflexivity.
  - cbn. lra.
  - cbn. lra.
  - intros r [<- | []]. cbn. lra.
  - intros r [].
Defined.
